(** * Easely: reminder scheduler, reconciler and subscription sweep

    A shallow embedding of the background jobs of the Easely bot
    ([app/jobs]), of the query layer they rest on ([app/database]) and of
    the rate-limit helper of the Canvas gateway ([app/api/canvas_api.py]),
    followed by the properties of the specification that were checked
    against them.

    Conventions.
    - A [datetime] is an instant in UTC, counted in microseconds (the
      resolution of Python's [datetime]); a [timedelta] is a signed number
      of microseconds.
    - A database table is a finite map from the integer primary key to the
      row; the mapped columns of a row form a record.
    - Values whose type is only known at run time (dictionary entries,
      attributes reached through [getattr]/[setattr]) are [PyVal]s.
    - Code whose answer comes from outside (the Messenger send, the Canvas
      gateway, string renderings of the standard library) is a parameter of
      the definitions that call it. *)

From Stdlib Require Import ZArith Lia.
From stdpp Require Import base option list strings gmap fin_maps fin_sets pretty sorting.

Local Open Scope Z_scope.

(** ** Time *)

Module Datetime.

Definition datetime := Z.
Definition timedelta := Z.

Definition seconds (n : Z) : timedelta := n * 1000000.
Definition minutes (n : Z) : timedelta := seconds (n * 60).
Definition hours (n : Z) : timedelta := seconds (n * 3600).
Definition days (n : Z) : timedelta := seconds (n * 86400).

(** [timedelta(days=d, hours=h)] *)
Definition days_hours (d h : Z) : timedelta := days d + hours h.

End Datetime.
Export Datetime.

(** ** Run-time values *)

Module Py.

Inductive PyVal :=
| PyNone
| PyBool (b : bool)
| PyInt (n : Z)
| PyStr (s : string)
| PyDateTime (d : datetime)
| PyEnum (cls member : string).

(** [bool(v)]: [None], [False], [0] and the empty string are false; a
    [datetime] and an enum member are always true. *)
Definition truthy (v : PyVal) : bool :=
  match v with
  | PyNone => false
  | PyBool b => b
  | PyInt n => negb (n =? 0)
  | PyStr s => negb (String.eqb s "")
  | PyDateTime _ => true
  | PyEnum _ _ => true
  end.

(** [a == b]. [bool] is a subclass of [int]; apart from that, values of
    different types are unequal. In particular a member of a plain
    [enum.Enum] is equal only to itself, never to its string value. *)
Definition py_eq (a b : PyVal) : bool :=
  match a, b with
  | PyNone, PyNone => true
  | PyBool x, PyBool y => Bool.eqb x y
  | PyBool x, PyInt n | PyInt n, PyBool x => (if x then 1 else 0) =? n
  | PyInt x, PyInt y => x =? y
  | PyStr x, PyStr y => String.eqb x y
  | PyDateTime x, PyDateTime y => x =? y
  | PyEnum c x, PyEnum d y => String.eqb c d && String.eqb x y
  | _, _ => false
  end.

Definition py_ne (a b : PyVal) : bool := negb (py_eq a b).

(** A dictionary with string keys; [d.get(k)] and [d.get(k, default)]. *)
Definition dict_get (d : gmap string PyVal) (k : string) : PyVal :=
  default PyNone (d !! k).

Definition dict_get_default (d : gmap string PyVal) (k : string) (dflt : PyVal) : PyVal :=
  default dflt (d !! k).

End Py.
Export Py.

(** ** app/database/models.py *)

Module models.

Inductive SubscriptionTier := FREE | PREMIUM.

Inductive TaskSource := CANVAS_ASSIGNMENT | CANVAS_EVENT | MANUAL_ENTRY.

(** The value an ORM attribute of type [Enum(SubscriptionTier)] holds. *)
Definition tier_value (t : SubscriptionTier) : PyVal :=
  match t with
  | FREE => PyEnum "SubscriptionTier" "FREE"
  | PREMIUM => PyEnum "SubscriptionTier" "PREMIUM"
  end.

Definition tier_eqb (a b : SubscriptionTier) : bool :=
  match a, b with
  | FREE, FREE | PREMIUM, PREMIUM => true
  | _, _ => false
  end.

(** Columns of [users] (the primary key [id] is the key of the table). *)
Record User := mkUser {
  messenger_id : string;
  canvas_token : option string;
  subscription_tier : SubscriptionTier;
  subscription_expiry_date : option datetime;
  reminder_enabled : bool;
  weekly_digest_enabled : bool;
  is_active : bool;
  token_invalid : bool;
  manual_tasks_this_month : Z;
  month_reset_date : datetime;
  last_sync_at : option datetime
}.

(** Columns of [tasks] that the jobs read or write. *)
Record Task := mkTask {
  user_id : Z;
  course_id : option Z;
  canvas_assignment_id : option string;
  canvas_event_id : option string;
  title : string;
  due_date : datetime;
  source : TaskSource;
  is_completed : bool;
  is_deleted : bool;
  reminder_1_week_sent : bool;
  reminder_3_days_sent : bool;
  reminder_1_day_sent : bool;
  reminder_8_hours_sent : bool;
  reminder_2_hours_sent : bool;
  reminder_1_hour_sent : bool
}.

(** [User.is_premium]; the wall clock it reads is the argument [now]. *)
Definition is_premium (self : User) (now : datetime) : bool :=
  if negb (tier_eqb (subscription_tier self) PREMIUM) then false
  else match subscription_expiry_date self with
       | None => false
       | Some expiry => now <? expiry
       end.

(** [User.can_add_manual_task] *)
Definition can_add_manual_task (self : User) (now : datetime) : bool :=
  if is_premium self now then true
  else manual_tasks_this_month self <? 5.

(** *** Attribute access by name

    Only the mapped columns are attributes here. The class has a few
    more names (the relationships [user] and [course], the properties
    [is_overdue], [canvas_id], [is_canvas_task], the two methods); no
    caller in the jobs uses one of them as a key. *)

Definition opt_str (o : option string) : PyVal :=
  match o with Some s => PyStr s | None => PyNone end.

Definition opt_int (o : option Z) : PyVal :=
  match o with Some n => PyInt n | None => PyNone end.

Definition source_value (s : TaskSource) : PyVal :=
  match s with
  | CANVAS_ASSIGNMENT => PyEnum "TaskSource" "CANVAS_ASSIGNMENT"
  | CANVAS_EVENT => PyEnum "TaskSource" "CANVAS_EVENT"
  | MANUAL_ENTRY => PyEnum "TaskSource" "MANUAL_ENTRY"
  end.

Definition task_columns (t : Task) : list (string * PyVal) :=
  [ ("user_id", PyInt (user_id t));
    ("course_id", opt_int (course_id t));
    ("canvas_assignment_id", opt_str (canvas_assignment_id t));
    ("canvas_event_id", opt_str (canvas_event_id t));
    ("title", PyStr (title t));
    ("due_date", PyDateTime (due_date t));
    ("source", source_value (source t));
    ("is_completed", PyBool (is_completed t));
    ("is_deleted", PyBool (is_deleted t));
    ("reminder_1_week_sent", PyBool (reminder_1_week_sent t));
    ("reminder_3_days_sent", PyBool (reminder_3_days_sent t));
    ("reminder_1_day_sent", PyBool (reminder_1_day_sent t));
    ("reminder_8_hours_sent", PyBool (reminder_8_hours_sent t));
    ("reminder_2_hours_sent", PyBool (reminder_2_hours_sent t));
    ("reminder_1_hour_sent", PyBool (reminder_1_hour_sent t)) ].

Fixpoint assoc (k : string) (l : list (string * PyVal)) : option PyVal :=
  match l with
  | [] => None
  | (k', v) :: l' => if String.eqb k k' then Some v else assoc k l'
  end.

(** [getattr(task, name)]; [None] when [hasattr(task, name)] is false. *)
Definition task_getattr (name : string) (t : Task) : option PyVal :=
  assoc name (task_columns t).

Definition task_hasattr (name : string) (t : Task) : bool :=
  bool_decide (is_Some (task_getattr name t)).

Definition set_user_id (v : Z) (t : Task) : Task :=
  let '(mkTask _ b c d e f g h i j k l m n o) := t in mkTask v b c d e f g h i j k l m n o.
Definition set_course_id (v : option Z) (t : Task) : Task :=
  let '(mkTask a _ c d e f g h i j k l m n o) := t in mkTask a v c d e f g h i j k l m n o.
Definition set_canvas_assignment_id (v : option string) (t : Task) : Task :=
  let '(mkTask a b _ d e f g h i j k l m n o) := t in mkTask a b v d e f g h i j k l m n o.
Definition set_canvas_event_id (v : option string) (t : Task) : Task :=
  let '(mkTask a b c _ e f g h i j k l m n o) := t in mkTask a b c v e f g h i j k l m n o.
Definition set_source (v : TaskSource) (t : Task) : Task :=
  let '(mkTask a b c d e f _ h i j k l m n o) := t in mkTask a b c d e f v h i j k l m n o.
Definition set_title (v : string) (t : Task) : Task :=
  let '(mkTask a b c d _ f g h i j k l m n o) := t in mkTask a b c d v f g h i j k l m n o.
Definition set_due_date (v : datetime) (t : Task) : Task :=
  let '(mkTask a b c d e _ g h i j k l m n o) := t in mkTask a b c d e v g h i j k l m n o.
Definition set_is_completed (v : bool) (t : Task) : Task :=
  let '(mkTask a b c d e f g _ i j k l m n o) := t in mkTask a b c d e f g v i j k l m n o.
Definition set_is_deleted (v : bool) (t : Task) : Task :=
  let '(mkTask a b c d e f g h _ j k l m n o) := t in mkTask a b c d e f g h v j k l m n o.
Definition set_reminder_1_week_sent (v : bool) (t : Task) : Task :=
  let '(mkTask a b c d e f g h i _ k l m n o) := t in mkTask a b c d e f g h i v k l m n o.
Definition set_reminder_3_days_sent (v : bool) (t : Task) : Task :=
  let '(mkTask a b c d e f g h i j _ l m n o) := t in mkTask a b c d e f g h i j v l m n o.
Definition set_reminder_1_day_sent (v : bool) (t : Task) : Task :=
  let '(mkTask a b c d e f g h i j k _ m n o) := t in mkTask a b c d e f g h i j k v m n o.
Definition set_reminder_8_hours_sent (v : bool) (t : Task) : Task :=
  let '(mkTask a b c d e f g h i j k l _ n o) := t in mkTask a b c d e f g h i j k l v n o.
Definition set_reminder_2_hours_sent (v : bool) (t : Task) : Task :=
  let '(mkTask a b c d e f g h i j k l m _ o) := t in mkTask a b c d e f g h i j k l m v o.
Definition set_reminder_1_hour_sent (v : bool) (t : Task) : Task :=
  let '(mkTask a b c d e f g h i j k l m n _) := t in mkTask a b c d e f g h i j k l m n v.

(** The six reminder markers of a task, in the order of the columns. *)
Definition markers (t : Task) : list bool :=
  [ reminder_1_week_sent t; reminder_3_days_sent t; reminder_1_day_sent t;
    reminder_8_hours_sent t; reminder_2_hours_sent t; reminder_1_hour_sent t ].

(** What a Boolean column takes: [True], [False], [1] or [0]. *)
Definition as_bool (v : PyVal) : option bool :=
  match v with
  | PyBool b => Some b
  | PyInt 0 => Some false
  | PyInt 1 => Some true
  | _ => None
  end.

Definition as_int (v : PyVal) : option Z :=
  match v with
  | PyInt n => Some n
  | PyBool b => Some (if b then 1 else 0)
  | _ => None
  end.

Definition as_opt_int (v : PyVal) : option (option Z) :=
  match v with
  | PyNone => Some None
  | _ => Some <$> as_int v
  end.

Definition as_opt_str (v : PyVal) : option (option string) :=
  match v with
  | PyNone => Some None
  | PyStr s => Some (Some s)
  | _ => None
  end.

Definition source_of_name (s : string) : option TaskSource :=
  if String.eqb s "CANVAS_ASSIGNMENT" then Some CANVAS_ASSIGNMENT
  else if String.eqb s "CANVAS_EVENT" then Some CANVAS_EVENT
  else if String.eqb s "MANUAL_ENTRY" then Some MANUAL_ENTRY
  else None.

Definition as_source (v : PyVal) : option TaskSource :=
  match v with
  | PyEnum cls member => if String.eqb cls "TaskSource" then source_of_name member else None
  | PyStr s => source_of_name s
  | _ => None
  end.

Section setattr.
(** How the database reads a string written to a timestamp column;
    [None] when it rejects the string. *)
Variable cast_timestamp : string -> option datetime.

Definition as_datetime (v : PyVal) : option datetime :=
  match v with
  | PyDateTime d => Some d
  | PyStr s => cast_timestamp s
  | _ => None
  end.

(** [setattr(task, key, value)] followed by the flush of the row.
    - [None]: the task has no such attribute ([hasattr] is false);
    - [Some None]: the value does not fit the column (wrong type, or
      [None] for a column that is not nullable), the flush raises;
    - [Some (Some t')]: the row after the write.
    Foreign keys and unique constraints are not checked. *)
Definition task_setattr (key : string) (v : PyVal) (t : Task) : option (option Task) :=
  if String.eqb key "title" then
    Some (match v with PyStr s => Some (set_title s t) | _ => None end)
  else if String.eqb key "due_date" then
    Some ((fun d => set_due_date d t) <$> as_datetime v)
  else if String.eqb key "is_completed" then
    Some ((fun b => set_is_completed b t) <$> as_bool v)
  else if String.eqb key "is_deleted" then
    Some ((fun b => set_is_deleted b t) <$> as_bool v)
  else if String.eqb key "reminder_1_week_sent" then
    Some ((fun b => set_reminder_1_week_sent b t) <$> as_bool v)
  else if String.eqb key "reminder_3_days_sent" then
    Some ((fun b => set_reminder_3_days_sent b t) <$> as_bool v)
  else if String.eqb key "reminder_1_day_sent" then
    Some ((fun b => set_reminder_1_day_sent b t) <$> as_bool v)
  else if String.eqb key "reminder_8_hours_sent" then
    Some ((fun b => set_reminder_8_hours_sent b t) <$> as_bool v)
  else if String.eqb key "reminder_2_hours_sent" then
    Some ((fun b => set_reminder_2_hours_sent b t) <$> as_bool v)
  else if String.eqb key "reminder_1_hour_sent" then
    Some ((fun b => set_reminder_1_hour_sent b t) <$> as_bool v)
  else if String.eqb key "user_id" then
    Some ((fun n => set_user_id n t) <$> as_int v)
  else if String.eqb key "course_id" then
    Some ((fun n => set_course_id n t) <$> as_opt_int v)
  else if String.eqb key "canvas_assignment_id" then
    Some ((fun n => set_canvas_assignment_id n t) <$> as_opt_str v)
  else if String.eqb key "canvas_event_id" then
    Some ((fun n => set_canvas_event_id n t) <$> as_opt_str v)
  else if String.eqb key "source" then
    Some ((fun n => set_source n t) <$> as_source v)
  else None.
End setattr.

(** [Task.mark_reminder_sent] *)
Definition reminder_mapping : list (string * string) :=
  [ ("1_week", "reminder_1_week_sent");
    ("3_days", "reminder_3_days_sent");
    ("1_day", "reminder_1_day_sent");
    ("8_hours", "reminder_8_hours_sent");
    ("2_hours", "reminder_2_hours_sent");
    ("1_hour", "reminder_1_hour_sent") ].

Fixpoint mapping_get (k : string) (l : list (string * string)) : option string :=
  match l with
  | [] => None
  | (k', v) :: l' => if String.eqb k k' then Some v else mapping_get k l'
  end.

Definition mark_reminder_sent (self : Task) (reminder_type : string) : Task :=
  match mapping_get reminder_type reminder_mapping with
  | Some column =>
      match task_setattr (fun _ => None) column (PyBool true) self with
      | Some (Some self') => self'
      | _ => self
      end
  | None => self
  end.

(** [Task.get_reminder_status] *)
Definition get_reminder_status (self : Task) : list (string * bool) :=
  [ ("1_week", reminder_1_week_sent self);
    ("3_days", reminder_3_days_sent self);
    ("1_day", reminder_1_day_sent self);
    ("8_hours", reminder_8_hours_sent self);
    ("2_hours", reminder_2_hours_sent self);
    ("1_hour", reminder_1_hour_sent self) ].

(** [status[key]] for a key of the dictionary, [None] otherwise. *)
Fixpoint status_get (k : string) (status : list (string * bool)) : option bool :=
  match status with
  | [] => None
  | (k', v) :: rest => if String.eqb k k' then Some v else status_get k rest
  end.

(** [Task.is_overdue]; the wall clock it reads is the argument [now]. *)
Definition is_overdue (self : Task) (now : datetime) : bool :=
  (due_date self <? now) && negb (is_completed self).

(** [Task.canvas_id] *)
Definition canvas_id (self : Task) : option string :=
  match source self with
  | CANVAS_ASSIGNMENT => canvas_assignment_id self
  | CANVAS_EVENT => canvas_event_id self
  | MANUAL_ENTRY => None
  end.

(** [Task.is_canvas_task] *)
Definition is_canvas_task (self : Task) : bool :=
  match source self with
  | CANVAS_ASSIGNMENT | CANVAS_EVENT => true
  | MANUAL_ENTRY => false
  end.

End models.
Export models.

(** ** app/database/queries.py *)

Module queries.

Definition set_subscription (tier : SubscriptionTier) (expiry : option datetime) (u : User) : User :=
  let '(mkUser a b _ _ e f g h i j k) := u in mkUser a b tier expiry e f g h i j k.

Definition set_monthly_tasks (count : Z) (reset : datetime) (u : User) : User :=
  let '(mkUser a b c d e f g h _ _ k) := u in mkUser a b c d e f g h count reset k.

(** [update_user_subscription] *)
Definition update_user_subscription (users : gmap Z User) (uid : Z)
    (tier : SubscriptionTier) (expiry_date : option datetime) : gmap Z User * bool :=
  match users !! uid with
  | None => (users, false)
  | Some user => (<[uid := set_subscription tier expiry_date user]> users, true)
  end.

Section calendar.
(** [now.replace(day=1, hour=0, minute=0, second=0, microsecond=0)] *)
Variable month_start : datetime -> datetime.

(** [increment_user_monthly_tasks] *)
Definition increment_user_monthly_tasks (now : datetime) (users : gmap Z User) (uid : Z)
    : gmap Z User * bool :=
  match users !! uid with
  | None => (users, false)
  | Some user =>
      let user' :=
        if month_reset_date user + days 31 <=? now
        then set_monthly_tasks 1 (month_start now) user
        else set_monthly_tasks (manual_tasks_this_month user + 1) (month_reset_date user) user in
      (<[uid := user']> users, true)
  end.
End calendar.

Section tasks.
Variable cast_timestamp : string -> option datetime.

(** The loop of [update_task] over [updates.items()], then the commit:
    [None] when the commit raises. *)
Fixpoint apply_updates (updates : list (string * PyVal)) (task : Task) : option Task :=
  match updates with
  | [] => Some task
  | (key, value) :: rest =>
      match task_setattr cast_timestamp key value task with
      | None => apply_updates rest task
      | Some None => None
      | Some (Some task') => apply_updates rest task'
      end
  end.

(** [update_task]: on a failed commit the session is rolled back and
    the row stays as it was. *)
Definition update_task (tasks : gmap Z Task) (task_id : Z) (updates : list (string * PyVal))
    : gmap Z Task * bool :=
  match tasks !! task_id with
  | None => (tasks, false)
  | Some task =>
      match apply_updates updates task with
      | Some task' => (<[task_id := task']> tasks, true)
      | None => (tasks, false)
      end
  end.

Definition mark_task_completed (tasks : gmap Z Task) (task_id : Z) : gmap Z Task * bool :=
  update_task tasks task_id [("is_completed", PyBool true)].

Definition soft_delete_task (tasks : gmap Z Task) (task_id : Z) : gmap Z Task * bool :=
  update_task tasks task_id [("is_deleted", PyBool true)].
End tasks.

(** [mark_reminder_sent] of the query layer *)
Definition mark_reminder_sent (tasks : gmap Z Task) (task_id : Z) (reminder_type : string)
    : gmap Z Task * bool :=
  match tasks !! task_id with
  | None => (tasks, false)
  | Some task => (<[task_id := models.mark_reminder_sent task reminder_type]> tasks, true)
  end.

(** [session.query(Task).join(User).filter(...)]: the rows of [tasks]
    whose user exists and that pass the filter. *)
Definition query_task_join_user (tasks : gmap Z Task) (users : gmap Z User)
    (cond : Task -> User -> bool) : list (Z * Task) :=
  List.filter
    (fun row => match users !! user_id row.2 with
                | Some u => cond row.2 u
                | None => false
                end)
    (map_to_list tasks).

(** The dictionary [reminder_windows] of [get_tasks_needing_reminders]. *)
Definition reminder_windows (now : datetime) : list (string * (datetime * datetime)) :=
  [ ("1_week", (now + days_hours 6 23, now + days_hours 7 1));
    ("3_days", (now + days_hours 2 23, now + days_hours 3 1));
    ("1_day", (now + hours 23, now + hours 25));
    ("8_hours", (now + hours 7, now + hours 9));
    ("2_hours", (now + hours 1, now + hours 3));
    ("1_hour", (now + minutes 30, now + minutes 90)) ].

(** The reminder-specific filters (the [if]/[elif] chain). *)
Definition reminder_filter (reminder_type : string) (t : Task) (u : User) : bool :=
  if String.eqb reminder_type "1_week" then
    negb (reminder_1_week_sent t) && tier_eqb (subscription_tier u) PREMIUM
  else if String.eqb reminder_type "3_days" then
    negb (reminder_3_days_sent t) && tier_eqb (subscription_tier u) PREMIUM
  else if String.eqb reminder_type "1_day" then
    negb (reminder_1_day_sent t)
  else if String.eqb reminder_type "8_hours" then
    negb (reminder_8_hours_sent t) && tier_eqb (subscription_tier u) PREMIUM
  else if String.eqb reminder_type "2_hours" then
    negb (reminder_2_hours_sent t) && tier_eqb (subscription_tier u) PREMIUM
  else if String.eqb reminder_type "1_hour" then
    negb (reminder_1_hour_sent t) && tier_eqb (subscription_tier u) PREMIUM
  else true.

Definition reminder_query (tasks : gmap Z Task) (users : gmap Z User)
    (reminder_type : string) (start_time end_time : datetime) : list (Z * Task) :=
  query_task_join_user tasks users
    (fun t u =>
       negb (is_deleted t) && negb (is_completed t)
       && (start_time <=? due_date t) && (due_date t <=? end_time)
       && is_active u && reminder_enabled u
       && reminder_filter reminder_type t u).

(** [get_tasks_needing_reminders]: reminder type -> tasks. *)
Definition get_tasks_needing_reminders (now : datetime)
    (tasks : gmap Z Task) (users : gmap Z User) : list (string * list (Z * Task)) :=
  map (fun '(reminder_type, (start_time, end_time)) =>
         (reminder_type, reminder_query tasks users reminder_type start_time end_time))
      (reminder_windows now).

(** [results[reminder_type]] *)
Fixpoint results_get (reminder_type : string) (results : list (string * list (Z * Task)))
    : list (Z * Task) :=
  match results with
  | [] => []
  | (k, v) :: rest => if String.eqb reminder_type k then v else results_get reminder_type rest
  end.

(** [get_expired_premium_users]. In SQL a comparison with a NULL expiry
    is not true, so such a row is not selected. *)
Definition expired_premium (now : datetime) (u : User) : bool :=
  tier_eqb (subscription_tier u) PREMIUM
  && match subscription_expiry_date u with
     | Some expiry => expiry <? now
     | None => false
     end
  && is_active u.

Definition get_expired_premium_users (now : datetime) (users : gmap Z User) : list (Z * User) :=
  List.filter (fun row => expired_premium now row.2) (map_to_list users).

(** [downgrade_expired_users]: one UPDATE over the rows whose id is in
    [user_ids]; the result is the number of rows matched. *)
Definition downgrade_expired_users (users : gmap Z User) (user_ids : list Z) : gmap Z User * Z :=
  (map_imap (fun uid u =>
               Some (if bool_decide (uid ∈ user_ids) then set_subscription FREE None u else u))
            users,
   Z.of_nat (length (List.filter (fun row => bool_decide (row.1 ∈ user_ids)) (map_to_list users)))).

(** *** Ordered and limited queries

    [ORDER BY] is an insertion sort on the rows the scan delivers: rows
    with equal keys stay in the order of the scan. *)
Section ordering.
Context {A : Type}.
Variable le : A -> A -> bool.

Fixpoint insert_sorted (x : A) (l : list A) : list A :=
  match l with
  | [] => [x]
  | y :: rest => if le x y then x :: l else y :: insert_sorted x rest
  end.

Definition order_by (l : list A) : list A := foldr insert_sorted [] l.
End ordering.

Definition by_due_date (a b : Z * Task) : bool := due_date a.2 <=? due_date b.2.
Definition by_due_date_desc (a b : Z * Task) : bool := due_date b.2 <=? due_date a.2.

(** The filters every menu query starts with: the tasks of the user that
    are neither soft-deleted nor completed. *)
Definition open_tasks (tasks : gmap Z Task) (uid : Z) (cond : Task -> bool) : list (Z * Task) :=
  List.filter
    (fun row => (user_id row.2 =? uid) && negb (is_deleted row.2) && negb (is_completed row.2)
                && cond row.2)
    (map_to_list tasks).

(** [get_tasks_due_today] *)
Definition get_tasks_due_today (now : datetime) (tasks : gmap Z Task) (uid : Z) : list (Z * Task) :=
  let tomorrow := now + days 1 in
  order_by by_due_date
    (open_tasks tasks uid (fun t => (now <=? due_date t) && (due_date t <=? tomorrow))).

(** [get_tasks_due_this_week] *)
Definition get_tasks_due_this_week (now : datetime) (tasks : gmap Z Task) (uid : Z)
    : list (Z * Task) :=
  let next_week := now + days 7 in
  order_by by_due_date
    (open_tasks tasks uid (fun t => (now <=? due_date t) && (due_date t <=? next_week))).

(** [get_overdue_tasks]: most recently overdue first. *)
Definition get_overdue_tasks (now : datetime) (tasks : gmap Z Task) (uid : Z) : list (Z * Task) :=
  order_by by_due_date_desc (open_tasks tasks uid (fun t => due_date t <? now)).

(** [get_all_upcoming_tasks]. PostgreSQL rejects a negative [LIMIT]; the
    error is caught and the function returns the empty list. *)
Definition get_all_upcoming_tasks (now : datetime) (tasks : gmap Z Task) (uid : Z) (limit : Z)
    : list (Z * Task) :=
  if limit <? 0 then []
  else take (Z.to_nat limit)
            (order_by by_due_date (open_tasks tasks uid (fun t => now <=? due_date t))).

(** [get_users_for_weekly_digest]: the query, then the filter on
    [is_premium]. *)
Definition get_users_for_weekly_digest (now : datetime) (users : gmap Z User) : list (Z * User) :=
  let selected :=
    List.filter
      (fun row : Z * User =>
         tier_eqb (subscription_tier row.2) PREMIUM && weekly_digest_enabled row.2
         && is_active row.2 && negb (token_invalid row.2))
      (map_to_list users) in
  List.filter (fun row : Z * User => is_premium row.2 now) selected.

(** [last_sync_at.asc().nullsfirst()] *)
Definition by_last_sync (a b : Z * User) : bool :=
  match last_sync_at a.2, last_sync_at b.2 with
  | None, _ => true
  | Some _, None => false
  | Some x, Some y => x <=? y
  end.

(** The filter of [get_users_for_canvas_refresh]. *)
Definition needs_refresh (now : datetime) (u : User) : bool :=
  let cutoff_time := now - hours 6 in
  is_active u
  && bool_decide (canvas_token u ≠ None)
  && (bool_decide (last_sync_at u = None)
      || match last_sync_at u with Some t => t <? cutoff_time | None => false end
      || negb (token_invalid u)).

(** [get_users_for_canvas_refresh]; a negative batch size as for
    [get_all_upcoming_tasks]. *)
Definition get_users_for_canvas_refresh (now : datetime) (users : gmap Z User) (batch_size : Z)
    : list (Z * User) :=
  if batch_size <? 0 then []
  else take (Z.to_nat batch_size)
            (order_by by_last_sync
               (List.filter (fun row : Z * User => needs_refresh now row.2) (map_to_list users))).

Definition set_sync_status (last_sync : option datetime) (invalid : bool) (u : User) : User :=
  let '(mkUser a b c d e f g _ i j _) := u in mkUser a b c d e f g invalid i j last_sync.

(** [update_user_last_sync] *)
Definition update_user_last_sync (now : datetime) (users : gmap Z User) (uid : Z) (success : bool)
    : gmap Z User * bool :=
  match users !! uid with
  | None => (users, false)
  | Some user =>
      let user' := if success then set_sync_status (Some now) false user
                   else set_sync_status (last_sync_at user) true user in
      (<[uid := user']> users, true)
  end.

(** [mark_user_token_invalid] *)
Definition mark_user_token_invalid (users : gmap Z User) (uid : Z) : gmap Z User * bool :=
  match users !! uid with
  | None => (users, false)
  | Some user => (<[uid := set_sync_status (last_sync_at user) true user]> users, true)
  end.

End queries.

(** ** app/jobs/send_reminders.py *)

Module send_reminders.

(** [message_template] and [emoji] only feed the text of the message. *)
Record ReminderWindow := mkWindow { name : string; hours_before : Z }.

Definition FREE_TIER_WINDOWS : list ReminderWindow :=
  [ mkWindow "24_hour" 24 ].

Definition PREMIUM_TIER_WINDOWS : list ReminderWindow :=
  [ mkWindow "1_week" 168;
    mkWindow "3_days" 72;
    mkWindow "24_hours" 24;
    mkWindow "8_hours" 8;
    mkWindow "2_hours" 2;
    mkWindow "1_hour" 1 ].

Record ReminderStats := mkStats {
  total_tasks_checked : Z;
  reminders_sent : Z;
  reminders_failed : Z;
  users_notified : Z;
  free_tier_reminders : Z;
  premium_tier_reminders : Z;
  reminder_breakdown : gmap string Z
}.

Definition empty_stats : ReminderStats := mkStats 0 0 0 0 0 0 ∅.

(** [(current_time - target).total_seconds()] is compared with 1800;
    at microsecond resolution the comparison is exact. Any exception in
    the body makes the function return [False]. *)
Definition should_send_reminder (task : Task) (window : ReminderWindow)
    (current_time : datetime) : bool :=
  let target_reminder_time := due_date task - hours (hours_before window) in
  let time_diff := Z.abs (current_time - target_reminder_time) in
  let within_window := time_diff <=? seconds 1800 in
  if negb within_window then false
  else
    let last_reminder_field := "last_" +:+ name window +:+ "_reminder" in
    match task_getattr last_reminder_field task with
    | Some last_sent =>
        if truthy last_sent then
          match last_sent with
          | PyDateTime sent => negb (target_reminder_time - hours 1 <=? sent)
          | _ => false
          end
        else true
    | None => true
    end.

(** The [for window in available_windows] loop up to its [break]: the
    first window, in list order, for which the check passes. *)
Fixpoint first_due_window (task : Task) (current_time : datetime)
    (available_windows : list ReminderWindow) : option ReminderWindow :=
  match available_windows with
  | [] => None
  | window :: rest =>
      if should_send_reminder task window current_time then Some window
      else first_due_window task current_time rest
  end.

(** The test [task.user.subscription_tier == 'premium']: the attribute
    holds a member of [SubscriptionTier], the right-hand side is a
    string. *)
Definition tier_is_premium_string (u : User) : bool :=
  py_eq (tier_value (subscription_tier u)) (PyStr "premium").

Definition available_windows (u : User) : list ReminderWindow :=
  if tier_is_premium_string u then PREMIUM_TIER_WINDOWS else FREE_TIER_WINDOWS.

(** Modelled from the spec: the sent flag of a window, for
    [update_task_last_reminder] below. It is the marker column for the
    same offset before the due date. *)
Definition window_marker (window_name : string) : option string :=
  if String.eqb window_name "1_week" then Some "reminder_1_week_sent"
  else if String.eqb window_name "3_days" then Some "reminder_3_days_sent"
  else if String.eqb window_name "24_hours" then Some "reminder_1_day_sent"
  else if String.eqb window_name "24_hour" then Some "reminder_1_day_sent"
  else if String.eqb window_name "8_hours" then Some "reminder_8_hours_sent"
  else if String.eqb window_name "2_hours" then Some "reminder_2_hours_sent"
  else if String.eqb window_name "1_hour" then Some "reminder_1_hour_sent"
  else None.

(** Modelled from the spec: the write of [update_task_last_reminder] to
    the row, the sent flag of that window set to true. *)
Definition mark_window_sent (window_name : string) (task : Task) : Task :=
  match window_marker window_name with
  | Some column =>
      match task_setattr (fun _ => None) column (PyBool true) task with
      | Some (Some task') => task'
      | _ => task
      end
  | None => task
  end.

(** Modelled from the spec: [update_task_last_reminder] is imported from
    [app.database.queries], which does not define it. Section 4.2: after
    a successful dispatch the sent flag of that window is set to true
    and persisted. *)
Definition update_task_last_reminder (tasks : gmap Z Task) (task_id : Z)
    (window_name : string) (current_time : datetime) : gmap Z Task :=
  match tasks !! task_id with
  | Some task => <[task_id := mark_window_sent window_name task]> tasks
  | None => tasks
  end.

(** What one run has done so far. [outbox] lists the calls of
    [send_reminder_to_user], latest first: task, window, answer. *)
Record Run := mkRun {
  db_tasks : gmap Z Task;
  stats : ReminderStats;
  notified_users : gset Z;
  outbox : list (Z * ReminderWindow * bool)
}.

Definition count_failed (s : ReminderStats) : ReminderStats :=
  let '(mkStats a b c d e f g) := s in mkStats a b (c + 1) d e f g.

Definition count_sent (premium : bool) (window_name : string) (s : ReminderStats) : ReminderStats :=
  let '(mkStats a b c d e f g) := s in
  mkStats a (b + 1) c d
          (if premium then e else e + 1)
          (if premium then f + 1 else f)
          (<[window_name := default 0 (g !! window_name) + 1]> g).

Section job.
(** The answer of [send_reminder_to_user] for a task and a window: the
    message is formatted and handed to the Messenger API, and every
    failure on the way comes back as [False]. *)
Variable send_reminder_to_user : Z -> ReminderWindow -> bool.
Variable users : gmap Z User.

(** The body of the [for task in tasks_needing_reminders] loop. A task
    without its user raises inside the [try], which counts one
    failure. *)
Definition process_task (current_time : datetime) (r : Run) (task_id : Z) : Run :=
  match db_tasks r !! task_id with
  | None => r
  | Some task =>
      match users !! user_id task with
      | None => mkRun (db_tasks r) (count_failed (stats r)) (notified_users r) (outbox r)
      | Some user =>
          match first_due_window task current_time (available_windows user) with
          | None => r
          | Some window =>
              let success := send_reminder_to_user task_id window in
              if success then
                mkRun (update_task_last_reminder (db_tasks r) task_id (name window) current_time)
                      (count_sent (tier_is_premium_string user) (name window) (stats r))
                      ({[ user_id task ]} ∪ notified_users r)
                      ((task_id, window, true) :: outbox r)
              else
                mkRun (db_tasks r) (count_failed (stats r)) (notified_users r)
                      ((task_id, window, false) :: outbox r)
          end
      end
  end.

Definition set_checked (n : Z) (s : ReminderStats) : ReminderStats :=
  let '(mkStats _ b c d e f g) := s in mkStats n b c d e f g.

Definition set_notified (n : Z) (s : ReminderStats) : ReminderStats :=
  let '(mkStats a b c _ e f g) := s in mkStats a b c n e f g.

(** [process_reminders], from the tasks the query handed over (their
    ids; the rows are the objects of the session, read when their turn
    comes). The job calls [get_tasks_needing_reminders(db, current_time)]
    and walks the result as a sequence of tasks; the function of that name
    in the query layer takes no time and returns a dictionary of lists, so
    the sequence is an argument here. *)
Definition process_reminders (current_time : datetime) (tasks : gmap Z Task)
    (tasks_needing_reminders : list Z) : Run :=
  let start := mkRun tasks empty_stats ∅ [] in
  match tasks_needing_reminders with
  | [] => start
  | _ =>
      let r := foldl (process_task current_time)
                     (mkRun tasks
                            (set_checked (Z.of_nat (length tasks_needing_reminders)) empty_stats)
                            ∅ [])
                     tasks_needing_reminders in
      mkRun (db_tasks r)
            (set_notified (Z.of_nat (size (notified_users r))) (stats r))
            (notified_users r) (outbox r)
  end.
End job.

End send_reminders.

(** ** app/jobs/check_expiries.py *)

Module check_expiries.

(** Modelled from the spec: [revert_user_to_free] is imported from
    [app.database.queries], which does not define it. Section 4.3: the
    sweep flips the tier to free and clears the expiry. It is the write
    of [queries.downgrade_expired_users] for one user id. *)
Definition revert_user_to_free (users : gmap Z User) (uid : Z) : gmap Z User * bool :=
  match users !! uid with
  | None => (users, false)
  | Some user => (<[uid := queries.set_subscription FREE None user]> users, true)
  end.

(** [notifications] lists the calls of [send_expiry_notification],
    latest first: user id and answer. *)
Record Sweep := mkSweep {
  db_users : gmap Z User;
  reverted_count : Z;
  notification_count : Z;
  notifications : list (Z * bool)
}.

Section job.
(** The answer of [send_expiry_notification] for a Messenger id; an
    exception of the send comes back as [False]. *)
Variable send_expiry_notification : string -> bool.

(** The body of the [for user in expired_users] loop. *)
Definition process_user (s : Sweep) (row : Z * User) : Sweep :=
  let '(uid, user) := row in
  let '(users', success) := revert_user_to_free (db_users s) uid in
  if success then
    let sent := send_expiry_notification (messenger_id user) in
    mkSweep users' (reverted_count s + 1)
            (if sent then notification_count s + 1 else notification_count s)
            ((uid, sent) :: notifications s)
  else s.

Definition process_expired_users (now : datetime) (users : gmap Z User) : Sweep :=
  foldl process_user (mkSweep users 0 0 []) (queries.get_expired_premium_users now users).
End job.

End check_expiries.

(** ** app/api/canvas_api.py *)

Module canvas_api.

(** [TokenInvalidError] and [RateLimitError] are subclasses of
    [CanvasAPIError]; [OtherError] is any exception outside that
    hierarchy. *)
Inductive Exn := TokenInvalidError | RateLimitError | CanvasAPIError | OtherError.

Definition is_CanvasAPIError (e : Exn) : bool :=
  match e with
  | OtherError => false
  | _ => true
  end.

Inductive Reply (A : Type) :=
| Returned (a : A)
| Raised (e : Exn).
Arguments Returned {A} a.
Arguments Raised {A} e.

(** What the process did besides computing: calls of the [i]-th request
    function and sleeps (in milliseconds). *)
Inductive Event := Called (i : nat) | Slept (ms : Z).

(** One turn of the loop of [batch_request_with_rate_limit]. A request
    function is given by its answers, indexed by how often it has been
    called before. *)
Definition batch_step {A} (i : nat) (request_func : nat -> Reply A)
    : option A * list Event :=
  match request_func 0%nat with
  | Returned result => (Some result, [Called i])
  | Raised RateLimitError =>
      match request_func 1%nat with
      | Returned result => (Some result, [Called i; Slept 5000; Called i])
      | Raised _ => (None, [Called i; Slept 5000; Called i])
      end
  | Raised _ => (None, [Called i])
  end.

Fixpoint batch_loop {A} (len i : nat) (requests_list : list (nat -> Reply A)) (delay : Z)
    : list (option A) * list Event :=
  match requests_list with
  | [] => ([], [])
  | request_func :: rest =>
      let '(result, events) := batch_step i request_func in
      let pause := if (Z.of_nat i <? Z.of_nat len - 1) then [Slept delay] else [] in
      let '(results, later) := batch_loop len (S i) rest delay in
      (result :: results, events ++ pause ++ later)
  end.

(** [batch_request_with_rate_limit]; [delay] in milliseconds (100 by
    default). *)
Definition batch_request_with_rate_limit {A} (requests_list : list (nat -> Reply A))
    (delay : Z) : list (option A) * list Event :=
  batch_loop (length requests_list) 0 requests_list delay.

End canvas_api.

(** ** app/api/canvas_api.py: the course and assignment listings

    What [response.json()] delivers and what the two functions build
    from it. A float is [m * 2 ^ e]; [NaN] and the infinities, which
    [json] reads as well, are [VNonFinite]. A dictionary is the list of
    its items; [lookup] reads the first item with the key. The Boolean
    of a [datetime] tells whether it carries a UTC offset. *)

Module canvas_listings.
Import canvas_api.

Inductive Value :=
| VNone
| VBool (b : bool)
| VInt (n : Z)
| VFloat (m e : Z)
| VNonFinite (token : string)
| VStr (s : string)
| VList (items : list Value)
| VDict (fields : list (string * Value))
| VDateTime (aware : bool) (d : datetime).

Fixpoint lookup (k : string) (fields : list (string * Value)) : option Value :=
  match fields with
  | [] => None
  | (k', v) :: rest => if String.eqb k k' then Some v else lookup k rest
  end.

(** [bool(v)] *)
Definition truthy (v : Value) : bool :=
  match v with
  | VNone => false
  | VBool b => b
  | VInt n => negb (n =? 0)
  | VFloat m _ => negb (m =? 0)
  | VNonFinite _ => true
  | VStr s => negb (String.eqb s "")
  | VList items => match items with [] => false | _ => true end
  | VDict fields => match fields with [] => false | _ => true end
  | VDateTime _ _ => true
  end.

(** [v == s] for a string literal [s] *)
Definition str_eq (v : Value) (s : string) : bool :=
  match v with
  | VStr x => String.eqb x s
  | _ => false
  end.

#[global] Instance reply_ret : MRet Reply := fun A a => Returned a.
#[global] Instance reply_bind : MBind Reply := fun A B f r =>
  match r with
  | Returned a => f a
  | Raised e => Raised e
  end.

(** [d.get(k, default)]: an [AttributeError] unless [d] is a
    dictionary. *)
Definition get (d : Value) (k : string) (dflt : Value) : Reply Value :=
  match d with
  | VDict fields => Returned (default dflt (lookup k fields))
  | _ => Raised OtherError
  end.

(** [d[k]] for a dictionary [d]: a [KeyError] without the key. *)
Definition index (d : Value) (k : string) : Reply Value :=
  match d with
  | VDict fields => match lookup k fields with
                    | Some v => Returned v
                    | None => Raised OtherError
                    end
  | _ => Raised OtherError
  end.

(** [for x in data]: the items of a list, the keys of a dictionary, the
    characters of a string; a [TypeError] for anything else. *)
Definition iterate (data : Value) : Reply (list Value) :=
  match data with
  | VList items => Returned items
  | VDict fields => Returned (VStr <$> remove_dups fields.*1)
  | VStr s => Returned ((fun c => VStr (String c EmptyString)) <$> String.list_ascii_of_string s)
  | _ => Raised OtherError
  end.

(** A loop that appends what its body builds, skips where the body
    says [continue] and is left by the first exception. *)
Fixpoint collect {A B} (body : A -> Reply (option B)) (l : list A) : Reply (list B) :=
  match l with
  | [] => Returned []
  | x :: rest =>
      o ← body x;
      out ← collect body rest;
      Returned (match o with Some b => b :: out | None => out end)
  end.

(** The two [except] clauses both functions end with:
    [TokenInvalidError] and [RateLimitError] are raised again, every
    other exception becomes a [CanvasAPIError]. *)
Definition reraise {A} (r : Reply A) : Reply A :=
  match r with
  | Raised TokenInvalidError => Raised TokenInvalidError
  | Raised RateLimitError => Raised RateLimitError
  | Raised _ => Raised CanvasAPIError
  | Returned a => Returned a
  end.

Inductive Endpoint :=
| Courses
| Assignments (course_id : Value).

(** [s.replace('Z', '+00:00')]; the character [Z] has code 90. *)
Fixpoint replace_Z (s : string) : string :=
  match s with
  | EmptyString => EmptyString
  | String c rest =>
      if Ascii.eqb c (Ascii.ascii_of_nat 90) then "+00:00" +:+ replace_Z rest else String c (replace_Z rest)
  end.

Section listings.
(** The answer to the [n]-th request of a call, [_make_canvas_request]
    followed by [response.json()]: the decoded body or the exception. *)
Variable fetch : nat -> Endpoint -> Reply Value.
(** [datetime.fromisoformat]: [None] for a [ValueError], otherwise
    whether the text carries an offset, and the instant. *)
Variable fromisoformat : string -> option (bool * datetime).

(** The body of the loop of [get_courses]. *)
Definition course_info (course : Value) : Reply (option Value) :=
  workflow_state ← get course "workflow_state" VNone;
  if negb (str_eq workflow_state "available") then Returned None
  else
    id ← get course "id" VNone;
    name ← get course "name" (VStr "Unnamed Course");
    course_code ← get course "course_code" (VStr "");
    term ← get course "term" (VDict []);
    term_name ← get term "name" (VStr "");
    start_at ← get course "start_at" VNone;
    end_at ← get course "end_at" VNone;
    Returned (Some (VDict [ ("id", id); ("name", name); ("course_code", course_code);
                            ("term", term_name); ("start_at", start_at);
                            ("end_at", end_at) ])).

(** [get_courses] *)
Definition get_courses : Reply (list Value) :=
  reraise (courses_data ← fetch 0%nat Courses;
           items ← iterate courses_data;
           collect course_info items).

(** The body of the loop over the assignments of a course; the sort key
    of the entry built goes with it. *)
Definition assignment_info (course : Value) (assignment : Value)
    : Reply (option (bool * datetime * Value)) :=
  due_at ← get assignment "due_at" VNone;
  if negb (truthy due_at) then Returned None
  else
    workflow_state ← get assignment "workflow_state" VNone;
    if negb (str_eq workflow_state "published") then Returned None
    else
      match due_at with
      | VStr due_at_str =>
          match fromisoformat (replace_Z due_at_str) with
          | None => Returned None
          | Some (aware, due_date) =>
              submission ← get assignment "submission" (VDict []);
              submission_state ← get submission "workflow_state" VNone;
              id ← get assignment "id" VNone;
              title ← get assignment "name" (VStr "Untitled Assignment");
              course_id ← index course "id";
              course_name ← index course "name";
              course_code ← index course "course_code";
              points_possible ← get assignment "points_possible" (VInt 0);
              submission_types ← get assignment "submission_types" (VList []);
              html_url ← get assignment "html_url" VNone;
              Returned (Some (aware, due_date,
                VDict [ ("id", id); ("title", title);
                        ("due_date", VDateTime aware due_date);
                        ("course_id", course_id); ("course_name", course_name);
                        ("course_code", course_code);
                        ("points_possible", points_possible);
                        ("submission_types", submission_types);
                        ("html_url", html_url);
                        ("is_submitted", VBool (str_eq submission_state "submitted"));
                        ("source", VStr "canvas_assignment") ]))
          end
      | _ => Raised OtherError
      end.

(** One turn of the loop over the courses, with its [try]: a
    [CanvasAPIError] of the request, of whatever subclass, skips the
    course. *)
Definition course_assignments (n : nat) (course : Value)
    : Reply (list (bool * datetime * Value)) :=
  course_id ← index course "id";
  match fetch n (Assignments course_id) with
  | Raised e => if is_CanvasAPIError e then Returned [] else Raised e
  | Returned assignments_data =>
      items ← iterate assignments_data;
      collect (assignment_info course) items
  end.

Fixpoint all_courses (n : nat) (courses : list Value) : Reply (list (bool * datetime * Value)) :=
  match courses with
  | [] => Returned []
  | course :: rest =>
      here ← course_assignments n course;
      later ← all_courses (S n) rest;
      Returned (here ++ later)
  end.

Definition by_key (a b : bool * datetime * Value) : bool := a.1.2 <=? b.1.2.

(** [all_assignments.sort(key=...)]: a stable sort by the due date. The
    comparison of a date with an offset and one without raises a
    [TypeError], and a sort of a list that holds both makes one. *)
Definition sort_assignments (l : list (bool * datetime * Value)) : Reply (list Value) :=
  if forallb (fun x : bool * datetime * Value => x.1.1) l
     || forallb (fun x : bool * datetime * Value => negb x.1.1) l
  then Returned (snd <$> queries.order_by by_key l)
  else Raised OtherError.

(** [get_assignments]: the course listing is request 0, the
    assignments of the [i]-th course listed are request [i + 1]. *)
Definition get_assignments : Reply (list Value) :=
  reraise (courses ← get_courses;
           all_assignments ← all_courses 1 courses;
           sort_assignments all_assignments).
End listings.

End canvas_listings.

(** ** app/jobs/refresh_data.py *)

Module refresh_data.
Import canvas_api.

Abbreviation dict := (gmap string PyVal).

(** The columns of [courses] that the job reads. *)
Record Course := mkCourse {
  course_user_id : Z;
  canvas_course_id : string;
  course_name : string;
  course_is_active : bool
}.

(** The calls into the query layer, with their arguments. Of these,
    [app.database.queries] defines [update_task] only; the job imports the
    others from it all the same. What a call does to the store is not part
    of this trace, only that it is made, with what, and whether its answer
    counts as true. *)
Inductive DbCall :=
| create_task (task_data : list (string * PyVal))
| update_task (task_id : Z) (update_data : list (string * PyVal))
| delete_task (task_id : Z)
| create_course (course_data : list (string * PyVal))
| update_user_token_status (uid : Z) (is_valid : bool).

Inductive Request := get_assignments (token : option string) | get_courses (token : option string).

(** What [sync_single_user] does besides computing: calls of the
    gateway and calls into the query layer. It has no call of
    [time.sleep]. *)
Inductive Event :=
| Fetched (r : Request)
| Db (c : DbCall).

Inductive SyncError := invalid_token | canvas_api_error | unexpected_error.

Record SyncResult := mkResult {
  success : bool;
  assignments_added : Z;
  assignments_updated : Z;
  assignments_deleted : Z;
  courses_added : Z;
  courses_updated : Z;
  error : option SyncError
}.

(** Modelled from the spec: [get_user_canvas_tasks] is imported from
    [app.database.queries], which does not define it. Section 4.1: the
    tasks currently mirrored (non-deleted) for that user. *)
Definition get_user_canvas_tasks (tasks : gmap Z Task) (uid : Z) : list (Z * Task) :=
  List.filter (fun row => (user_id row.2 =? uid) && negb (is_deleted row.2)) (map_to_list tasks).

(** [queries.get_user_courses(db, user.id)]; the order of the rows plays
    no part in the job. *)
Definition get_user_courses (courses : gmap Z Course) (uid : Z) : list (Z * Course) :=
  List.filter (fun row => (course_user_id row.2 =? uid) && course_is_active row.2)
              (map_to_list courses).

Section sync.
(** [datetime.isoformat()] and [str(datetime)] *)
Variable isoformat : datetime -> string.
Variable datetime_str : datetime -> string.
(** The answer (truthy or not) of a call into the query layer. *)
Variable db : DbCall -> bool.

(** [str(v)] *)
Definition py_str (v : PyVal) : string :=
  match v with
  | PyNone => "None"
  | PyBool b => if b then "True" else "False"
  | PyInt n => pretty n
  | PyStr s => s
  | PyDateTime d => datetime_str d
  | PyEnum cls member => cls +:+ "." +:+ member
  end.

(** [{str(a['id']): a for a in canvas_assignments}]; [None] when an
    entry has no ['id'] (KeyError). A later entry replaces an earlier
    one with the same id. *)
Definition assignment_dict (canvas_assignments : list dict) : option (gmap string dict) :=
  foldl (fun acc assignment =>
           m ← acc;
           i ← assignment !! "id";
           Some (<[py_str i := assignment]> m))
        (Some ∅) canvas_assignments.

(** [{task.canvas_assignment_id for task in existing_tasks if task.canvas_assignment_id}] *)
Definition existing_ids (existing_tasks : list (Z * Task)) : gset string :=
  list_to_set
    (omap (fun row : Z * Task =>
             match canvas_assignment_id row.2 with
             | Some s => if truthy (PyStr s) then Some s else None
             | None => None
             end)
          existing_tasks).

Definition new_task_data (uid : Z) (assignment_id : string) (assignment : dict)
    : list (string * PyVal) :=
  [ ("user_id", PyInt uid);
    ("canvas_assignment_id", PyStr assignment_id);
    ("title", dict_get_default assignment "name" (PyStr "Untitled Assignment"));
    ("due_date", dict_get assignment "due_at");
    ("course_id", dict_get assignment "course_id");
    ("source", PyStr "canvas_sync") ].

(** [next((task for task in existing_tasks if task.canvas_assignment_id == assignment_id), None)] *)
Definition find_existing (existing_tasks : list (Z * Task)) (assignment_id : string)
    : option (Z * Task) :=
  List.find (fun row : Z * Task =>
               py_eq (opt_str (canvas_assignment_id row.2)) (PyStr assignment_id))
            existing_tasks.

(** The test [canvas_due_date != existing_task.due_date.isoformat() if
    existing_task.due_date else None]: a conditional expression whose
    condition, a [datetime], is always true. *)
Definition due_date_changed (canvas_due_date : PyVal) (existing_task : Task) : bool :=
  py_ne canvas_due_date (PyStr (isoformat (due_date existing_task))).

Definition update_call (assignment : dict) (row : Z * Task) : option DbCall :=
  let canvas_due_date := dict_get assignment "due_at" in
  if due_date_changed canvas_due_date row.2 then
    Some (update_task row.1
            [ ("title", dict_get_default assignment "name" (PyStr (title row.2)));
              ("due_date", canvas_due_date) ])
  else None.

Definition count_ok (calls : list DbCall) : Z :=
  Z.of_nat (length (List.filter db calls)).

(** [sync_user_assignments]: the calls into the query layer, in the
    order made, and the three counts; [None] when the function raises.
    The sets of ids are walked in the order of [elements]. *)
Definition sync_user_assignments (uid : Z) (existing_tasks : list (Z * Task))
    (canvas_assignments : list dict) : option (list DbCall * (Z * Z * Z)) :=
  canvas_assignment_dict ← assignment_dict canvas_assignments;
  let existing_task_ids := existing_ids existing_tasks in
  let canvas_assignment_ids : gset string := dom canvas_assignment_dict in
  let new_assignment_ids := canvas_assignment_ids ∖ existing_task_ids in
  let created :=
    omap (fun assignment_id =>
            new_task_data uid assignment_id <$> canvas_assignment_dict !! assignment_id)
         (elements new_assignment_ids) in
  let existing_assignment_ids := canvas_assignment_ids ∩ existing_task_ids in
  let updated :=
    omap (fun assignment_id =>
            assignment ← canvas_assignment_dict !! assignment_id;
            existing_task ← find_existing existing_tasks assignment_id;
            update_call assignment existing_task)
         (elements existing_assignment_ids) in
  let deleted_assignment_ids := existing_task_ids ∖ canvas_assignment_ids in
  let deleted :=
    omap (fun row : Z * Task =>
            match canvas_assignment_id row.2 with
            | Some s => if bool_decide (s ∈ deleted_assignment_ids)
                        then Some (delete_task row.1) else None
            | None => None
            end)
         existing_tasks in
  Some (map create_task created ++ updated ++ deleted,
        (count_ok (map create_task created), count_ok updated, count_ok deleted)).

(** [sync_user_courses]; a changed course name is counted, nothing is
    written for it. The Boolean tells whether the loop was left by an
    exception (an entry without ['id']). *)
Definition course_step (uid : Z) (existing_courses : list (Z * Course))
    (acc : list DbCall * (Z * Z) * bool) (course : dict)
    : list DbCall * (Z * Z) * bool :=
  let '(calls, (added, updated), raised) := acc in
  if raised then acc
  else
    match course !! "id" with
    | None => (calls, (added, updated), true)
    | Some i =>
        let course_id := py_str i in
        let name := dict_get_default course "name" (PyStr "Untitled Course") in
        if bool_decide (course_id ∈ map (fun row : Z * Course => canvas_course_id row.2)
                                        existing_courses)
        then
          match List.find (fun row : Z * Course => String.eqb (canvas_course_id row.2) course_id)
                          existing_courses with
          | Some existing_course =>
              if py_ne (PyStr (course_name existing_course.2)) name
              then (calls, (added, updated + 1), false)
              else acc
          | None => acc
          end
        else
          let call := create_course [ ("user_id", PyInt uid);
                                      ("canvas_course_id", PyStr course_id);
                                      ("course_name", name) ] in
          (calls ++ [call], (if db call then added + 1 else added, updated), false)
    end.

Definition sync_user_courses (uid : Z) (existing_courses : list (Z * Course))
    (canvas_courses : list dict) : list DbCall * (Z * Z) * bool :=
  foldl (course_step uid existing_courses) ([], (0, 0), false) canvas_courses.

(** The Canvas gateway: the answer to a request, indexed by how often
    that request has been made before in this run. *)
Variable gateway : Request -> nat -> Reply (list dict).

Definition failed (e : SyncError) : SyncResult :=
  mkResult false 0 0 0 0 0 (Some e).

(** The three [except] clauses of [sync_single_user], in order. The
    first names [InvalidTokenError], the class the gateway defines as
    [TokenInvalidError]. *)
Definition on_exception (uid : Z) (e : Exn) : SyncResult * list Event :=
  match e with
  | TokenInvalidError => (failed invalid_token, [Db (update_user_token_status uid false)])
  | RateLimitError | CanvasAPIError => (failed canvas_api_error, [])
  | OtherError => (failed unexpected_error, [])
  end.

(** [sync_single_user]: its result and everything it did, in order. *)
Definition sync_single_user (tasks : gmap Z Task) (courses : gmap Z Course)
    (uid : Z) (user : User) : SyncResult * list Event :=
  let token := canvas_token user in
  match gateway (get_assignments token) 0%nat with
  | Raised e =>
      let '(r, evs) := on_exception uid e in (r, Fetched (get_assignments token) :: evs)
  | Returned canvas_assignments =>
      match gateway (get_courses token) 0%nat with
      | Raised e =>
          let '(r, evs) := on_exception uid e in
          (r, Fetched (get_assignments token) :: Fetched (get_courses token) :: evs)
      | Returned canvas_courses =>
          let fetched := [Fetched (get_assignments token); Fetched (get_courses token)] in
          match sync_user_assignments uid (get_user_canvas_tasks tasks uid) canvas_assignments with
          | None => (failed unexpected_error, fetched)
          | Some (calls, (added, updated, deleted)) =>
              let '(ccalls, (cadded, cupdated), raised) :=
                sync_user_courses uid (get_user_courses courses uid) canvas_courses in
              (if raised
               then mkResult false added updated deleted 0 0 (Some unexpected_error)
               else mkResult true added updated deleted cadded cupdated None,
               fetched ++ map Db calls ++ map Db ccalls)
          end
      end
  end.
End sync.

End refresh_data.

(** ** Operations on a stored task *)

Module operations.

(** The writes that reach a stored task in normal operation. *)
Inductive Operation :=
| MarkReminderSent (task_id : Z) (reminder_type : string)
| LastReminder (task_id : Z) (window_name : string) (current_time : datetime)
| ReconcileUpdate (task_id : Z) (new_title new_due_date : PyVal)
| Complete (task_id : Z)
| SoftDelete (task_id : Z).

Definition apply (cast_timestamp : string -> option datetime) (op : Operation)
    (tasks : gmap Z Task) : gmap Z Task :=
  match op with
  | MarkReminderSent task_id reminder_type =>
      (queries.mark_reminder_sent tasks task_id reminder_type).1
  | LastReminder task_id window_name current_time =>
      send_reminders.update_task_last_reminder tasks task_id window_name current_time
  | ReconcileUpdate task_id new_title new_due_date =>
      (queries.update_task cast_timestamp tasks task_id
         [("title", new_title); ("due_date", new_due_date)]).1
  | Complete task_id => (queries.mark_task_completed cast_timestamp tasks task_id).1
  | SoftDelete task_id => (queries.soft_delete_task cast_timestamp tasks task_id).1
  end.

End operations.

(** ** Concrete data used in the examples *)

Module examples.
Import send_reminders.

(** 2025-01-10T12:00:00Z, 2025-01-09T12:05:00Z and 2025-01-09T12:10:00Z *)
Definition due_2025_01_10_noon : datetime := seconds 1736510400.
Definition now_12_05 : datetime := seconds 1736424300.
Definition now_12_10 : datetime := seconds 1736424600.

Definition free_user : User :=
  mkUser "psid-1" (Some "token-1") FREE None true true true false 0 0 None.

Definition premium_user (expiry : datetime) : User :=
  mkUser "psid-2" (Some "token-2") PREMIUM (Some expiry) true true true false 0 0 None.

Definition homework (uid : Z) (due : datetime) : Task :=
  mkTask uid None (Some "1") None "HW1" due CANVAS_ASSIGNMENT
         false false false false false false false false.

Definition always_delivered : Z -> ReminderWindow -> bool := fun _ _ => true.

(** The dictionary that [canvas_api.get_assignments] builds for an
    assignment (its list-valued entry [submission_types] left out). *)
Definition fetched_assignment (i : Z) (name : string) (due : datetime) : gmap string PyVal :=
  list_to_map
    [ ("id", PyInt i); ("title", PyStr name); ("due_date", PyDateTime due);
      ("course_id", PyInt 5); ("course_name", PyStr "Algebra"); ("course_code", PyStr "MATH1");
      ("points_possible", PyInt 10); ("html_url", PyStr "https://canvas/hw");
      ("is_submitted", PyBool false); ("source", PyStr "canvas_assignment") ].

(** An assignment under the keys of the Canvas API that
    [sync_user_assignments] reads. *)
Definition canvas_assignment (i : Z) (name due_at : string) : gmap string PyVal :=
  list_to_map
    [ ("id", PyInt i); ("name", PyStr name); ("due_at", PyStr due_at); ("course_id", PyInt 5) ].

(** A gateway that is rate-limited on the first call of every request
    and answers with an empty list from the second call on. *)
Definition rate_limited_once (r : refresh_data.Request) (attempt : nat)
    : canvas_api.Reply (list (gmap string PyVal)) :=
  match attempt with
  | O => canvas_api.Raised canvas_api.RateLimitError
  | S _ => canvas_api.Returned []
  end.

End examples.

(** ** Predicates used in the statements *)

Module predicates.
Import send_reminders.

(** A window list runs from the furthest-out offset to the nearest. *)
Definition descending (ws : list ReminderWindow) : Prop :=
  ∀ before w after w', ws = before ++ w :: after → w' ∈ after →
    hours_before w' < hours_before w.

(** The six marker columns. *)
Definition marker_columns : list string :=
  [ "reminder_1_week_sent"; "reminder_3_days_sent"; "reminder_1_day_sent";
    "reminder_8_hours_sent"; "reminder_2_hours_sent"; "reminder_1_hour_sent" ].

(** Every marker that is set in [t] is set in [t']. *)
Definition markers_kept (t t' : Task) : Prop :=
  ∀ i, markers t !! i = Some true → markers t' !! i = Some true.

(** What the loop body does for a task, read off the store as it was
    when the run started: the window it stops at and the answer of the
    send. *)
Definition outcome (send : Z -> ReminderWindow -> bool) (users : gmap Z User)
    (now : datetime) (tasks : gmap Z Task) (task_id : Z) : option (ReminderWindow * bool) :=
  task ← tasks !! task_id;
  user ← users !! user_id task;
  window ← first_due_window task now (available_windows user);
  Some (window, send task_id window).

(** The bands of [queries.reminder_windows], as an offset before the due
    date (in hours) and a half-width. *)
Definition query_bands : list (string * (Z * timedelta)) :=
  [ ("1_week", (168, hours 1)); ("3_days", (72, hours 1)); ("1_day", (24, hours 1));
    ("8_hours", (8, hours 1)); ("2_hours", (2, hours 1)); ("1_hour", (1, minutes 30)) ].

(** The marker of a reminder type, through the mapping of the model. *)
Definition marker_of (reminder_type : string) (t : Task) : option PyVal :=
  column ← mapping_get reminder_type reminder_mapping;
  task_getattr column t.

(** Active premium, as the specification defines it. *)
Definition active_premium (u : User) (now : datetime) : Prop :=
  subscription_tier u = PREMIUM
  ∧ ∃ expiry, subscription_expiry_date u = Some expiry ∧ now < expiry.

(** The store entry of a task after its turn. *)
Definition after_turn (o : option (ReminderWindow * bool)) (row : option Task) : option Task :=
  match o with
  | Some (w, true) => mark_window_sent (name w) <$> row
  | _ => row
  end.

(** The outbox entry of a turn. *)
Definition entry (task_id : Z) (o : option (ReminderWindow * bool))
    : option (Z * ReminderWindow * bool) :=
  (fun x : ReminderWindow * bool => (task_id, x.1, x.2)) <$> o.

(** The calls of the send recorded for one task. *)
Definition sends_for (task_id : Z) (outbox : list (Z * ReminderWindow * bool))
    : list (Z * ReminderWindow * bool) :=
  List.filter (fun e => e.1.1 =? task_id) outbox.

Definition counters_agree (r : send_reminders.Run) (turns : Z) : Prop :=
  let s := send_reminders.stats r in
  let delivered :=
    Z.of_nat (length (List.filter (fun e : Z * send_reminders.ReminderWindow * bool => e.2)
                                  (send_reminders.outbox r))) in
  let refused :=
    Z.of_nat (length (List.filter (fun e : Z * send_reminders.ReminderWindow * bool => negb e.2)
                                  (send_reminders.outbox r))) in
  send_reminders.reminders_sent s = delivered
  ∧ refused <= send_reminders.reminders_failed s
  ∧ send_reminders.reminders_sent s + send_reminders.reminders_failed s <= turns
  ∧ send_reminders.free_tier_reminders s = delivered
  ∧ send_reminders.premium_tier_reminders s = 0
  ∧ Z.of_nat (size (send_reminders.notified_users r)) <= delivered
  ∧ (delivered = 0 ↔ send_reminders.notified_users r = ∅)
  ∧ send_reminders.reminder_breakdown s
    = (if delivered =? 0 then ∅ else {[ "24_hour" := delivered ]})
  ∧ Forall (fun e : Z * send_reminders.ReminderWindow * bool =>
              e.1.2 = send_reminders.mkWindow "24_hour" 24)
           (send_reminders.outbox r).

(** The time slept in a trace of the rate-limit helper, in milliseconds,
    and the number of calls of the [i]-th request function. *)
Definition total_sleep (events : list canvas_api.Event) : Z :=
  foldr (fun e acc => match e with canvas_api.Slept ms => ms + acc | _ => acc end) 0 events.

Definition calls_of (i : nat) (events : list canvas_api.Event) : nat :=
  length (List.filter (fun e => match e with
                                | canvas_api.Called j => bool_decide (j = i)
                                | _ => false
                                end) events).

(** The first answer of a request function is a rate-limit error. *)
Definition rate_limited {A} (request_func : nat -> canvas_api.Reply A) : bool :=
  match request_func 0%nat with
  | canvas_api.Raised canvas_api.RateLimitError => true
  | _ => false
  end.

(** The [create_course] call that an entry of the course snapshot leads
    to: none for an entry without ['id'] or with a mirrored id. *)
Definition course_call (datetime_str : datetime -> string) (uid : Z)
    (existing_courses : list (Z * refresh_data.Course)) (course : gmap string PyVal)
    : option refresh_data.DbCall :=
  i ← course !! "id";
  let course_id := refresh_data.py_str datetime_str i in
  if bool_decide (course_id ∈ map (fun row : Z * refresh_data.Course =>
                                     refresh_data.canvas_course_id row.2) existing_courses)
  then None
  else Some (refresh_data.create_course
               [ ("user_id", PyInt uid);
                 ("canvas_course_id", PyStr course_id);
                 ("course_name", dict_get_default course "name" (PyStr "Untitled Course")) ]).

(** The due date of an entry of the assignment listing. *)
Definition listed_due (a : canvas_listings.Value) : option datetime :=
  match a with
  | canvas_listings.VDict fields =>
      match canvas_listings.lookup "due_date" fields with
      | Some (canvas_listings.VDateTime _ d) => Some d
      | _ => None
      end
  | _ => None
  end.

(** The keys of an entry of the assignment listing. *)
Definition assignment_keys : list string :=
  [ "id"; "title"; "due_date"; "course_id"; "course_name"; "course_code";
    "points_possible"; "submission_types"; "html_url"; "is_submitted"; "source" ].

(** The keys of an entry of the course listing. *)
Definition course_keys : list string :=
  [ "id"; "name"; "course_code"; "term"; "start_at"; "end_at" ].

End predicates.
Import predicates.

(** * Properties *)

Set Default Proof Using "Type".

(** ** The due check of the reminder job *)

Section due_check.
Import send_reminders.

Lemma half_hour : seconds 1800 = minutes 30.
Proof. reflexivity. Qed.

(** No column of [tasks] is called [last_<window>_reminder]. *)
Lemma no_last_reminder_attribute (window_name : string) (task : Task) :
  task_getattr ("last_" +:+ window_name +:+ "_reminder") task = None.
Proof. reflexivity. Qed.

Lemma should_send_reminder_band (task : Task) (window : ReminderWindow) (now : datetime) :
  should_send_reminder task window now
  = (Z.abs (now - (due_date task - hours (hours_before window))) <=? minutes 30).
Proof.
  unfold should_send_reminder. rewrite no_last_reminder_attribute, half_hour.
  by destruct (_ <=? _).
Qed.

Lemma first_due_window_split (task : Task) (now : datetime) (ws : list ReminderWindow)
    (w : ReminderWindow) :
  first_due_window task now ws = Some w →
  ∃ before after, ws = before ++ w :: after
    ∧ should_send_reminder task w now = true
    ∧ Forall (fun w' => should_send_reminder task w' now = false) before.
Proof.
  induction ws as [|w0 ws IH]; simpl; [done|].
  destruct (should_send_reminder task w0 now) eqn:Hw0.
  - intros [= <-]. by exists [], ws.
  - intros (before & after & -> & Hw & Hb)%IH.
    exists (w0 :: before), after. split_and!; [done|done|by constructor].
Qed.

Lemma first_due_window_None (task : Task) (now : datetime) (ws : list ReminderWindow) :
  first_due_window task now ws = None →
  Forall (fun w' => should_send_reminder task w' now = false) ws.
Proof.
  induction ws as [|w0 ws IH]; simpl; [by constructor|].
  destruct (should_send_reminder task w0 now) eqn:Hw0; [done|].
  intros ?. constructor; auto.
Qed.

Lemma available_windows_cases (u : User) :
  available_windows u = FREE_TIER_WINDOWS ∨ available_windows u = PREMIUM_TIER_WINDOWS.
Proof. unfold available_windows. destruct (tier_is_premium_string u); auto. Qed.

Lemma descending_cons (w : ReminderWindow) (ws : list ReminderWindow) :
  Forall (fun w' => hours_before w' < hours_before w) ws → descending ws → descending (w :: ws).
Proof.
  intros Hall Hd before x after w' Heq Hin.
  destruct before as [|b before]; simplify_eq/=.
  - by eapply Forall_forall in Hall.
  - by eapply Hd.
Qed.

Lemma descending_nil : descending [].
Proof. intros [|??] ???; simpl; intros; simplify_eq. Qed.

Lemma FREE_TIER_WINDOWS_descending : descending FREE_TIER_WINDOWS.
Proof. repeat (apply descending_cons; [repeat constructor|]). apply descending_nil. Qed.

Lemma PREMIUM_TIER_WINDOWS_descending : descending PREMIUM_TIER_WINDOWS.
Proof. repeat (apply descending_cons; [repeat constructor|]). apply descending_nil. Qed.

Lemma available_windows_descending (u : User) : descending (available_windows u).
Proof.
  destruct (available_windows_cases u) as [-> | ->];
    auto using FREE_TIER_WINDOWS_descending, PREMIUM_TIER_WINDOWS_descending.
Qed.

(** The window the loop stops at is the furthest-out one that is due. *)
Lemma first_due_window_furthest (task : Task) (now : datetime) (ws : list ReminderWindow)
    (w : ReminderWindow) :
  descending ws →
  first_due_window task now ws = Some w →
  w ∈ ws ∧ should_send_reminder task w now = true
  ∧ ∀ w', w' ∈ ws → should_send_reminder task w' now = true →
          hours_before w' <= hours_before w.
Proof.
  intros Hd (before & after & -> & Hw & Hb)%first_due_window_split.
  split_and!; [set_solver|done|].
  intros w' [Hin|[->|Hin]%elem_of_cons]%elem_of_app Hw'.
  - eapply Forall_forall in Hb; [|done]. congruence.
  - lia.
  - pose proof (Hd before w after w' eq_refl Hin). lia.
Qed.
End due_check.

(** ** One run of the reminder job *)

Section marker_update.
Import send_reminders.

Lemma window_marker_cases (n col : string) :
  window_marker n = Some col →
  col ∈ [ "reminder_1_week_sent"; "reminder_3_days_sent"; "reminder_1_day_sent";
          "reminder_8_hours_sent"; "reminder_2_hours_sent"; "reminder_1_hour_sent" ].
Proof.
  unfold window_marker.
  repeat (destruct (String.eqb n _); [intros [= <-]; set_solver|]). done.
Qed.

Lemma mark_window_sent_due_date (n : string) (task : Task) :
  due_date (mark_window_sent n task) = due_date task.
Proof.
  unfold mark_window_sent. destruct (window_marker n) as [col|] eqn:Hc; [|done].
  apply window_marker_cases in Hc. destruct task.
  repeat (apply elem_of_cons in Hc as [->|Hc]; [done|]). by apply elem_of_nil in Hc.
Qed.

Lemma mark_window_sent_other (n col : string) (task : Task) :
  window_marker n ≠ Some col →
  task_getattr col (mark_window_sent n task) = task_getattr col task.
Proof.
  unfold mark_window_sent. destruct (window_marker n) as [c|] eqn:Hc; [|done].
  intros Hne. assert (String.eqb col c = false) as Hcol.
  { apply String.eqb_neq. congruence. }
  apply window_marker_cases in Hc. destruct task.
  repeat (apply elem_of_cons in Hc as [->|Hc];
          [unfold task_getattr; simpl;
           repeat (match goal with
                   | |- context [String.eqb col ?k] =>
                       lazymatch k with
                       | context [col] => fail
                       | _ => destruct (String.eqb col k) eqn:?; try done
                       end
                   end)|]).
  by apply elem_of_nil in Hc.
Qed.

Lemma mark_window_sent_should_send (n : string) (task : Task) (w : ReminderWindow) (t : datetime) :
  should_send_reminder (mark_window_sent n task) w t = should_send_reminder task w t.
Proof. by rewrite !should_send_reminder_band, mark_window_sent_due_date. Qed.

Lemma update_task_last_reminder_lookup (tasks : gmap Z Task) (tid k : Z) (n : string)
    (now : datetime) :
  update_task_last_reminder tasks tid n now !! k
  = if decide (k = tid) then mark_window_sent n <$> tasks !! tid else tasks !! k.
Proof.
  unfold update_task_last_reminder. case_decide as Hk; [subst k|].
  - destruct (tasks !! tid) eqn:Ht; [by rewrite lookup_insert_eq|by rewrite Ht].
  - destruct (tasks !! tid) eqn:Ht; [by rewrite lookup_insert_ne|done].
Qed.

End marker_update.

Section reminder_run.
Import send_reminders.
Variable send : Z -> ReminderWindow -> bool.
Variable users : gmap Z User.
Variable now : datetime.

Lemma process_task_outbox (tasks : gmap Z Task) (r : Run) (tid : Z) :
  db_tasks r !! tid = tasks !! tid →
  outbox (process_task send users now r tid)
  = match entry tid (outcome send users now tasks tid) with
    | Some e => e :: outbox r
    | None => outbox r
    end.
Proof.
  intros Heq. unfold process_task, outcome, entry. rewrite Heq.
  destruct (tasks !! tid) as [task|]; simpl; [|done].
  destruct (users !! user_id task) as [user|]; simpl; [|done].
  destruct (first_due_window _ _ _) as [w|]; simpl; [|done].
  by destruct (send tid w).
Qed.

Lemma process_task_db (tasks : gmap Z Task) (r : Run) (tid k : Z) :
  db_tasks r !! tid = tasks !! tid →
  db_tasks (process_task send users now r tid) !! k
  = if decide (k = tid) then after_turn (outcome send users now tasks tid) (tasks !! tid)
    else db_tasks r !! k.
Proof.
  intros Heq. unfold process_task, outcome, after_turn. rewrite Heq.
  destruct (tasks !! tid) as [task|] eqn:Ht; simpl.
  2:{ case_decide; [by subst|done]. }
  destruct (users !! user_id task) as [user|]; simpl.
  2:{ case_decide; [subst; by rewrite Heq|done]. }
  destruct (first_due_window _ _ _) as [w|]; simpl.
  2:{ case_decide; [subst; by rewrite Heq|done]. }
  destruct (send tid w); simpl.
  - rewrite update_task_last_reminder_lookup. case_decide; [by rewrite Heq|done].
  - case_decide; [subst; by rewrite Heq|done].
Qed.

(** The whole loop, for candidates that are pairwise distinct. *)
Lemma run_loop (tasks : gmap Z Task) (l : list Z) (r : Run) :
  NoDup l →
  (∀ tid, tid ∈ l → db_tasks r !! tid = tasks !! tid) →
  let r' := foldl (process_task send users now) r l in
  outbox r' = reverse (omap (fun tid => entry tid (outcome send users now tasks tid)) l) ++ outbox r
  ∧ ∀ k, db_tasks r' !! k
         = if decide (k ∈ l) then after_turn (outcome send users now tasks k) (tasks !! k)
           else db_tasks r !! k.
Proof.
  revert r. induction l as [|tid l IH]; intros r Hnd Hdb; cbv zeta.
  { split; [done|]. intros k. rewrite decide_False; [done|set_solver]. }
  change (foldl ?f r (tid :: l)) with (foldl f (f r tid) l).
  apply NoDup_cons in Hnd as [Hnotin Hnd].
  assert (db_tasks r !! tid = tasks !! tid) as Htid by (apply Hdb; set_solver).
  destruct (IH (process_task send users now r tid) Hnd) as [Hout Hstore].
  { intros tid' Hin. rewrite (process_task_db tasks) by done.
    case_decide; [set_solver|]. apply Hdb. set_solver. }
  split.
  - rewrite Hout, (process_task_outbox tasks) by done. simpl.
    destruct (entry tid _) as [e|]; [|done].
    by rewrite reverse_cons, <- app_assoc.
  - intros k. rewrite Hstore, (process_task_db tasks) by done.
    destruct (decide (k = tid)) as [->|Hne].
    + rewrite decide_False by done. by rewrite decide_True by set_solver.
    + destruct (decide (k ∈ l)).
      * by rewrite decide_True by set_solver.
      * by rewrite decide_False by set_solver.
Qed.

Lemma process_reminders_run (tasks : gmap Z Task) (l : list Z) :
  NoDup l →
  let r := process_reminders send users now tasks l in
  outbox r = reverse (omap (fun tid => entry tid (outcome send users now tasks tid)) l)
  ∧ ∀ k, db_tasks r !! k
         = if decide (k ∈ l) then after_turn (outcome send users now tasks k) (tasks !! k)
           else tasks !! k.
Proof.
  intros Hnd. unfold process_reminders. destruct l as [|tid l].
  { cbv zeta. split; [done|]. intros k. rewrite decide_False; [done|set_solver]. }
  set (r0 := mkRun tasks _ ∅ []).
  destruct (run_loop tasks (tid :: l) r0 Hnd) as [Hout Hstore]; [done|].
  simpl in *. split; [by rewrite Hout, app_nil_r|done].
Qed.

End reminder_run.

Section outbox.
Import send_reminders.

Lemma sends_for_entries (tid : Z) (f : Z → option (ReminderWindow * bool)) (l : list Z) :
  NoDup l →
  (length (sends_for tid (omap (fun k => entry k (f k)) l)) ≤ 1)%nat.
Proof.
  assert (∀ l', tid ∉ l' → sends_for tid (omap (fun k => entry k (f k)) l') = []) as Hnone.
  { induction l' as [|k l' IH]; [done|]. intros Hnotin. simpl.
    destruct (f k) as [[w ok]|]; simpl; [|apply IH; set_solver].
    unfold sends_for in *. simpl.
    destruct (k =? tid) eqn:Hk; [apply Z.eqb_eq in Hk; set_solver|apply IH; set_solver]. }
  induction l as [|k l IH]; [simpl; lia|]. intros [Hnotin Hnd]%NoDup_cons. simpl.
  destruct (f k) as [[w ok]|]; simpl; [|by apply IH].
  unfold sends_for in *. simpl. destruct (k =? tid) eqn:Hk; [|by apply IH].
  apply Z.eqb_eq in Hk. subst k. unfold sends_for in Hnone. rewrite Hnone by done. simpl. lia.
Qed.

Lemma sends_for_reverse (tid : Z) (l : list (Z * ReminderWindow * bool)) :
  length (sends_for tid (reverse l)) = length (sends_for tid l).
Proof.
  unfold sends_for. induction l as [|e l IH]; [done|].
  rewrite reverse_cons, List.filter_app, length_app, IH. simpl.
  destruct (e.1.1 =? tid); simpl; lia.
Qed.
End outbox.

(** C2. Within one run of the reminder job, whose candidate tasks are
    pairwise distinct, every task gets at most one notification. The
    premium windows are listed, and so examined, in descending order of
    [hours_before] (168, 72, 24, 8, 2, 1), and the loop over them stops at
    the furthest-out window that is due. For every send that the run
    made, the loop over the windows of the task's user stopped at the
    window sent: it is the first window whose due check passes, hence the
    furthest-out one among the windows that are due. The nearer windows
    are left as they were: after the run the stored task differs from the
    task before at most in the marker of the window sent, and every window
    passes or fails the due check at every instant exactly as before. *)
Theorem one_reminder_per_task_per_run
    (send : Z -> send_reminders.ReminderWindow -> bool) (users : gmap Z User)
    (now : datetime) (tasks : gmap Z Task) (candidates : list Z) :
  NoDup candidates →
  let r := send_reminders.process_reminders send users now tasks candidates in
  map send_reminders.hours_before send_reminders.PREMIUM_TIER_WINDOWS = [168; 72; 24; 8; 2; 1]
  ∧ (∀ task w,
       send_reminders.first_due_window task now send_reminders.PREMIUM_TIER_WINDOWS = Some w →
       send_reminders.should_send_reminder task w now = true
       ∧ ∀ w', w' ∈ send_reminders.PREMIUM_TIER_WINDOWS →
               send_reminders.should_send_reminder task w' now = true →
               send_reminders.hours_before w' <= send_reminders.hours_before w)
  ∧ (∀ tid, (length (sends_for tid (send_reminders.outbox r)) ≤ 1)%nat)
  ∧ (∀ tid w ok, (tid, w, ok) ∈ send_reminders.outbox r →
       ∃ task user,
         tasks !! tid = Some task ∧ users !! user_id task = Some user
         ∧ send_reminders.first_due_window task now (send_reminders.available_windows user) = Some w
         ∧ w ∈ send_reminders.available_windows user
         ∧ send_reminders.should_send_reminder task w now = true
         ∧ (∀ w', w' ∈ send_reminders.available_windows user →
                  send_reminders.should_send_reminder task w' now = true →
                  send_reminders.hours_before w' <= send_reminders.hours_before w)
         ∧ ∃ task',
             send_reminders.db_tasks r !! tid = Some task'
             ∧ (∀ col, send_reminders.window_marker (send_reminders.name w) ≠ Some col →
                       task_getattr col task' = task_getattr col task)
             ∧ (∀ w' t, send_reminders.should_send_reminder task' w' t
                        = send_reminders.should_send_reminder task w' t)).
Proof.
  intros Hnd r.
  destruct (process_reminders_run send users now tasks candidates Hnd) as [Hout Hstore].
  fold r in Hout, Hstore. split_and!; [done| | |].
  - intros task w Hw.
    by destruct (first_due_window_furthest task now _ w PREMIUM_TIER_WINDOWS_descending Hw)
      as (_ & ? & ?).
  - intros tid. rewrite Hout, sends_for_reverse. by apply sends_for_entries.
  - intros tid w ok Hin. rewrite Hout in Hin.
    apply elem_of_reverse, list_elem_of_omap in Hin as (k & Hk & He).
    unfold entry in He. destruct (outcome send users now tasks k) as [[w0 ok0]|] eqn:Ho;
      simplify_eq/=.
    pose proof Ho as Ho'. unfold outcome in Ho'.
    destruct (tasks !! tid) as [task|] eqn:Ht; simplify_eq/=.
    destruct (users !! user_id task) as [user|] eqn:Hu; simplify_eq/=.
    destruct (send_reminders.first_due_window task now _) as [w1|] eqn:Hw; simplify_eq/=.
    destruct (first_due_window_furthest task now _ w (available_windows_descending user) Hw)
      as (Hmem & Hdue & Hfar).
    exists task, user. split_and!; try done.
    specialize (Hstore tid). rewrite decide_True, Ho, Ht in Hstore by done.
    destruct (send tid w); simpl in Hstore.
    + eexists. split; [done|]. split.
      * intros col Hcol. by apply mark_window_sent_other.
      * intros w' t. apply mark_window_sent_should_send.
    + by exists task.
Qed.

(** A task due in an hour and a half lies in the band of the 2-hour
    window and in the band of the 1-hour window at once; the loop over the
    premium windows stops at the 2-hour one. *)
Lemma two_windows_due_at_once :
  let now := examples.now_12_05 in
  let task := examples.homework 2 (now + minutes 90) in
  send_reminders.should_send_reminder task (send_reminders.mkWindow "2_hours" 2) now = true
  ∧ send_reminders.should_send_reminder task (send_reminders.mkWindow "1_hour" 1) now = true
  ∧ send_reminders.first_due_window task now send_reminders.PREMIUM_TIER_WINDOWS
    = Some (send_reminders.mkWindow "2_hours" 2).
Proof. by vm_compute. Qed.

(** A run with one free-tier task inside its 24-hour band. *)
Lemma one_reminder_per_task_per_run_witness :
  let r := send_reminders.process_reminders examples.always_delivered
             {[ 1 := examples.free_user ]} examples.now_12_05
             {[ 7 := examples.homework 1 examples.due_2025_01_10_noon ]} [7] in
  NoDup [7] ∧ (length (sends_for 7 (send_reminders.outbox r)) ≤ 1)%nat.
Proof.
  intros r.
  assert (NoDup [7]) as Hnd by (apply NoDup_singleton).
  split; [done|].
  exact (proj1 (proj2 (proj2 (one_reminder_per_task_per_run examples.always_delivered
           {[ 1 := examples.free_user ]} examples.now_12_05
           {[ 7 := examples.homework 1 examples.due_2025_01_10_noon ]} [7] Hnd))) 7).
Defined.

(** ** The candidate query *)

Section candidate_query.
Import queries.

Lemma tier_eqb_PREMIUM (t : SubscriptionTier) : tier_eqb t PREMIUM = true ↔ t = PREMIUM.
Proof. by destruct t. Qed.

Lemma query_task_join_user_spec (tasks : gmap Z Task) (users : gmap Z User)
    (cond : Task -> User -> bool) (tid : Z) (t : Task) :
  (tid, t) ∈ query_task_join_user tasks users cond
  ↔ tasks !! tid = Some t ∧ ∃ u, users !! user_id t = Some u ∧ cond t u = true.
Proof.
  unfold query_task_join_user.
  rewrite list_elem_of_In, filter_In, <- list_elem_of_In, elem_of_map_to_list. simpl.
  destruct (users !! user_id t) as [u|]; naive_solver.
Qed.

Lemma get_tasks_needing_reminders_spec (now : datetime) (tasks : gmap Z Task)
    (users : gmap Z User) (ty : string) (off : Z) (hw : timedelta) (tid : Z) (t : Task) :
  (ty, (off, hw)) ∈ query_bands →
  (tid, t) ∈ results_get ty (get_tasks_needing_reminders now tasks users)
  ↔ tasks !! tid = Some t
    ∧ ∃ u, users !! user_id t = Some u
        ∧ is_deleted t = false ∧ is_completed t = false
        ∧ Z.abs (due_date t - (now + hours off)) <= hw
        ∧ is_active u = true ∧ reminder_enabled u = true
        ∧ marker_of ty t = Some (PyBool false)
        ∧ (ty = "1_day" ∨ subscription_tier u = PREMIUM).
Proof.
  intros Hband. unfold query_bands in Hband.
  repeat (apply elem_of_cons in Hband as [[= -> -> ->]|Hband];
    [ simpl results_get; unfold reminder_query; rewrite query_task_join_user_spec;
      unfold marker_of, reminder_filter, task_getattr, task_columns; simpl;
      apply and_iff_compat_l; apply exist_proper; intros u; apply and_iff_compat_l;
      rewrite ?andb_true_iff, ?negb_true_iff, ?Z.leb_le, ?tier_eqb_PREMIUM;
      unfold days_hours, days, hours, minutes, seconds;
      split; intros; destruct_and?; split_and?; try done; try lia; try congruence;
      try (by right); try (by left);
      try (by destruct_or?; simplify_eq) | ]).
  by apply elem_of_nil in Hband.
Qed.
End candidate_query.

(** ** Claims on the reminder job *)

(** C1 (the code departs from the claim). The scenario of the
    specification: a free-tier task due on 2025-01-10 at 12:00 UTC. The
    run at 12:05 the day before sends the 24-hour reminder and the marker
    of that window is stored as true. [should_send_reminder] does not read
    the marker: for the stored task it still answers true at 12:10, and a
    second run that is handed the task sends the same reminder again. *)
Theorem second_run_sends_again :
  let users : gmap Z User := {[ 1 := examples.free_user ]} in
  let tasks : gmap Z Task := {[ 7 := examples.homework 1 examples.due_2025_01_10_noon ]} in
  let day_before := send_reminders.mkWindow "24_hour" 24 in
  let run1 := send_reminders.process_reminders examples.always_delivered users
                examples.now_12_05 tasks [7] in
  let run2 := send_reminders.process_reminders examples.always_delivered users
                examples.now_12_10 (send_reminders.db_tasks run1) [7] in
  send_reminders.outbox run1 = [(7, day_before, true)]
  ∧ reminder_1_day_sent <$> send_reminders.db_tasks run1 !! 7 = Some true
  ∧ (send_reminders.db_tasks run1 !! 7
       ≫= fun task => Some (send_reminders.should_send_reminder task day_before examples.now_12_10))
     = Some true
  ∧ send_reminders.outbox run2 = [(7, day_before, true)].
Proof. vm_compute. by split_and!. Qed.

(** The stored markers play no part in the due check. *)
Lemma should_send_reminder_ignores_markers (task task' : Task)
    (w : send_reminders.ReminderWindow) (now : datetime) :
  due_date task' = due_date task →
  send_reminders.should_send_reminder task' w now = send_reminders.should_send_reminder task w now.
Proof. intros Hd. by rewrite !should_send_reminder_band, Hd. Qed.

(** C8 (as stated, refuted). A task of an active user with reminders on,
    due 24 hours and 45 minutes from now, is among the candidates of the
    query layer (under [1_day]), yet its due date lies in no window's band
    of 30 minutes around now. *)
Lemma candidate_outside_every_tolerance_band :
  let now := examples.now_12_05 in
  let t := examples.homework 1 (now + hours 24 + minutes 45) in
  (7, t) ∈ queries.results_get "1_day"
             (queries.get_tasks_needing_reminders now {[ 7 := t ]} {[ 1 := examples.free_user ]})
  ∧ Forall (fun w => ¬ Z.abs (now - (due_date t - hours (send_reminders.hours_before w)))
                       <= minutes 30)
           (send_reminders.FREE_TIER_WINDOWS ++ send_reminders.PREMIUM_TIER_WINDOWS).
Proof.
  split.
  - apply list_elem_of_In. vm_compute. by left.
  - repeat constructor; vm_compute; intros H; by apply H.
Qed.

(** C8 (amended). [should_send_reminder] judges a window due only if
    [|now - (due - hours_before)|] is at most 30 minutes, and it does not
    look at the completed and soft-deleted flags. Those, the marker of the
    window and the user are filtered by the query layer: under a reminder
    type, [get_tasks_needing_reminders] returns exactly the stored tasks
    that are neither soft-deleted nor completed, whose due date is within
    one hour (30 minutes for [1_hour]) of now plus the offset of the type,
    whose user is active and has reminders enabled, whose marker of that
    type is false and, for every type but [1_day], whose user's stored tier
    is premium. *)
Theorem due_check_and_candidate_query (now : datetime) (tasks : gmap Z Task)
    (users : gmap Z User) :
  (∀ task w, send_reminders.should_send_reminder task w now = true →
             Z.abs (now - (due_date task - hours (send_reminders.hours_before w))) <= minutes 30)
  ∧ (∀ task w c d,
       send_reminders.should_send_reminder (set_is_completed c (set_is_deleted d task)) w now
       = send_reminders.should_send_reminder task w now)
  ∧ (∀ ty off hw tid t, (ty, (off, hw)) ∈ query_bands →
       (tid, t) ∈ queries.results_get ty (queries.get_tasks_needing_reminders now tasks users)
       ↔ tasks !! tid = Some t
         ∧ ∃ u, users !! user_id t = Some u
             ∧ is_deleted t = false ∧ is_completed t = false
             ∧ Z.abs (due_date t - (now + hours off)) <= hw
             ∧ is_active u = true ∧ reminder_enabled u = true
             ∧ marker_of ty t = Some (PyBool false)
             ∧ (ty = "1_day" ∨ subscription_tier u = PREMIUM)).
Proof.
  split_and!.
  - intros task w. rewrite should_send_reminder_band. apply Z.leb_le.
  - intros task w c d. apply should_send_reminder_ignores_markers. by destruct task.
  - intros ty off hw tid t Hband. by apply get_tasks_needing_reminders_spec.
Qed.

(** The scenario of the specification, read through the query. *)
Lemma due_check_and_candidate_query_witness :
  let t := examples.homework 1 examples.due_2025_01_10_noon in
  (7, t) ∈ queries.results_get "1_day"
             (queries.get_tasks_needing_reminders examples.now_12_05
                {[ 7 := t ]} {[ 1 := examples.free_user ]}).
Proof.
  intros t.
  apply (proj2 (proj2 (due_check_and_candidate_query examples.now_12_05
                         {[ 7 := t ]} {[ 1 := examples.free_user ]}))
           "1_day" 24 (hours 1) 7 t).
  - vm_compute. right. right. left.
  - split; [reflexivity|]. exists examples.free_user.
    split_and!; try reflexivity; [vm_compute; discriminate|by left].
Defined.

Section tier_gate.
Import queries send_reminders.

(** The same users with other expiry dates. *)
Lemma reminder_query_expiry (f : User -> option datetime) (tasks : gmap Z Task)
    (users : gmap Z User) (ty : string) (a b : datetime) :
  reminder_query tasks ((fun u => set_subscription (subscription_tier u) (f u) u) <$> users) ty a b
  = reminder_query tasks users ty a b.
Proof.
  unfold reminder_query, query_task_join_user. apply filter_ext. intros [tid t]. simpl.
  rewrite lookup_fmap. destruct (users !! user_id t) as [u|]; simpl; [|done].
  destruct u. simpl. unfold reminder_filter. simpl. done.
Qed.

(** A member of [SubscriptionTier] is never equal to the string
    ['premium']: the job gives every user the free-tier list. *)
Lemma available_windows_always_free (u : User) :
  available_windows u = FREE_TIER_WINDOWS.
Proof. unfold available_windows, tier_is_premium_string. by destruct (subscription_tier u). Qed.

Lemma available_windows_expiry (u : User) (e : option datetime) :
  available_windows (set_subscription (subscription_tier u) e u) = available_windows u.
Proof. by destruct u. Qed.
End tier_gate.

(** C3 (as stated, refuted). A user whose stored tier is premium and whose
    subscription ran out a day ago is not an active premium user, yet the
    query hands their task over for the one-week window. *)
Lemma expired_premium_user_gets_premium_window :
  let now := examples.now_12_05 in
  let u := examples.premium_user (now - days 1) in
  let t := examples.homework 2 (now + hours 168) in
  (7, t) ∈ queries.results_get "1_week"
             (queries.get_tasks_needing_reminders now {[ 7 := t ]} {[ 2 := u ]})
  ∧ is_premium u now = false
  ∧ ¬ active_premium u now.
Proof.
  split_and!.
  - apply list_elem_of_In. vm_compute. by left.
  - reflexivity.
  - intros [_ (e & [= <-] & Hlt)]. vm_compute in Hlt. discriminate.
Qed.

(** C3 (amended). The window set follows the stored tier, the expiry date
    is not consulted. A task whose user's stored tier is free is only
    considered for the 24-hours-before window: [process_reminders] gives it
    [FREE_TIER_WINDOWS], whose only offset is 24, and the query lists it
    under [1_day] alone. The query lists a task under one of the five other
    types only if the stored tier of its user is premium. Neither the
    windows chosen by [process_reminders] nor the result of the query
    change when the expiry dates of the users are replaced by others. *)
Theorem windows_follow_stored_tier (now : datetime) (tasks : gmap Z Task)
    (users : gmap Z User) :
  (∀ u, subscription_tier u = FREE →
        send_reminders.available_windows u = send_reminders.FREE_TIER_WINDOWS)
  ∧ map send_reminders.hours_before send_reminders.FREE_TIER_WINDOWS = [24]
  ∧ (∀ ty off hw tid t, (ty, (off, hw)) ∈ query_bands →
       (tid, t) ∈ queries.results_get ty (queries.get_tasks_needing_reminders now tasks users) →
       ∃ u, users !! user_id t = Some u
            ∧ (subscription_tier u = FREE → ty = "1_day")
            ∧ (ty ≠ "1_day" → subscription_tier u = PREMIUM))
  ∧ (∀ f : User -> option datetime,
       queries.get_tasks_needing_reminders now tasks
         ((fun u => queries.set_subscription (subscription_tier u) (f u) u) <$> users)
       = queries.get_tasks_needing_reminders now tasks users)
  ∧ (∀ u e, send_reminders.available_windows
              (queries.set_subscription (subscription_tier u) e u)
            = send_reminders.available_windows u).
Proof.
  split_and!.
  - intros u Hu.
    unfold send_reminders.available_windows, send_reminders.tier_is_premium_string.
    by rewrite Hu.
  - done.
  - intros ty off hw tid t Hband Hin.
    apply (get_tasks_needing_reminders_spec _ _ _ _ _ _ _ _ Hband) in Hin
      as (_ & u & Hu & _ & _ & _ & _ & _ & _ & Htier).
    exists u. split; [done|]. destruct Htier as [->|Hp]; [done|].
    split; [congruence|done].
  - intros f. unfold queries.get_tasks_needing_reminders. apply map_ext.
    intros [ty [a b]]. by rewrite reminder_query_expiry.
  - intros u e. apply available_windows_expiry.
Qed.

(** A free-tier user and the 24-hour list. *)
Lemma windows_follow_stored_tier_witness :
  send_reminders.available_windows examples.free_user = send_reminders.FREE_TIER_WINDOWS.
Proof.
  apply (proj1 (windows_follow_stored_tier 0 ∅ ∅) examples.free_user). reflexivity.
Defined.

(** ** The expiry sweep *)

Section expiry_sweep.
Import queries check_expiries.

Lemma get_expired_premium_users_spec (now : datetime) (users : gmap Z User) (uid : Z) (u : User) :
  (uid, u) ∈ get_expired_premium_users now users
  ↔ users !! uid = Some u ∧ is_active u = true ∧ subscription_tier u = PREMIUM
    ∧ ∃ expiry, subscription_expiry_date u = Some expiry ∧ expiry < now.
Proof.
  unfold get_expired_premium_users, expired_premium.
  rewrite list_elem_of_In, filter_In, <- list_elem_of_In, elem_of_map_to_list. simpl.
  rewrite !andb_true_iff, tier_eqb_PREMIUM.
  destruct (subscription_expiry_date u) as [e|].
  - rewrite Z.ltb_lt. naive_solver.
  - naive_solver.
Qed.

Lemma get_expired_premium_users_NoDup (now : datetime) (users : gmap Z User) :
  NoDup (get_expired_premium_users now users).*1.
Proof.
  unfold get_expired_premium_users.
  eapply sublist_NoDup; [apply (NoDup_fst_map_to_list users)|].
  apply fmap_sublist. induction (map_to_list users) as [|row l IH]; simpl; [done|].
  destruct (expired_premium now row.2); by constructor.
Qed.

Lemma filter_reverse {A} (p : A -> bool) (l : list A) :
  List.filter p (reverse l) = reverse (List.filter p l).
Proof.
  induction l as [|x l IH]; [done|].
  rewrite reverse_cons, List.filter_app, IH. simpl.
  destruct (p x); [by rewrite reverse_cons|by rewrite app_nil_r].
Qed.

Variable send : string -> bool.

Lemma process_user_lookup (s : Sweep) (uid k : Z) (u : User) :
  db_users (process_user send s (uid, u)) !! k
  = if decide (k = uid) then set_subscription FREE None <$> db_users s !! k
    else db_users s !! k.
Proof.
  unfold process_user, revert_user_to_free.
  destruct (db_users s !! uid) as [user|] eqn:Hu; simpl.
  - case_decide; [subst; by rewrite lookup_insert_eq, Hu|by rewrite lookup_insert_ne].
  - case_decide; [subst; by rewrite Hu|done].
Qed.

Lemma process_user_notifications (s : Sweep) (uid : Z) (u : User) :
  is_Some (db_users s !! uid) →
  notifications (process_user send s (uid, u))
  = (uid, send (messenger_id u)) :: notifications s.
Proof. intros [user Hu]. unfold process_user, revert_user_to_free. by rewrite Hu. Qed.

Lemma set_subscription_twice (u : User) :
  set_subscription FREE None (set_subscription FREE None u) = set_subscription FREE None u.
Proof. by destruct u. Qed.

Lemma sweep_loop (l : list (Z * User)) (s : Sweep) :
  (∀ row, row ∈ l → is_Some (db_users s !! row.1)) →
  let s' := foldl (process_user send) s l in
  (∀ k, db_users s' !! k
        = if decide (k ∈ l.*1) then set_subscription FREE None <$> db_users s !! k
          else db_users s !! k)
  ∧ notifications s'
    = reverse (map (fun row : Z * User => (row.1, send (messenger_id row.2))) l)
      ++ notifications s.
Proof.
  revert s. induction l as [|[uid u] l IH]; intros s Hsome; cbv zeta.
  { split; [|done]. intros k. rewrite decide_False; [done|]. by intros ?%elem_of_nil. }
  change (foldl ?f s ((uid, u) :: l)) with (foldl f (f s (uid, u)) l).
  destruct (IH (process_user send s (uid, u))) as [Hdb Hnote].
  { intros row Hrow. rewrite process_user_lookup.
    destruct (Hsome row) as [x Hx]; [by right|]. case_decide; rewrite Hx; by eexists. }
  split.
  - intros k. rewrite Hdb, process_user_lookup. rewrite fmap_cons. simpl.
    destruct (decide (k = uid)) as [->|Hne].
    + rewrite (decide_True (P := uid ∈ uid :: l.*1)) by left.
      case_decide; [|done].
      destruct (db_users s !! uid); simpl; [|done]. by rewrite set_subscription_twice.
    + destruct (decide (k ∈ l.*1)).
      * by rewrite decide_True by by right.
      * rewrite decide_False; [done|]. by intros [?|?]%elem_of_cons.
  - rewrite Hnote, process_user_notifications by (apply (Hsome (uid, u)); left).
    simpl. by rewrite reverse_cons, <- app_assoc.
Qed.

Lemma process_expired_users_spec (now : datetime) (users : gmap Z User) :
  let s := process_expired_users send now users in
  (∀ k, db_users s !! k
        = if decide (k ∈ (get_expired_premium_users now users).*1)
          then set_subscription FREE None <$> users !! k else users !! k)
  ∧ notifications s
    = reverse (map (fun row : Z * User => (row.1, send (messenger_id row.2)))
                   (get_expired_premium_users now users)).
Proof.
  unfold process_expired_users.
  destruct (sweep_loop (get_expired_premium_users now users) (mkSweep users 0 0 []))
    as [Hdb Hnote].
  { intros [uid u] (Hu & _)%get_expired_premium_users_spec. simpl. by eexists. }
  simpl in *. split; [done|]. by rewrite Hnote, app_nil_r.
Qed.

Lemma one_call_per_row (uid : Z) (u : User) (l : list (Z * User)) :
  NoDup l.*1 → (uid, u) ∈ l →
  List.filter (fun e : Z * bool => e.1 =? uid)
              (map (fun row : Z * User => (row.1, send (messenger_id row.2))) l)
  = [(uid, send (messenger_id u))].
Proof.
  assert (∀ l' : list (Z * User), uid ∉ l'.*1 →
            List.filter (fun e : Z * bool => e.1 =? uid)
              (map (fun row : Z * User => (row.1, send (messenger_id row.2))) l') = [])
    as Hnone.
  { induction l' as [|[k x] l' IH]; [done|]. rewrite fmap_cons. simpl. intros Hnotin.
    destruct (k =? uid) eqn:Hk.
    - apply Z.eqb_eq in Hk. subst. exfalso. apply Hnotin. left.
    - apply IH. intros ?. apply Hnotin. by right. }
  induction l as [|[k x] l IH]; [by intros _ ?%elem_of_nil|].
  rewrite fmap_cons. simpl. intros [Hnotin Hnd]%NoDup_cons [[= <- <-]|Hin]%elem_of_cons.
  - rewrite Z.eqb_refl, Hnone by done. done.
  - destruct (k =? uid) eqn:Hk; [|by apply IH].
    apply Z.eqb_eq in Hk. subst. exfalso. apply Hnotin.
    apply list_elem_of_fmap. by exists (uid, u).
Qed.
End expiry_sweep.

(** C5 (as stated, refuted). A user whose stored tier is premium and whose
    expiry lies one second before now, but whose account is not active, is
    not in the output of the selection. *)
Lemma inactive_expired_premium_user_not_selected :
  let now := examples.now_12_05 in
  let u := mkUser "psid-3" None PREMIUM (Some (now - seconds 1)) true true false false 0 0 None in
  let users : gmap Z User := {[ 3 := u ]} in
  users !! 3 = Some u
  ∧ subscription_tier u = PREMIUM
  ∧ subscription_expiry_date u = Some (now - seconds 1)
  ∧ queries.get_expired_premium_users now users = [].
Proof. by vm_compute. Qed.

(** C5 (amended). The selection of the expiry sweep returns exactly the
    active users ([is_active]) whose stored tier is premium and whose
    expiry date is earlier than the time of the sweep. An active user with
    tier premium and expiry one second before now is in the output; a user
    with tier premium and expiry one second after now is not. *)
Theorem expiry_sweep_selection (now : datetime) (users : gmap Z User) (uid : Z) (u : User) :
  users !! uid = Some u →
  ((uid, u) ∈ queries.get_expired_premium_users now users
   ↔ is_active u = true ∧ subscription_tier u = PREMIUM
     ∧ ∃ expiry, subscription_expiry_date u = Some expiry ∧ expiry < now)
  ∧ (is_active u = true → subscription_tier u = PREMIUM →
     subscription_expiry_date u = Some (now - seconds 1) →
     (uid, u) ∈ queries.get_expired_premium_users now users)
  ∧ (subscription_tier u = PREMIUM →
     subscription_expiry_date u = Some (now + seconds 1) →
     (uid, u) ∉ queries.get_expired_premium_users now users).
Proof.
  intros Hu. split_and!.
  - rewrite get_expired_premium_users_spec. naive_solver.
  - intros Ha Ht He. apply get_expired_premium_users_spec. split_and!; try done.
    exists (now - seconds 1). split; [done|]. unfold seconds. lia.
  - intros Ht He (_ & _ & _ & e & He' & Hlt)%get_expired_premium_users_spec.
    rewrite He in He'. injection He' as <-. unfold seconds in Hlt. lia.
Qed.

(** An active premium user whose subscription ended a second ago. *)
Lemma expiry_sweep_selection_witness :
  let now := examples.now_12_05 in
  let u := examples.premium_user (now - seconds 1) in
  (2, u) ∈ queries.get_expired_premium_users now {[ 2 := u ]}.
Proof.
  intros now u.
  assert (({[ 2 := u ]} : gmap Z User) !! 2 = Some u) as Hu by reflexivity.
  apply (proj1 (proj2 (expiry_sweep_selection now {[ 2 := u ]} 2 u Hu))); reflexivity.
Defined.

(** C6. For every user selected by the expiry sweep, the sweep stores the
    user with tier free and no expiry date, everything else as it was;
    it calls the expiry notification for that user exactly once, whatever
    the answer; and the users stored after the sweep are the same for
    every behaviour of the send, so a failed notification neither undoes
    nor holds up the change of tier. *)
Theorem expiry_sweep_downgrades (send : string -> bool) (now : datetime)
    (users : gmap Z User) (uid : Z) (u : User) :
  (uid, u) ∈ queries.get_expired_premium_users now users →
  let s := check_expiries.process_expired_users send now users in
  check_expiries.db_users s !! uid = Some (queries.set_subscription FREE None u)
  ∧ subscription_tier (queries.set_subscription FREE None u) = FREE
  ∧ subscription_expiry_date (queries.set_subscription FREE None u) = None
  ∧ List.filter (fun e : Z * bool => e.1 =? uid) (check_expiries.notifications s)
    = [(uid, send (messenger_id u))]
  ∧ ∀ send', check_expiries.db_users (check_expiries.process_expired_users send' now users)
             = check_expiries.db_users s.
Proof.
  intros Hin s.
  destruct (process_expired_users_spec send now users) as [Hdb Hnote]. fold s in Hdb, Hnote.
  pose proof Hin as (Hu & _)%get_expired_premium_users_spec.
  split_and!.
  - rewrite Hdb, decide_True, Hu; [done|]. apply list_elem_of_fmap. by exists (uid, u).
  - by destruct u.
  - by destruct u.
  - rewrite Hnote, filter_reverse.
    rewrite (one_call_per_row send uid u); [done| |done].
    apply get_expired_premium_users_NoDup.
  - intros send'. apply map_eq. intros k.
    destruct (process_expired_users_spec send' now users) as [Hdb' _].
    by rewrite Hdb, Hdb'.
Qed.

(** A sweep whose notification fails still downgrades the user. *)
Lemma expiry_sweep_downgrades_witness :
  let now := examples.now_12_05 in
  let u := examples.premium_user (now - seconds 1) in
  let s := check_expiries.process_expired_users (fun _ => false) now {[ 2 := u ]} in
  check_expiries.db_users s !! 2 = Some (queries.set_subscription FREE None u).
Proof.
  intros now u s.
  assert ((2, u) ∈ queries.get_expired_premium_users now {[ 2 := u ]}) as Hin.
  { apply list_elem_of_In. vm_compute. by left. }
  exact (proj1 (expiry_sweep_downgrades (fun _ => false) now {[ 2 := u ]} 2 u Hin)).
Defined.

(** ** Writes to a stored task *)

Section task_writes.
Import queries.

Lemma markers_kept_refl (t : Task) : markers_kept t t.
Proof. by intros i. Qed.

Lemma markers_kept_eq (t t' : Task) : markers t' = markers t → markers_kept t t'.
Proof. intros Heq i. by rewrite Heq. Qed.

Lemma set_marker_kept (column : string) (t : Task) :
  column ∈ marker_columns →
  ∃ t', task_setattr (fun _ => None) column (PyBool true) t = Some (Some t')
        ∧ markers_kept t t'.
Proof.
  unfold marker_columns. intros Hc.
  repeat (apply elem_of_cons in Hc as [->|Hc];
          [eexists; split; [reflexivity|];
           destruct t; intros i; do 7 (try destruct i as [|i]); simpl; try done|]).
  by apply elem_of_nil in Hc.
Qed.

Lemma mark_reminder_sent_kept (t : Task) (reminder_type : string) :
  markers_kept t (models.mark_reminder_sent t reminder_type).
Proof.
  unfold models.mark_reminder_sent.
  destruct (mapping_get reminder_type reminder_mapping) as [column|] eqn:Hm;
    [|apply markers_kept_refl].
  assert (column ∈ marker_columns) as Hc.
  { revert Hm. unfold reminder_mapping. simpl.
    repeat (destruct (String.eqb reminder_type _);
            [intros [= <-]; unfold marker_columns; set_solver|]).
    done. }
  destruct (set_marker_kept column t Hc) as (t' & -> & Hk). done.
Qed.

Lemma mark_window_sent_kept (t : Task) (window_name : string) :
  markers_kept t (send_reminders.mark_window_sent window_name t).
Proof.
  unfold send_reminders.mark_window_sent.
  destruct (send_reminders.window_marker window_name) as [column|] eqn:Hm;
    [|apply markers_kept_refl].
  apply window_marker_cases in Hm.
  destruct (set_marker_kept column t Hm) as (t' & -> & Hk). done.
Qed.
Variable cast_timestamp : string -> option datetime.

(** A write to a column that is not a marker leaves the markers alone. *)
Lemma task_setattr_markers (key : string) (v : PyVal) (t t' : Task) :
  key ∉ marker_columns →
  task_setattr cast_timestamp key v t = Some (Some t') →
  markers t' = markers t.
Proof.
  intros Hkey. unfold task_setattr.
  repeat match goal with
         | |- context [String.eqb key ?k] =>
             let E := fresh "E" in
             destruct (String.eqb key k) eqn:E;
             [ apply String.eqb_eq in E; subst key;
               first [ exfalso; apply Hkey; unfold marker_columns; set_solver
                     | intros [= H]; revert H;
                       first [ destruct v; try done; intros [= <-]; by destruct t
                             | destruct (as_datetime _ _); [intros [= <-]; by destruct t|done]
                             | destruct (as_bool _); [intros [= <-]; by destruct t|done]
                             | destruct (as_int _); [intros [= <-]; by destruct t|done]
                             | destruct (as_opt_int _); [intros [= <-]; by destruct t|done]
                             | destruct (as_opt_str _); [intros [= <-]; by destruct t|done]
                             | destruct (as_source _); [intros [= <-]; by destruct t|done] ] ]
             | ]
         end.
  done.
Qed.

Lemma apply_updates_markers (updates : list (string * PyVal)) (t t' : Task) :
  Forall (fun kv => kv.1 ∉ marker_columns) updates →
  apply_updates cast_timestamp updates t = Some t' →
  markers t' = markers t.
Proof.
  revert t. induction updates as [|[key v] rest IH]; intros t Hall; simpl.
  { by intros [= <-]. }
  apply Forall_cons in Hall as [Hkey Hall]. simpl in Hkey.
  destruct (task_setattr cast_timestamp key v t) as [[t1|]|] eqn:Hset; [|done|by apply IH].
  intros ?%IH; [|done]. apply task_setattr_markers in Hset; [|done]. congruence.
Qed.

Lemma update_task_markers (tasks : gmap Z Task) (task_id : Z)
    (updates : list (string * PyVal)) (tid : Z) (t : Task) :
  Forall (fun kv => kv.1 ∉ marker_columns) updates →
  tasks !! tid = Some t →
  ∃ t', (update_task cast_timestamp tasks task_id updates).1 !! tid = Some t'
        ∧ markers t' = markers t.
Proof.
  intros Hall Ht. unfold update_task.
  destruct (tasks !! task_id) as [task|] eqn:Htask; simpl; [|by exists t].
  destruct (apply_updates cast_timestamp updates task) as [task'|] eqn:Hup; simpl;
    [|by exists t].
  destruct (decide (tid = task_id)) as [->|Hne].
  - rewrite lookup_insert_eq. exists task'. split; [done|].
    rewrite Ht in Htask. injection Htask as <-. by eapply apply_updates_markers.
  - rewrite lookup_insert_ne by done. by exists t.
Qed.

End task_writes.

(** C9. The six reminder markers of a stored task are monotonic under the
    writes of normal operation: after marking a reminder as sent (through
    either entry point), after a reconciliation update of title and due
    date (whatever the new values, also when the due date moves),
    after completing and after soft-deleting, the task is still stored and
    every marker that was true is true. The last three leave all six
    markers exactly as they were. *)
Theorem markers_are_monotonic (cast_timestamp : string -> option datetime)
    (op : operations.Operation) (tasks : gmap Z Task) (tid : Z) (t : Task) :
  tasks !! tid = Some t →
  ∃ t', operations.apply cast_timestamp op tasks !! tid = Some t'
        ∧ markers_kept t t'
        ∧ match op with
          | operations.ReconcileUpdate _ _ _ | operations.Complete _
          | operations.SoftDelete _ => markers t' = markers t
          | _ => True
          end.
Proof.
  intros Ht. destruct op as [task_id ty|task_id n now|task_id v1 v2|task_id|task_id]; simpl.
  - unfold queries.mark_reminder_sent.
    destruct (tasks !! task_id) as [task|] eqn:Htask; simpl.
    2:{ exists t. split_and!; [done|apply markers_kept_refl|done]. }
    destruct (decide (tid = task_id)) as [->|Hne].
    + rewrite lookup_insert_eq. eexists. split; [done|]. split; [|done].
      rewrite Ht in Htask. injection Htask as <-. apply mark_reminder_sent_kept.
    + rewrite lookup_insert_ne by done. exists t.
      split_and!; [done|apply markers_kept_refl|done].
  - rewrite update_task_last_reminder_lookup. case_decide as Hk.
    + subst. rewrite Ht. simpl. eexists. split; [done|]. split; [|done].
      apply mark_window_sent_kept.
    + exists t. split_and!; [done|apply markers_kept_refl|done].
  - destruct (update_task_markers cast_timestamp tasks task_id
                [("title", v1); ("due_date", v2)] tid t) as (t' & Hl & Hm); [|done|].
    { repeat constructor; simpl; unfold marker_columns; set_solver. }
    exists t'. split_and!; [done|by apply markers_kept_eq|done].
  - destruct (update_task_markers cast_timestamp tasks task_id
                [("is_completed", PyBool true)] tid t) as (t' & Hl & Hm); [|done|].
    { repeat constructor; simpl; unfold marker_columns; set_solver. }
    exists t'. split_and!; [done|by apply markers_kept_eq|done].
  - destruct (update_task_markers cast_timestamp tasks task_id
                [("is_deleted", PyBool true)] tid t) as (t' & Hl & Hm); [|done|].
    { repeat constructor; simpl; unfold marker_columns; set_solver. }
    exists t'. split_and!; [done|by apply markers_kept_eq|done].
Qed.

(** A reconciliation update that moves the due date of a task whose
    24-hour reminder was sent. *)
Lemma markers_are_monotonic_witness :
  let t := set_reminder_1_day_sent true (examples.homework 1 examples.due_2025_01_10_noon) in
  ∃ t', operations.apply (fun _ => None)
          (operations.ReconcileUpdate 7 (PyStr "HW1 (moved)")
             (PyDateTime (examples.due_2025_01_10_noon + days 7)))
          {[ 7 := t ]} !! 7 = Some t'
        ∧ markers_kept t t'
        ∧ markers t' = markers t.
Proof.
  intros t.
  assert (({[ 7 := t ]} : gmap Z Task) !! 7 = Some t) as Ht by reflexivity.
  exact (markers_are_monotonic (fun _ => None)
           (operations.ReconcileUpdate 7 (PyStr "HW1 (moved)")
              (PyDateTime (examples.due_2025_01_10_noon + days 7)))
           {[ 7 := t ]} 7 t Ht).
Defined.

(** ** The monthly limit of manual tasks *)

(** C10. [can_add_manual_task] is true when the user has an active premium
    subscription (tier premium, an expiry date, now strictly before it);
    otherwise it is true exactly when the counter of manual tasks of the
    month is strictly below 5. [increment_user_monthly_tasks] resets the
    counter (to 1, the task being added) when now has reached the reset
    date plus 31 days, and only then; otherwise it adds one and keeps the
    reset date. *)
Theorem manual_task_limit (month_start : datetime -> datetime) (now : datetime)
    (users : gmap Z User) (uid : Z) (u : User) :
  users !! uid = Some u →
  (active_premium u now → can_add_manual_task u now = true)
  ∧ (¬ active_premium u now →
     (can_add_manual_task u now = true ↔ manual_tasks_this_month u < 5))
  ∧ (is_premium u now = true ↔ active_premium u now)
  ∧ ∃ u', (queries.increment_user_monthly_tasks month_start now users uid).1 !! uid = Some u'
          ∧ (month_reset_date u + days 31 <= now →
             manual_tasks_this_month u' = 1 ∧ month_reset_date u' = month_start now)
          ∧ (now < month_reset_date u + days 31 →
             manual_tasks_this_month u' = manual_tasks_this_month u + 1
             ∧ month_reset_date u' = month_reset_date u).
Proof.
  intros Hu.
  assert (is_premium u now = true ↔ active_premium u now) as Hprem.
  { unfold is_premium, active_premium.
    destruct (subscription_tier u); simpl; [naive_solver|].
    destruct (subscription_expiry_date u) as [e|]; [|naive_solver].
    rewrite Z.ltb_lt. naive_solver. }
  split_and!; [| |done|].
  - intros Ha%Hprem. unfold can_add_manual_task. by rewrite Ha.
  - intros Hna. unfold can_add_manual_task.
    destruct (is_premium u now) eqn:Hp; [exfalso; apply Hna; by apply Hprem|]. apply Z.ltb_lt.
  - unfold queries.increment_user_monthly_tasks. rewrite Hu. simpl.
    rewrite lookup_insert_eq. eexists. split; [done|].
    destruct (Z.leb_spec (month_reset_date u + days 31) now); split; intros; try lia;
      by destruct u.
Qed.

(** A free-tier user who has added four manual tasks this month. *)
Lemma manual_task_limit_witness :
  let u := queries.set_monthly_tasks 4 0 examples.free_user in
  can_add_manual_task u (days 10) = true ↔ manual_tasks_this_month u < 5.
Proof.
  intros u.
  assert (({[ 1 := u ]} : gmap Z User) !! 1 = Some u) as Hu by reflexivity.
  apply (proj1 (proj2 (manual_task_limit (fun d => d) (days 10) {[ 1 := u ]} 1 u Hu))).
  intros [Ht _]. vm_compute in Ht. discriminate.
Defined.

(** ** The reconciler *)

(** C7 (as stated, refuted). The gateway is rate-limited on the first call
    and would answer the second. [sync_single_user] gives the user up with
    a Canvas API error after that one call: the fetch is not made a second
    time. *)
Lemma rate_limited_fetch_is_not_retried :
  let user := examples.free_user in
  let request := refresh_data.get_assignments (canvas_token user) in
  examples.rate_limited_once request 0%nat = canvas_api.Raised canvas_api.RateLimitError
  ∧ examples.rate_limited_once request 1%nat = canvas_api.Returned []
  ∧ refresh_data.sync_single_user (fun _ => "") (fun _ => "") (fun _ => true)
      examples.rate_limited_once ∅ ∅ 1 user
    = (refresh_data.failed refresh_data.canvas_api_error, [refresh_data.Fetched request]).
Proof. by vm_compute. Qed.

(** C7 (amended). When a fetch of the remote data of a user fails with a
    rate-limit error, [sync_single_user] does not wait and does not retry:
    the failure is recorded as a Canvas API error at once, no call into
    the query layer is made and the user is given up for this cycle,
    whether the error comes from the fetch of the assignments or from the
    fetch of the courses. Waiting once (5 seconds) and calling again
    exactly once after a rate-limit error is what the helper
    [batch_request_with_rate_limit] does for each request; when the second
    call fails too, the result of that request is [None]. *)
Theorem rate_limit_gives_user_up_without_retry
    (isoformat datetime_str : datetime -> string) (db : refresh_data.DbCall -> bool)
    (gateway : refresh_data.Request -> nat -> canvas_api.Reply (list (gmap string PyVal)))
    (tasks : gmap Z Task) (courses : gmap Z refresh_data.Course) (uid : Z) (user : User) :
  let assignments := refresh_data.get_assignments (canvas_token user) in
  let courses_request := refresh_data.get_courses (canvas_token user) in
  let run := refresh_data.sync_single_user isoformat datetime_str db gateway tasks courses uid user in
  (gateway assignments 0%nat = canvas_api.Raised canvas_api.RateLimitError →
   run = (refresh_data.failed refresh_data.canvas_api_error, [refresh_data.Fetched assignments]))
  ∧ (∀ snapshot, gateway assignments 0%nat = canvas_api.Returned snapshot →
       gateway courses_request 0%nat = canvas_api.Raised canvas_api.RateLimitError →
       run = (refresh_data.failed refresh_data.canvas_api_error,
              [refresh_data.Fetched assignments; refresh_data.Fetched courses_request]))
  ∧ (∀ (A : Type) (request_func : nat -> canvas_api.Reply A) (i : nat),
       request_func 0%nat = canvas_api.Raised canvas_api.RateLimitError →
       canvas_api.batch_step i request_func
       = (match request_func 1%nat with
          | canvas_api.Returned result => Some result
          | canvas_api.Raised _ => None
          end,
          [canvas_api.Called i; canvas_api.Slept 5000; canvas_api.Called i])).
Proof.
  intros assignments courses_request run. split_and!.
  - intros Hg. unfold run, refresh_data.sync_single_user. fold assignments. by rewrite Hg.
  - intros snapshot Hg Hc. unfold run, refresh_data.sync_single_user.
    fold assignments courses_request. by rewrite Hg, Hc.
  - intros A request_func i Hr. unfold canvas_api.batch_step. rewrite Hr.
    by destruct (request_func 1%nat).
Qed.

(** The rate-limited gateway of the examples. *)
Lemma rate_limit_gives_user_up_without_retry_witness :
  refresh_data.sync_single_user (fun _ => "") (fun _ => "") (fun _ => true)
    examples.rate_limited_once ∅ ∅ 1 examples.free_user
  = (refresh_data.failed refresh_data.canvas_api_error,
     [refresh_data.Fetched (refresh_data.get_assignments (canvas_token examples.free_user))]).
Proof.
  apply (proj1 (rate_limit_gives_user_up_without_retry (fun _ => "") (fun _ => "")
                  (fun _ => true) examples.rate_limited_once ∅ ∅ 1 examples.free_user)).
  reflexivity.
Defined.

(** C4 (the code departs from the claim). A user has one mirrored
    assignment, and the snapshot holds the same assignment with the same
    title and the same due date. Nothing differs, yet the run calls
    [update_task] for the mirrored task.
    - With the snapshot as [canvas_api.get_assignments] delivers it: the
      snapshot is read under the keys ['name'] and ['due_at'], which the
      gateway does not write, so the due date read is [None], unequal to
      every rendering of the stored date, and the update carries
      [due_date = None].
    - With the snapshot under the keys the function reads, the due date
      written as Canvas writes it ([...Z]): the test compares that text
      with [isoformat()] of the stored date, which never ends in [Z], so
      the update is made and counted. *)
Theorem unchanged_assignment_is_updated :
  ∀ (isoformat datetime_str : datetime -> string) (db : refresh_data.DbCall -> bool),
    let due := examples.due_2025_01_10_noon in
    let mirrored := [(10, examples.homework 1 due)] in
    fst <$> refresh_data.sync_user_assignments isoformat datetime_str db 1 mirrored
              [examples.fetched_assignment 1 "HW1" due]
    = Some [refresh_data.update_task 10 [("title", PyStr "HW1"); ("due_date", PyNone)]]
    ∧ (isoformat due ≠ "2025-01-10T12:00:00Z" →
       db (refresh_data.update_task 10
             [("title", PyStr "HW1"); ("due_date", PyStr "2025-01-10T12:00:00Z")]) = true →
       refresh_data.sync_user_assignments isoformat datetime_str db 1 mirrored
         [examples.canvas_assignment 1 "HW1" "2025-01-10T12:00:00Z"]
       = Some ([refresh_data.update_task 10
                  [("title", PyStr "HW1"); ("due_date", PyStr "2025-01-10T12:00:00Z")]],
               (0, 1, 0))).
Proof.
  intros isoformat datetime_str db due mirrored. split; [by vm_compute|].
  intros Hiso Hdb.
  assert (String.eqb "2025-01-10T12:00:00Z" (isoformat due) = false) as Hne.
  { apply String.eqb_neq. congruence. }
  vm_compute in Hne. vm_compute. rewrite Hne. vm_compute in Hdb. rewrite Hdb. reflexivity.
Qed.

Section reconciler_diff.
Import refresh_data.
Variable isoformat datetime_str : datetime -> string.
Variable db : DbCall -> bool.

(** What one run of [sync_user_assignments] asks of the query layer,
    for a snapshot with id set [S] (the keys of the dictionary) and the
    mirrored id set [M]: one [create_task] per id of [S ∖ M], one
    [delete_task] per mirrored task whose id is in [M ∖ S], and an
    [update_task], carrying a title and a due date only, for ids of
    [S ∩ M] whose due-date test fires. *)
Lemma sync_user_assignments_calls (uid : Z) (existing_tasks : list (Z * Task))
    (canvas_assignments : list dict) (calls : list DbCall) (counts : Z * Z * Z) :
  sync_user_assignments isoformat datetime_str db uid existing_tasks canvas_assignments
  = Some (calls, counts) →
  ∃ d, assignment_dict datetime_str canvas_assignments = Some d
    ∧ (∀ data, create_task data ∈ calls
               ↔ ∃ i a, i ∈ dom d ∖ existing_ids existing_tasks ∧ d !! i = Some a
                        ∧ data = new_task_data uid i a)
    ∧ (∀ tid, delete_task tid ∈ calls
              ↔ ∃ t s, (tid, t) ∈ existing_tasks ∧ canvas_assignment_id t = Some s
                       ∧ s ∈ existing_ids existing_tasks ∖ dom d)
    ∧ (∀ tid data, update_task tid data ∈ calls →
         ∃ i a t, i ∈ dom d ∩ existing_ids existing_tasks ∧ d !! i = Some a
                  ∧ find_existing existing_tasks i = Some (tid, t)
                  ∧ due_date_changed isoformat (dict_get a "due_at") t = true
                  ∧ data = [ ("title", dict_get_default a "name" (PyStr (title t)));
                             ("due_date", dict_get a "due_at") ]).
Proof.
  unfold sync_user_assignments.
  destruct (assignment_dict datetime_str canvas_assignments) as [d|]; simpl; [|done].
  intros [= <- _]. exists d. split; [done|].
  set (created := omap _ (elements (dom d ∖ _))).
  set (updated := omap _ (elements (dom d ∩ _))).
  set (deleted := omap _ existing_tasks).
  assert (∀ c, c ∈ updated →
            ∃ i a row, i ∈ dom d ∩ existing_ids existing_tasks ∧ d !! i = Some a
              ∧ find_existing existing_tasks i = Some row
              ∧ update_call isoformat a row = Some c) as Hupd.
  { intros c (i & Hi & Hc)%list_elem_of_omap. apply elem_of_elements in Hi.
    destruct (d !! i) as [a|] eqn:Ha; simpl in Hc; [|done].
    destruct (find_existing existing_tasks i) as [row|] eqn:Hrow; simpl in Hc; [|done].
    by exists i, a, row. }
  assert (∀ c, c ∈ deleted ↔
            ∃ tid t s, c = delete_task tid ∧ (tid, t) ∈ existing_tasks
              ∧ canvas_assignment_id t = Some s
              ∧ s ∈ existing_ids existing_tasks ∖ dom d) as Hdel.
  { intros c. unfold deleted. rewrite list_elem_of_omap. split.
    - intros ([tid t] & Hrow & Hc). simpl in Hc.
      destruct (canvas_assignment_id t) as [s|] eqn:Hs; [|done].
      case_bool_decide; [|done]. injection Hc as <-. by exists tid, t, s.
    - intros (tid & t & s & -> & Hrow & Hs & Hin). exists (tid, t). split; [done|].
      simpl. rewrite Hs. by rewrite bool_decide_eq_true_2. }
  split_and!.
  - intros data. rewrite !elem_of_app. split.
    + intros [Hc|[Hc|Hc]].
      * apply list_elem_of_fmap in Hc as (data' & [= <-] & Hc).
        apply list_elem_of_omap in Hc as (i & Hi%elem_of_elements & Hc).
        destruct (d !! i) as [a|] eqn:Ha; simpl in Hc; [|done].
        injection Hc as <-. by exists i, a.
      * apply Hupd in Hc as (i & a & row & _ & _ & _ & Hc). unfold update_call in Hc.
        by destruct (due_date_changed _ _ _).
      * apply Hdel in Hc as (? & ? & ? & ? & _). done.
    + intros (i & a & Hi & Ha & ->). left. apply list_elem_of_fmap.
      eexists. split; [done|]. apply list_elem_of_omap. exists i.
      split; [by apply elem_of_elements|]. by rewrite Ha.
  - intros tid. rewrite !elem_of_app. split.
    + intros [Hc|[Hc|Hc]].
      * by apply list_elem_of_fmap in Hc as (? & ? & _).
      * apply Hupd in Hc as (i & a & row & _ & _ & _ & Hc). unfold update_call in Hc.
        by destruct (due_date_changed _ _ _).
      * apply Hdel in Hc as (tid' & t & s & [= <-] & ?). by exists t, s.
    + intros (t & s & ? & ? & ?). right. right. apply Hdel. by exists tid, t, s.
  - intros tid data. rewrite !elem_of_app. intros [Hc|[Hc|Hc]].
    + by apply list_elem_of_fmap in Hc as (? & ? & _).
    + apply Hupd in Hc as (i & a & [tid' t] & Hi & Ha & Hrow & Hc).
      unfold update_call in Hc. simpl in Hc.
      destruct (due_date_changed _ _ _) eqn:Hdue; [|done].
      injection Hc as <- <-. by exists i, a, t.
    + apply Hdel in Hc as (? & ? & ? & ? & _). done.
Qed.

(** No second [create_task] for the same id. *)
Lemma sync_user_assignments_creates_once (uid : Z) (existing_tasks : list (Z * Task))
    (canvas_assignments : list dict) (calls : list DbCall) (counts : Z * Z * Z) :
  sync_user_assignments isoformat datetime_str db uid existing_tasks canvas_assignments
  = Some (calls, counts) →
  NoDup (omap (fun c => match c with
                        | create_task data => assoc "canvas_assignment_id" data
                        | _ => None
                        end) calls).
Proof.
  unfold sync_user_assignments.
  destruct (assignment_dict datetime_str canvas_assignments) as [d|]; simpl; [|done].
  intros [= <- _].
  set (ids := elements (dom d ∖ existing_ids existing_tasks)).
  assert (NoDup ids) as Hnd by apply NoDup_elements.
  rewrite !omap_app.
  assert (∀ l : list (Z * Task),
            omap (fun c => match c with
                           | create_task data => assoc "canvas_assignment_id" data
                           | _ => None
                           end)
              (omap (fun row : Z * Task =>
                       match canvas_assignment_id row.2 with
                       | Some s => if bool_decide (s ∈ existing_ids existing_tasks ∖ dom d)
                                   then Some (delete_task row.1) else None
                       | None => None
                       end) l) = []) as ->.
  { induction l as [|row l IH]; [done|]. simpl.
    destruct (canvas_assignment_id row.2); [|done]. by case_bool_decide. }
  assert (∀ l : list string,
            omap (fun c => match c with
                           | create_task data => assoc "canvas_assignment_id" data
                           | _ => None
                           end)
              (omap (fun assignment_id =>
                       assignment ← d !! assignment_id;
                       existing_task ← find_existing existing_tasks assignment_id;
                       update_call isoformat assignment existing_task) l) = []) as ->.
  { induction l as [|i l IH]; [done|]. simpl.
    destruct (d !! i) as [a|]; simpl; [|done].
    destruct (find_existing existing_tasks i) as [row|]; simpl; [|done].
    unfold update_call. by destruct (due_date_changed _ _ _). }
  rewrite !app_nil_r. clearbody ids.
  induction ids as [|i ids IH]; [constructor|].
  apply NoDup_cons in Hnd as [Hnotin Hnd]. simpl.
  destruct (d !! i) as [a|]; simpl; [|by apply IH].
  apply NoDup_cons. split; [|by apply IH].
  intros Hin. apply Hnotin. clear -Hin.
  induction ids as [|j ids IH]; simpl in Hin; [by apply elem_of_nil in Hin|].
  destruct (d !! j) as [b|]; simpl in Hin; [|right; by apply IH].
  apply elem_of_cons in Hin as [[= ->]|Hin]; [left|right; by apply IH].
Qed.
End reconciler_diff.

(** * Further properties of the query layer *)

(** ** Ordered queries *)

Section ordering_facts.
Import queries.
Context {A : Type}.
Variable le : A -> A -> bool.

Lemma insert_sorted_perm (x : A) (l : list A) : insert_sorted le x l ≡ₚ x :: l.
Proof.
  induction l as [|y l IH]; simpl; [done|].
  destruct (le x y); [done|]. rewrite IH. apply Permutation_swap.
Qed.

Lemma order_by_perm (l : list A) : order_by le l ≡ₚ l.
Proof.
  induction l as [|x l IH]; simpl; [done|].
  unfold order_by in *. simpl. by rewrite insert_sorted_perm, IH.
Qed.

Lemma elem_of_order_by (x : A) (l : list A) : x ∈ order_by le l ↔ x ∈ l.
Proof. by rewrite order_by_perm. Qed.

Lemma length_order_by (l : list A) : length (order_by le l) = length l.
Proof. by rewrite order_by_perm. Qed.

Hypothesis le_total : ∀ a b, le a b = false → le b a = true.
Hypothesis le_trans : ∀ a b c, le a b = true → le b c = true → le a c = true.

Lemma insert_sorted_sorted (x : A) (l : list A) :
  StronglySorted (fun a b => le a b = true) l →
  StronglySorted (fun a b => le a b = true) (insert_sorted le x l).
Proof using le_total le_trans.
  induction 1 as [|y l Hs IH Hall]; simpl; [repeat constructor|].
  destruct (le x y) eqn:Hxy.
  - constructor; [by constructor|]. constructor; [done|].
    eapply Forall_impl; [exact Hall|]. intros z Hz. by eapply le_trans.
  - constructor; [done|]. rewrite insert_sorted_perm. constructor; [by apply le_total|done].
Qed.

Lemma order_by_sorted (l : list A) :
  StronglySorted (fun a b => le a b = true) (order_by le l).
Proof using le_total le_trans.
  induction l as [|x l IH]; [constructor|]. by apply insert_sorted_sorted.
Qed.
End ordering_facts.

Section menu_queries.
Import queries.

Lemma open_tasks_spec (tasks : gmap Z Task) (uid : Z) (cond : Task -> bool) (tid : Z) (t : Task) :
  (tid, t) ∈ open_tasks tasks uid cond
  ↔ tasks !! tid = Some t ∧ user_id t = uid ∧ is_deleted t = false ∧ is_completed t = false
    ∧ cond t = true.
Proof.
  unfold open_tasks.
  rewrite list_elem_of_In, filter_In, <- list_elem_of_In, elem_of_map_to_list. simpl.
  rewrite !andb_true_iff, !negb_true_iff, Z.eqb_eq. naive_solver.
Qed.

Lemma StronglySorted_weaken {A} (R R' : A -> A -> Prop) (l : list A) :
  (∀ a b, R a b → R' a b) → StronglySorted R l → StronglySorted R' l.
Proof.
  intros HR. induction 1 as [|x l Hs IH Hall]; constructor; [done|].
  eapply Forall_impl; [exact Hall|]. intros y. apply HR.
Qed.

Lemma by_due_date_sorted (l : list (Z * Task)) :
  StronglySorted (fun a b : Z * Task => due_date a.2 <= due_date b.2) (order_by by_due_date l).
Proof.
  eapply StronglySorted_weaken; [|apply (order_by_sorted by_due_date)].
  - intros a b. unfold by_due_date. apply Z.leb_le.
  - intros a b. unfold by_due_date. rewrite Z.leb_gt, Z.leb_le. lia.
  - intros a b c. unfold by_due_date. rewrite !Z.leb_le. lia.
Qed.

Lemma by_due_date_desc_sorted (l : list (Z * Task)) :
  StronglySorted (fun a b : Z * Task => due_date b.2 <= due_date a.2)
                 (order_by by_due_date_desc l).
Proof.
  eapply StronglySorted_weaken; [|apply (order_by_sorted by_due_date_desc)].
  - intros a b. unfold by_due_date_desc. apply Z.leb_le.
  - intros a b. unfold by_due_date_desc. rewrite Z.leb_gt, Z.leb_le. lia.
  - intros a b c. unfold by_due_date_desc. rewrite !Z.leb_le. lia.
Qed.

Lemma StronglySorted_take {A} (R : A -> A -> Prop) (n : nat) (l : list A) :
  StronglySorted R l → StronglySorted R (take n l).
Proof.
  intros Hs. revert n. induction Hs as [|x l Hs IH Hall]; intros [|n]; simpl; try constructor.
  - apply IH.
  - eapply Forall_forall. intros y Hy. eapply Forall_forall in Hall; [done|].
    eapply elem_of_subseteq; [|exact Hy]. apply sublist_subseteq, sublist_take.
Qed.
End menu_queries.

Section menu_facts.
Import queries.

Lemma StronglySorted_app_elems {A} (R : A -> A -> Prop) (l1 l2 : list A) (x y : A) :
  StronglySorted R (l1 ++ l2) → x ∈ l1 → y ∈ l2 → R x y.
Proof.
  induction l1 as [|z l1 IH]; simpl; [by intros _ ?%elem_of_nil|].
  intros Hs [->|Hx]%elem_of_cons Hy; apply StronglySorted_inv in Hs as [Hs Hall].
  - eapply Forall_forall in Hall; [done|]. apply elem_of_app. by right.
  - by apply IH.
Qed.

Lemma reminder_candidate_open (now : datetime) (tasks : gmap Z Task) (users : gmap Z User)
    (ty : string) (tid : Z) (t : Task) :
  (tid, t) ∈ results_get ty (get_tasks_needing_reminders now tasks users) →
  tasks !! tid = Some t ∧ is_deleted t = false ∧ is_completed t = false.
Proof.
  unfold get_tasks_needing_reminders. simpl.
  repeat (destruct (String.eqb ty _);
          [ unfold reminder_query; rewrite query_task_join_user_spec;
            intros (Ht & u & _ & Hc); rewrite !andb_true_iff, !negb_true_iff in Hc;
            by destruct_and? | ]).
  by intros ?%elem_of_nil.
Qed.

Lemma update_flag_lookup (cast_timestamp : string -> option datetime) (tasks : gmap Z Task)
    (tid : Z) (t : Task) (key : string) (set : bool -> Task -> Task) :
  tasks !! tid = Some t →
  task_setattr cast_timestamp key (PyBool true) t = Some (Some (set true t)) →
  update_task cast_timestamp tasks tid [(key, PyBool true)] = (<[tid := set true t]> tasks, true).
Proof. intros Ht Hset. unfold update_task. rewrite Ht. simpl. by rewrite Hset. Qed.
End menu_facts.


(** The menu queries come back ordered by due date, the overdue list with
    the latest due date first and the others with the earliest first. The
    list of upcoming tasks has at most [limit] entries, and these are the
    earliest ones: every open task of the user that is due from now on and
    is left out is due no earlier than every task listed. When the limit
    is not below the number of stored tasks, nothing is left out. *)
Theorem menu_queries_order (now : datetime) (tasks : gmap Z Task) (uid : Z) (limit : Z) :
  StronglySorted (fun a b : Z * Task => due_date b.2 <= due_date a.2)
                 (queries.get_overdue_tasks now tasks uid)
  ∧ StronglySorted (fun a b : Z * Task => due_date a.2 <= due_date b.2)
                   (queries.get_tasks_due_today now tasks uid)
  ∧ StronglySorted (fun a b : Z * Task => due_date a.2 <= due_date b.2)
                   (queries.get_tasks_due_this_week now tasks uid)
  ∧ StronglySorted (fun a b : Z * Task => due_date a.2 <= due_date b.2)
                   (queries.get_all_upcoming_tasks now tasks uid limit)
  ∧ Z.of_nat (length (queries.get_all_upcoming_tasks now tasks uid limit)) <= Z.max 0 limit
  ∧ (∀ tid t tid' t',
       (tid, t) ∈ queries.get_all_upcoming_tasks now tasks uid limit →
       tasks !! tid' = Some t' → user_id t' = uid → is_deleted t' = false →
       is_completed t' = false → now <= due_date t' →
       (tid', t') ∉ queries.get_all_upcoming_tasks now tasks uid limit →
       due_date t <= due_date t')
  ∧ (Z.of_nat (size tasks) <= limit →
     ∀ tid t, (tid, t) ∈ queries.get_all_upcoming_tasks now tasks uid limit
              ↔ tasks !! tid = Some t ∧ user_id t = uid ∧ is_deleted t = false
                ∧ is_completed t = false ∧ now <= due_date t).
Proof.
  split_and!.
  - apply by_due_date_desc_sorted.
  - apply by_due_date_sorted.
  - apply by_due_date_sorted.
  - unfold queries.get_all_upcoming_tasks. destruct (limit <? 0); [constructor|].
    apply StronglySorted_take, by_due_date_sorted.
  - unfold queries.get_all_upcoming_tasks. destruct (Z.ltb_spec limit 0); simpl; [lia|].
    rewrite length_take. lia.
  - intros tid t tid' t' Hin Ht' Hu Hd Hc Hdue Hout.
    unfold queries.get_all_upcoming_tasks in *.
    destruct (limit <? 0); [by apply elem_of_nil in Hin|].
    set (l := queries.order_by _ _) in *.
    assert ((tid', t') ∈ l) as Hl.
    { apply elem_of_order_by, open_tasks_spec. by rewrite Z.leb_le. }
    rewrite <- (take_drop (Z.to_nat limit) l) in Hl.
    apply elem_of_app in Hl as [Hl|Hl]; [done|].
    pose proof (by_due_date_sorted
                  (queries.open_tasks tasks uid (fun t => now <=? due_date t))) as Hs.
    fold l in Hs. rewrite <- (take_drop (Z.to_nat limit) l) in Hs.
    apply (StronglySorted_app_elems _ _ _ _ _ Hs Hin Hl).
  - intros Hsize tid t. unfold queries.get_all_upcoming_tasks.
    destruct (Z.ltb_spec limit 0); [lia|].
    rewrite take_ge.
    + rewrite elem_of_order_by, open_tasks_spec, Z.leb_le. naive_solver.
    + rewrite length_order_by. unfold queries.open_tasks.
      pose proof (List.filter_length_le
                    (fun row : Z * Task =>
                       (user_id row.2 =? uid) && negb (is_deleted row.2)
                       && negb (is_completed row.2) && (now <=? due_date row.2))
                    (map_to_list tasks)) as Hle.
      rewrite length_map_to_list in Hle. simpl in *. lia.
Qed.

(** A store of three tasks and a limit of three. *)
Lemma menu_queries_order_witness :
  let tasks : gmap Z Task :=
    {[ 1 := examples.homework 1 (days 3); 2 := examples.homework 1 (days 1);
       3 := examples.homework 1 (days 2) ]} in
  (2, examples.homework 1 (days 1)) ∈ queries.get_all_upcoming_tasks 0 tasks 1 3.
Proof.
  intros tasks.
  apply (proj2 (proj2 (proj2 (proj2 (proj2 (proj2 (menu_queries_order 0 tasks 1 3))))))).
  - vm_compute. discriminate.
  - split_and!; by vm_compute.
Defined.

(** Soft-deleting a stored task answers true, sets its deleted flag and
    changes nothing else, neither in that task nor in any other; the same
    holds for completing a task and its completed flag. Afterwards the
    task is in none of the menu queries and under no reminder type of the
    candidate query, whatever the time and the user asked for. An id that
    is not stored gets the answer false and leaves the store as it was. *)
Theorem soft_delete_and_complete_hide_task (cast_timestamp : string -> option datetime)
    (tasks : gmap Z Task) (tid : Z) (t : Task) :
  tasks !! tid = Some t →
  queries.soft_delete_task cast_timestamp tasks tid = (<[tid := set_is_deleted true t]> tasks, true)
  ∧ queries.mark_task_completed cast_timestamp tasks tid
    = (<[tid := set_is_completed true t]> tasks, true)
  ∧ (∀ tasks', tasks' = (queries.soft_delete_task cast_timestamp tasks tid).1
               ∨ tasks' = (queries.mark_task_completed cast_timestamp tasks tid).1 →
       (∀ k, k ≠ tid → tasks' !! k = tasks !! k)
       ∧ ∀ now uid limit users ty t',
           (tid, t') ∉ queries.get_tasks_due_today now tasks' uid
           ∧ (tid, t') ∉ queries.get_tasks_due_this_week now tasks' uid
           ∧ (tid, t') ∉ queries.get_overdue_tasks now tasks' uid
           ∧ (tid, t') ∉ queries.get_all_upcoming_tasks now tasks' uid limit
           ∧ (tid, t') ∉ queries.results_get ty
                            (queries.get_tasks_needing_reminders now tasks' users))
  ∧ (∀ missing, tasks !! missing = None →
       queries.soft_delete_task cast_timestamp tasks missing = (tasks, false)
       ∧ queries.mark_task_completed cast_timestamp tasks missing = (tasks, false)).
Proof.
  intros Ht.
  assert (queries.soft_delete_task cast_timestamp tasks tid
          = (<[tid := set_is_deleted true t]> tasks, true)) as Hdel.
  { by apply update_flag_lookup. }
  assert (queries.mark_task_completed cast_timestamp tasks tid
          = (<[tid := set_is_completed true t]> tasks, true)) as Hdone.
  { by apply update_flag_lookup. }
  split_and!; [done|done| |].
  - intros tasks' Hcase.
    assert (∃ t1, tasks' = <[tid := t1]> tasks
                  ∧ (is_deleted t1 = true ∨ is_completed t1 = true)) as (t1 & -> & Hflag).
    { destruct Hcase as [->| ->]; [rewrite Hdel|rewrite Hdone]; eexists; split; try done;
        destruct t; simpl; auto. }
    split; [intros k Hk; by rewrite lookup_insert_ne|].
    intros now uid limit users ty t'.
    assert (∀ cond, (tid, t') ∉ queries.open_tasks (<[tid := t1]> tasks) uid cond) as Hopen.
    { intros cond (Hl & _ & Hd & Hc & _)%open_tasks_spec.
      rewrite lookup_insert_eq in Hl. injection Hl as <-.
      destruct Hflag; congruence. }
    split_and!.
    + unfold queries.get_tasks_due_today. rewrite elem_of_order_by. apply Hopen.
    + unfold queries.get_tasks_due_this_week. rewrite elem_of_order_by. apply Hopen.
    + unfold queries.get_overdue_tasks. rewrite elem_of_order_by. apply Hopen.
    + unfold queries.get_all_upcoming_tasks. destruct (limit <? 0); [by intros ?%elem_of_nil|].
      intros Hin. eapply elem_of_subseteq in Hin; [|apply sublist_subseteq, sublist_take].
      by apply elem_of_order_by, Hopen in Hin.
    + intros (Hl & Hd & Hc)%reminder_candidate_open.
      rewrite lookup_insert_eq in Hl. injection Hl as <-. destruct Hflag; congruence.
  - intros missing Hm.
    unfold queries.soft_delete_task, queries.mark_task_completed, queries.update_task.
    by rewrite Hm.
Qed.

(** A task due tomorrow, soft-deleted. *)
Lemma soft_delete_and_complete_hide_task_witness :
  let t := examples.homework 1 (days 1) in
  queries.soft_delete_task (fun _ => None) {[ 7 := t ]} 7
  = (<[7 := set_is_deleted true t]> {[ 7 := t ]}, true).
Proof.
  intros t.
  assert (({[ 7 := t ]} : gmap Z Task) !! 7 = Some t) as Ht by reflexivity.
  exact (proj1 (soft_delete_and_complete_hide_task (fun _ => None) {[ 7 := t ]} 7 t Ht)).
Defined.

(** * Further properties of the jobs, the models and the gateway *)

(** ** The bands of the candidate query *)

(** The bands of the candidate query overlap for one pair of reminder
    types only. A task that the query lists under two different types at
    the same instant is listed under [2_hours] and [1_hour], and it is
    due between one hour and ninety minutes from then; under every other
    pair of types no task is listed twice. *)
Theorem reminder_types_overlap (now : datetime) (tasks : gmap Z Task) (users : gmap Z User)
    (tid : Z) (t t' : Task) (ty ty' : string) (band band' : Z * timedelta) :
  (ty, band) ∈ query_bands → (ty', band') ∈ query_bands → ty ≠ ty' →
  (tid, t) ∈ queries.results_get ty (queries.get_tasks_needing_reminders now tasks users) →
  (tid, t') ∈ queries.results_get ty' (queries.get_tasks_needing_reminders now tasks users) →
  t' = t
  ∧ (ty = "2_hours" ∧ ty' = "1_hour" ∨ ty = "1_hour" ∧ ty' = "2_hours")
  ∧ now + hours 1 <= due_date t <= now + minutes 90.
Proof.
  destruct band as [off hw], band' as [off' hw']. intros Hb Hb' Hne Hin Hin'.
  apply (get_tasks_needing_reminders_spec _ _ _ _ _ _ _ _ Hb) in Hin
    as (Ht & u & _ & _ & _ & Hdue & _).
  apply (get_tasks_needing_reminders_spec _ _ _ _ _ _ _ _ Hb') in Hin'
    as (Ht' & u' & _ & _ & _ & Hdue' & _).
  assert (t' = t) as -> by congruence. split; [done|].
  unfold query_bands in Hb, Hb'.
  repeat (apply elem_of_cons in Hb as [[= -> -> ->]|Hb]);
    try (by apply elem_of_nil in Hb);
    repeat (apply elem_of_cons in Hb' as [[= -> -> ->]|Hb']);
    try (by apply elem_of_nil in Hb'); try done;
    unfold hours, minutes, seconds in *; try lia.
  all: split; [auto|lia].
Qed.

(** A premium task due in 75 minutes. *)
Lemma reminder_types_overlap_witness :
  let now := examples.now_12_05 in
  let t := examples.homework 2 (now + minutes 75) in
  let tasks : gmap Z Task := {[ 7 := t ]} in
  let users : gmap Z User := {[ 2 := examples.premium_user (now + days 30) ]} in
  now + hours 1 <= due_date t <= now + minutes 90.
Proof.
  intros now t tasks users.
  refine (proj2 (proj2 (reminder_types_overlap now tasks users 7 t t "2_hours" "1_hour"
                          (2, hours 1) (1, minutes 30) _ _ _ _ _))).
  - unfold query_bands. set_solver.
  - unfold query_bands. set_solver.
  - done.
  - vm_compute. set_solver.
  - vm_compute. set_solver.
Defined.

Section marking.

(** The keys of [reminder_mapping]. *)
Lemma mapping_get_cases (ty col : string) :
  mapping_get ty reminder_mapping = Some col →
  (ty, col) ∈ reminder_mapping.
Proof.
  unfold reminder_mapping. simpl.
  repeat (destruct (String.eqb ty _) eqn:Heq;
          [apply String.eqb_eq in Heq as ->; intros [= <-]; set_solver|clear Heq]).
  done.
Qed.

Lemma mapping_get_band (ty col : string) :
  mapping_get ty reminder_mapping = Some col → ∃ band, (ty, band) ∈ query_bands.
Proof.
  intros Hin%mapping_get_cases. unfold reminder_mapping, query_bands in *.
  repeat (apply elem_of_cons in Hin as [[= -> ->]|Hin]; [eexists; repeat constructor|]).
  by apply elem_of_nil in Hin.
Qed.

Lemma band_mapping_get (ty : string) (band : Z * timedelta) :
  (ty, band) ∈ query_bands → ∃ col, (ty, col) ∈ reminder_mapping.
Proof.
  intros Hin. unfold reminder_mapping, query_bands in *.
  repeat (apply elem_of_cons in Hin as [[= -> ->]|Hin]; [eexists; repeat constructor|]).
  by apply elem_of_nil in Hin.
Qed.

Lemma mark_reminder_sent_fields (t : Task) (ty : string) :
  user_id (mark_reminder_sent t ty) = user_id t
  ∧ due_date (mark_reminder_sent t ty) = due_date t
  ∧ is_deleted (mark_reminder_sent t ty) = is_deleted t
  ∧ is_completed (mark_reminder_sent t ty) = is_completed t.
Proof.
  unfold mark_reminder_sent. destruct (mapping_get ty reminder_mapping) as [col|] eqn:Hc; [|done].
  apply mapping_get_cases in Hc. unfold reminder_mapping in Hc. destruct t.
  repeat (apply elem_of_cons in Hc as [[= -> ->]|Hc]; [done|]).
  by apply elem_of_nil in Hc.
Qed.

Lemma mark_reminder_sent_marker (t : Task) (ty col : string) :
  (ty, col) ∈ reminder_mapping →
  marker_of ty (mark_reminder_sent t ty) = Some (PyBool true).
Proof.
  intros Hc. unfold reminder_mapping in Hc. destruct t.
  repeat (apply elem_of_cons in Hc as [[= -> ->]|Hc]; [done|]).
  by apply elem_of_nil in Hc.
Qed.

Lemma mark_reminder_sent_other_marker (t : Task) (ty ty' col col' : string) :
  (ty, col) ∈ reminder_mapping → (ty', col') ∈ reminder_mapping → ty' ≠ ty →
  marker_of ty' (mark_reminder_sent t ty) = marker_of ty' t.
Proof.
  intros Hc Hc' Hne. unfold reminder_mapping in Hc, Hc'. destruct t.
  repeat (apply elem_of_cons in Hc as [[= -> ->]|Hc]);
    try (by apply elem_of_nil in Hc);
    repeat (apply elem_of_cons in Hc' as [[= -> ->]|Hc']);
    try (by apply elem_of_nil in Hc'); done.
Qed.

Lemma mark_reminder_sent_unknown (t : Task) (ty : string) :
  mapping_get ty reminder_mapping = None → mark_reminder_sent t ty = t.
Proof. unfold mark_reminder_sent. by intros ->. Qed.

End marking.

(** Marking a reminder type of [reminder_mapping] as sent for a stored
    task answers true and touches no other row. From then on the
    candidate query never lists the task under that type, whatever the
    time and the users, and it lists the same task ids as before under
    every other type. *)
Theorem marked_reminder_leaves_candidates (tasks : gmap Z Task) (tid : Z) (t : Task)
    (ty col : string) :
  tasks !! tid = Some t →
  mapping_get ty reminder_mapping = Some col →
  let tasks' := (queries.mark_reminder_sent tasks tid ty).1 in
  (queries.mark_reminder_sent tasks tid ty).2 = true
  ∧ (∀ k, k ≠ tid → tasks' !! k = tasks !! k)
  ∧ (∀ now users t',
       (tid, t') ∉ queries.results_get ty (queries.get_tasks_needing_reminders now tasks' users))
  ∧ (∀ ty' band now users k, (ty', band) ∈ query_bands → ty' ≠ ty →
       (∃ t', (k, t') ∈ queries.results_get ty'
                          (queries.get_tasks_needing_reminders now tasks' users))
       ↔ (∃ t', (k, t') ∈ queries.results_get ty'
                            (queries.get_tasks_needing_reminders now tasks users))).
Proof.
  intros Ht Hcol tasks'. subst tasks'. unfold queries.mark_reminder_sent.
  rewrite Ht. simpl.
  pose proof (mapping_get_cases _ _ Hcol) as Hmap.
  destruct (mapping_get_band _ _ Hcol) as [[off hw] Hband].
  destruct (mark_reminder_sent_fields t ty) as (Hu & Hd & Hdel & Hdone).
  split_and!; [done| | |].
  - intros k Hk. by rewrite lookup_insert_ne.
  - intros now users t' Hin.
    apply (get_tasks_needing_reminders_spec _ _ _ _ _ _ _ _ Hband) in Hin
      as (Hl & u & _ & _ & _ & _ & _ & _ & Hm & _).
    rewrite lookup_insert_eq in Hl. injection Hl as <-.
    by rewrite (mark_reminder_sent_marker _ _ _ Hmap) in Hm.
  - intros ty' [off' hw'] now users k Hband' Hne.
    destruct (band_mapping_get _ _ Hband') as [col' Hmap'].
    pose proof (mark_reminder_sent_other_marker t ty ty' col col' Hmap Hmap' Hne) as Hm.
    split; intros [t' Hin];
      apply (get_tasks_needing_reminders_spec _ _ _ _ _ _ _ _ Hband') in Hin
        as (Hl & u & Hin).
    + destruct (decide (k = tid)) as [->|Hk].
      * rewrite lookup_insert_eq in Hl. injection Hl as <-.
        exists t. apply (get_tasks_needing_reminders_spec _ _ _ _ _ _ _ _ Hband').
        split; [done|]. exists u. by rewrite Hu, Hd, Hdel, Hdone, Hm in Hin.
      * rewrite lookup_insert_ne in Hl by done.
        exists t'. apply (get_tasks_needing_reminders_spec _ _ _ _ _ _ _ _ Hband').
        split; [done|]. by exists u.
    + destruct (decide (k = tid)) as [->|Hk].
      * assert (t' = t) as -> by congruence.
        exists (mark_reminder_sent t ty).
        apply (get_tasks_needing_reminders_spec _ _ _ _ _ _ _ _ Hband').
        split; [by rewrite lookup_insert_eq|]. exists u. by rewrite Hu, Hd, Hdel, Hdone, Hm.
      * exists t'. apply (get_tasks_needing_reminders_spec _ _ _ _ _ _ _ _ Hband').
        split; [by rewrite lookup_insert_ne|]. by exists u.
Qed.

(** A task due in a day, marked for the one-day reminder. *)
Lemma marked_reminder_leaves_candidates_witness :
  let t := examples.homework 1 (days 1) in
  (queries.mark_reminder_sent {[ 7 := t ]} 7 "1_day").2 = true.
Proof.
  intros t.
  assert (({[ 7 := t ]} : gmap Z Task) !! 7 = Some t) as Ht by reflexivity.
  assert (mapping_get "1_day" reminder_mapping = Some "reminder_1_day_sent") as Hc
    by reflexivity.
  exact (proj1 (marked_reminder_leaves_candidates {[ 7 := t ]} 7 t "1_day" _ Ht Hc)).
Defined.

(** A reminder type that is no key of [reminder_mapping] is accepted all
    the same: the answer is true and the store is as before. The windows
    of the reminder job are named by the keys of the mapping except the
    two 24-hour windows, named [24_hour] and [24_hours] where the mapping
    has [1_day]: with the name of such a window nothing is stored. *)
Theorem unknown_reminder_type_is_accepted (tasks : gmap Z Task) (tid : Z) (t : Task) :
  tasks !! tid = Some t →
  (∀ ty, mapping_get ty reminder_mapping = None →
         queries.mark_reminder_sent tasks tid ty = (tasks, true))
  ∧ (∀ w, w ∈ send_reminders.FREE_TIER_WINDOWS ++ send_reminders.PREMIUM_TIER_WINDOWS →
          mapping_get (send_reminders.name w) reminder_mapping = None
          ↔ send_reminders.hours_before w = 24)
  ∧ (∀ w, w ∈ send_reminders.FREE_TIER_WINDOWS ++ send_reminders.PREMIUM_TIER_WINDOWS →
          send_reminders.hours_before w = 24 →
          queries.mark_reminder_sent tasks tid (send_reminders.name w) = (tasks, true)).
Proof.
  intros Ht.
  assert (∀ ty, mapping_get ty reminder_mapping = None →
                queries.mark_reminder_sent tasks tid ty = (tasks, true)) as Hunknown.
  { intros ty Hty. unfold queries.mark_reminder_sent. rewrite Ht.
    by rewrite mark_reminder_sent_unknown, insert_id. }
  assert (∀ w, w ∈ send_reminders.FREE_TIER_WINDOWS ++ send_reminders.PREMIUM_TIER_WINDOWS →
               mapping_get (send_reminders.name w) reminder_mapping = None
               ↔ send_reminders.hours_before w = 24) as Hnames.
  { intros w Hw. unfold send_reminders.FREE_TIER_WINDOWS, send_reminders.PREMIUM_TIER_WINDOWS in Hw.
    simpl in Hw.
    repeat (apply elem_of_cons in Hw as [->|Hw]; [by vm_compute|]).
    by apply elem_of_nil in Hw. }
  split_and!; [done|done|].
  intros w Hw H24. apply Hunknown. by apply Hnames.
Qed.

(** The name of the free-tier window. *)
Lemma unknown_reminder_type_is_accepted_witness :
  let t := examples.homework 1 (days 1) in
  queries.mark_reminder_sent {[ 7 := t ]} 7 "24_hour" = ({[ 7 := t ]}, true).
Proof.
  intros t.
  assert (({[ 7 := t ]} : gmap Z Task) !! 7 = Some t) as Ht by reflexivity.
  apply (proj1 (unknown_reminder_type_is_accepted {[ 7 := t ]} 7 t Ht)).
  reflexivity.
Defined.

(** [get_reminder_status] and [mark_reminder_sent] of the model agree on
    the six reminder types: marking a type of the mapping makes its
    status true and leaves the status of every other key as it was;
    marking is idempotent; a type outside the mapping changes nothing;
    and no marking ever changes a column other than the six markers. *)
Theorem reminder_status_after_marking (t : Task) (ty : string) :
  (is_Some (mapping_get ty reminder_mapping) →
   status_get ty (get_reminder_status (mark_reminder_sent t ty)) = Some true)
  ∧ (mapping_get ty reminder_mapping = None →
     status_get ty (get_reminder_status t) = None ∧ mark_reminder_sent t ty = t)
  ∧ (∀ ty', ty' ≠ ty →
       status_get ty' (get_reminder_status (mark_reminder_sent t ty))
       = status_get ty' (get_reminder_status t))
  ∧ mark_reminder_sent (mark_reminder_sent t ty) ty = mark_reminder_sent t ty
  ∧ (∀ col, col ∉ marker_columns →
       task_getattr col (mark_reminder_sent t ty) = task_getattr col t)
  ∧ (∀ ty', status_get ty' (get_reminder_status t) = marker_of ty' t ≫= as_bool).
Proof.
  split_and!.
  - intros [col Hc]. apply mapping_get_cases in Hc. unfold reminder_mapping in Hc. destruct t.
    repeat (apply elem_of_cons in Hc as [[= -> ->]|Hc]; [done|]).
    by apply elem_of_nil in Hc.
  - intros Hc. split; [|by apply mark_reminder_sent_unknown].
    unfold reminder_mapping in Hc. simpl in *.
    repeat (destruct (String.eqb ty _); [done|]). done.
  - intros ty' Hne.
    destruct (mapping_get ty reminder_mapping) as [col|] eqn:Hc;
      [|by rewrite mark_reminder_sent_unknown].
    apply mapping_get_cases in Hc. unfold reminder_mapping in Hc. destruct t.
    repeat (apply elem_of_cons in Hc as [[= -> ->]|Hc];
            [simpl;
             repeat (match goal with
                     | |- context [String.eqb ty' ?k] =>
                         destruct (String.eqb ty' k) eqn:Heq;
                         [apply String.eqb_eq in Heq; try done|clear Heq]
                     end); done|]).
    by apply elem_of_nil in Hc.
  - destruct (mapping_get ty reminder_mapping) as [col|] eqn:Hc;
      [|by rewrite !mark_reminder_sent_unknown].
    apply mapping_get_cases in Hc. unfold reminder_mapping in Hc. destruct t.
    repeat (apply elem_of_cons in Hc as [[= -> ->]|Hc]; [done|]).
    by apply elem_of_nil in Hc.
  - intros col Hcol.
    destruct (mapping_get ty reminder_mapping) as [c|] eqn:Hc;
      [|by rewrite mark_reminder_sent_unknown].
    apply mapping_get_cases in Hc. unfold reminder_mapping in Hc. unfold marker_columns in Hcol.
    destruct t.
    repeat (apply elem_of_cons in Hc as [[= -> ->]|Hc];
            [unfold task_getattr; simpl;
             repeat (match goal with
                     | |- context [String.eqb col ?k] =>
                         destruct (String.eqb col k) eqn:Heq;
                         [apply String.eqb_eq in Heq; try done; set_solver|clear Heq]
                     end); done|]).
    by apply elem_of_nil in Hc.
  - intros ty'. unfold marker_of, reminder_mapping, get_reminder_status. simpl.
    repeat (destruct (String.eqb ty' _); [done|]). done.
Qed.

(** ** The due check under an hourly schedule *)

(** The job runs once an hour. Whatever the instant [t0] of one run, the
    due check of a window passes for a task at some run of the series
    [t0 + k] hours; it passes at no more than two runs, which are then
    consecutive, and at two only when the earlier one falls exactly 30
    minutes before the target time of the window. Two different premium
    windows pass the check at the same instant only if they are the
    2-hour and the 1-hour window and the task is due in exactly 90
    minutes. *)
Theorem hourly_runs_meet_every_window (task : Task) (w : send_reminders.ReminderWindow)
    (t0 : datetime) :
  (∃ k, send_reminders.should_send_reminder task w (t0 + hours k) = true)
  ∧ (∀ k k', send_reminders.should_send_reminder task w (t0 + hours k) = true →
             send_reminders.should_send_reminder task w (t0 + hours k') = true →
             k - 1 <= k' <= k + 1)
  ∧ (∀ k, send_reminders.should_send_reminder task w (t0 + hours k) = true →
          send_reminders.should_send_reminder task w (t0 + hours (k + 1)) = true →
          t0 + hours k = due_date task - hours (send_reminders.hours_before w) - minutes 30)
  ∧ (∀ w1 w2, w1 ∈ send_reminders.PREMIUM_TIER_WINDOWS →
              w2 ∈ send_reminders.PREMIUM_TIER_WINDOWS →
              send_reminders.hours_before w2 < send_reminders.hours_before w1 →
              send_reminders.should_send_reminder task w1 t0 = true →
              send_reminders.should_send_reminder task w2 t0 = true →
              send_reminders.name w1 = "2_hours" ∧ send_reminders.name w2 = "1_hour"
              ∧ due_date task = t0 + minutes 90).
Proof.
  split_and!.
  - exists ((due_date task - hours (send_reminders.hours_before w) - t0 + minutes 30) / hours 1).
    rewrite should_send_reminder_band. apply Z.leb_le.
    unfold hours, minutes, seconds. Z.div_mod_to_equations. lia.
  - intros k k'. rewrite !should_send_reminder_band, !Z.leb_le.
    unfold hours, minutes, seconds. lia.
  - intros k. rewrite !should_send_reminder_band, !Z.leb_le.
    unfold hours, minutes, seconds. lia.
  - intros w1 w2 Hw1 Hw2. unfold send_reminders.PREMIUM_TIER_WINDOWS in Hw1, Hw2.
    rewrite !should_send_reminder_band, !Z.leb_le.
    repeat (apply elem_of_cons in Hw1 as [->|Hw1]);
      try (by apply elem_of_nil in Hw1);
      repeat (apply elem_of_cons in Hw2 as [->|Hw2]);
      try (by apply elem_of_nil in Hw2);
      simpl; unfold hours, minutes, seconds; intros; (split_and?; [done..|lia]) || lia.
Qed.

(** ** The counters of one run of the reminder job *)


Section run_counters.
Import send_reminders.
Variable send : Z -> ReminderWindow -> bool.
Variable users : gmap Z User.
Variable now : datetime.

Lemma first_due_window_free (task : Task) (w : ReminderWindow) :
  first_due_window task now FREE_TIER_WINDOWS = Some w → w = mkWindow "24_hour" 24.
Proof.
  unfold FREE_TIER_WINDOWS. simpl. destruct (should_send_reminder _ _ _); [|done].
  by intros [= <-].
Qed.

Lemma tier_is_premium_string_false (u : User) : tier_is_premium_string u = false.
Proof. unfold tier_is_premium_string. by destruct (subscription_tier u). Qed.

Lemma process_task_counters (r : Run) (tid : Z) (turns : Z) :
  counters_agree r turns → counters_agree (process_task send users now r tid) (turns + 1).
Proof.
  unfold counters_agree. cbv zeta.
  intros (Hsent & Hfail & Hturn & Hfree & Hprem & Hsize & Hnone & Hbreak & Hwin).
  unfold process_task.
  destruct (db_tasks r !! tid) as [task|]; [|split_and!; try done; lia].
  destruct (users !! user_id task) as [user|].
  2:{ destruct r as [d [] n o]. simpl in *. split_and!; try done; lia. }
  rewrite available_windows_always_free, tier_is_premium_string_false.
  destruct (first_due_window task now FREE_TIER_WINDOWS) as [w|] eqn:Hw;
    [|split_and!; try done; lia].
  apply first_due_window_free in Hw as ->.
  destruct (send tid _); destruct r as [d [] n o]; simpl in *.
  - split_and!; try lia; try done.
    + pose proof (size_union_alt (C:=gset Z) {[user_id task]} n) as Hs.
      rewrite size_singleton in Hs.
      assert (size (n ∖ {[user_id task]}) ≤ size n)%nat
        by (apply subseteq_size; set_solver).
      lia.
    + split; [lia|set_solver].
    + rewrite Hbreak.
      destruct (_ =? 0) eqn:Hz.
      * apply Z.eqb_eq in Hz. rewrite lookup_empty. simpl. rewrite insert_empty.
        f_equal. lia.
      * rewrite lookup_singleton_eq, insert_singleton_eq. simpl. f_equal. lia.
    + by constructor.
  - split_and!; try lia; try done. by constructor.
Qed.

Lemma counters_loop (l : list Z) (r : Run) (turns : Z) :
  counters_agree r turns →
  counters_agree (foldl (process_task send users now) r l) (turns + Z.of_nat (length l)).
Proof.
  revert r turns. induction l as [|tid l IH]; intros r turns Hr.
  - simpl. by rewrite Z.add_0_r.
  - change (foldl ?f r (tid :: l)) with (foldl f (f r tid) l).
    replace (turns + Z.of_nat (length (tid :: l))) with (turns + 1 + Z.of_nat (length l))
      by (simpl; lia).
    by apply IH, process_task_counters.
Qed.

Lemma total_loop (l : list Z) (r : Run) :
  total_tasks_checked (stats (foldl (process_task send users now) r l))
  = total_tasks_checked (stats r).
Proof.
  revert r. induction l as [|tid l IH]; intros r; [done|].
  change (foldl ?f r (tid :: l)) with (foldl f (f r tid) l). rewrite IH.
  unfold process_task.
  repeat case_match; destruct r as [d [] n o]; simpl in *; done.
Qed.

End run_counters.

(** After a run of the reminder job over any candidate list, the
    counters agree with what was sent: [reminders_sent] is the number of
    sends that were answered with success, [reminders_failed] covers at
    least the sends answered with failure, and both together do not
    exceed [total_tasks_checked], the length of the candidate list.
    [users_notified] is the number of distinct users notified, at most
    [reminders_sent] and zero only with it. Every send is for the
    free-tier window: [premium_tier_reminders] stays 0 whatever the tiers
    of the users, [free_tier_reminders] equals [reminders_sent], and the
    breakdown has no key other than [24_hour]. *)
Theorem reminder_run_counters (send : Z -> send_reminders.ReminderWindow -> bool)
    (users : gmap Z User) (now : datetime) (tasks : gmap Z Task) (candidates : list Z) :
  let r := send_reminders.process_reminders send users now tasks candidates in
  let s := send_reminders.stats r in
  let delivered :=
    Z.of_nat (length (List.filter (fun e : Z * send_reminders.ReminderWindow * bool => e.2)
                                  (send_reminders.outbox r))) in
  send_reminders.total_tasks_checked s = Z.of_nat (length candidates)
  ∧ send_reminders.reminders_sent s = delivered
  ∧ Z.of_nat (length (List.filter (fun e : Z * send_reminders.ReminderWindow * bool => negb e.2)
                                  (send_reminders.outbox r)))
    <= send_reminders.reminders_failed s
  ∧ send_reminders.reminders_sent s + send_reminders.reminders_failed s
    <= send_reminders.total_tasks_checked s
  ∧ send_reminders.users_notified s = Z.of_nat (size (send_reminders.notified_users r))
  ∧ send_reminders.users_notified s <= send_reminders.reminders_sent s
  ∧ (send_reminders.users_notified s = 0 ↔ send_reminders.reminders_sent s = 0)
  ∧ send_reminders.free_tier_reminders s = send_reminders.reminders_sent s
  ∧ send_reminders.premium_tier_reminders s = 0
  ∧ (∀ key n, send_reminders.reminder_breakdown s !! key = Some n →
              key = "24_hour" ∧ n = send_reminders.reminders_sent s ∧ 0 < n)
  ∧ (∀ tid w ok, (tid, w, ok) ∈ send_reminders.outbox r →
                 w = send_reminders.mkWindow "24_hour" 24).
Proof.
  intros r s delivered. subst s delivered r. unfold send_reminders.process_reminders.
  destruct candidates as [|tid l].
  { simpl. split_and!; try done; try lia. intros ??? []%elem_of_nil. }
  set (r0 := send_reminders.mkRun tasks _ ∅ []).
  assert (counters_agree r0 0) as H0.
  { unfold counters_agree. simpl. split_and!; done. }
  apply (counters_loop send users now (tid :: l)) in H0.
  assert (send_reminders.total_tasks_checked
            (send_reminders.stats (foldl (send_reminders.process_task send users now) r0 (tid :: l)))
          = Z.of_nat (length (tid :: l))) as Htotal.
  { by rewrite total_loop. }
  revert H0 Htotal.
  generalize (foldl (send_reminders.process_task send users now) r0 (tid :: l)).
  intros [d [] n o]. unfold counters_agree. simpl.
  intros (Hsent & Hfail & Hturn & Hfree & Hprem & Hsize & Hnone & Hbreak & Hwin) Htotal.
  split_and!; try done; try lia.
  - rewrite Hsent, Hnone. split; [|intros ->; by rewrite size_empty].
    intros Hz. apply leibniz_equiv, size_empty_inv. lia.
  - intros key m. rewrite Hbreak, Hsent.
    destruct (_ =? 0) eqn:Hz.
    + by rewrite lookup_empty.
    + apply Z.eqb_neq in Hz. intros [-> <-]%lookup_singleton_Some.
      split_and!; [done|done|lia].
  - intros k w ok Hin. by eapply Forall_forall in Hwin; [|done].
Qed.

(** ** Properties of a task *)

(** A task counts as a Canvas task exactly when its source is not the
    manual entry, and only a Canvas task has a Canvas id, whatever the
    two id columns hold. A task is overdue from the first instant after
    its due date on and at every later instant, unless it is completed;
    the soft-delete flag plays no part in it. The list of overdue tasks
    of a user holds exactly the stored tasks of that user that are
    overdue and not soft-deleted. *)
Theorem task_properties (t : Task) (now : datetime) :
  (is_canvas_task t = false ↔ source t = MANUAL_ENTRY)
  ∧ (is_Some (canvas_id t) → is_canvas_task t = true)
  ∧ (canvas_id t = match source t with
                   | CANVAS_ASSIGNMENT => canvas_assignment_id t
                   | CANVAS_EVENT => canvas_event_id t
                   | MANUAL_ENTRY => None
                   end)
  ∧ (is_overdue t now = true ↔ due_date t < now ∧ is_completed t = false)
  ∧ (is_overdue t now = true → ∀ later, now <= later → is_overdue t later = true)
  ∧ is_overdue (set_is_completed true t) now = false
  ∧ (∀ b, is_overdue (set_is_deleted b t) now = is_overdue t now)
  ∧ (∀ tasks tid, (tid, t) ∈ queries.get_overdue_tasks now tasks (user_id t)
                  ↔ tasks !! tid = Some t ∧ is_deleted t = false ∧ is_overdue t now = true).
Proof.
  assert (is_overdue t now = true ↔ due_date t < now ∧ is_completed t = false) as Hov.
  { unfold is_overdue. by rewrite andb_true_iff, negb_true_iff, Z.ltb_lt. }
  split_and!.
  - unfold is_canvas_task. by destruct (source t).
  - unfold canvas_id, is_canvas_task. destruct (source t); try done; by intros [? ?].
  - done.
  - done.
  - intros [Hdue Hc]%Hov later Hle. unfold is_overdue. rewrite Hc, andb_true_r.
    apply Z.ltb_lt. lia.
  - destruct t. unfold is_overdue. simpl. apply andb_false_r.
  - intros b. by destruct t.
  - intros tasks tid. unfold queries.get_overdue_tasks.
    rewrite elem_of_order_by, open_tasks_spec, Hov, Z.ltb_lt. naive_solver.
Qed.

(** ** Writes to a task *)

Section column_writes.
Import queries.
Variable cast_timestamp : string -> option datetime.

Lemma task_hasattr_columns (key : string) (t : Task) :
  is_Some (task_getattr key t) → key ∈ (task_columns t).*1.
Proof.
  unfold task_getattr, task_columns. simpl.
  repeat (destruct (String.eqb key _) eqn:Heq;
          [apply String.eqb_eq in Heq as ->; intros _; set_solver|clear Heq]).
  by intros [? ?].
Qed.


Lemma task_setattr_is_column (key : string) (v : PyVal) (t : Task) :
  is_Some (task_getattr key t) ↔ is_Some (task_setattr cast_timestamp key v t).
Proof.
  unfold task_getattr, task_columns, task_setattr. simpl.
  repeat (destruct (String.eqb key _) eqn:Heq;
          [apply String.eqb_eq in Heq as ->; split; intros _; by eexists|clear Heq]).
  split; by intros [? ?].
Qed.





End column_writes.



Section user_queries.
Import queries.

Lemma elem_of_filter_map_to_list {A} (p : Z * A -> bool) (m : gmap Z A) (k : Z) (a : A) :
  (k, a) ∈ List.filter p (map_to_list m) ↔ m !! k = Some a ∧ p (k, a) = true.
Proof. by rewrite list_elem_of_In, filter_In, <- list_elem_of_In, elem_of_map_to_list. Qed.

Lemma downgrade_lookup (users : gmap Z User) (user_ids : list Z) (uid : Z) :
  (downgrade_expired_users users user_ids).1 !! uid
  = (fun u => if bool_decide (uid ∈ user_ids) then set_subscription FREE None u else u)
      <$> users !! uid.
Proof.
  unfold downgrade_expired_users. simpl. rewrite map_lookup_imap.
  by destruct (users !! uid).
Qed.

Lemma set_subscription_fields (tier : SubscriptionTier) (e : option datetime) (u : User) :
  subscription_tier (set_subscription tier e u) = tier
  ∧ subscription_expiry_date (set_subscription tier e u) = e
  ∧ is_active (set_subscription tier e u) = is_active u
  ∧ weekly_digest_enabled (set_subscription tier e u) = weekly_digest_enabled u
  ∧ token_invalid (set_subscription tier e u) = token_invalid u
  ∧ manual_tasks_this_month (set_subscription tier e u) = manual_tasks_this_month u.
Proof. by destruct u. Qed.

Lemma is_premium_spec (u : User) (now : datetime) :
  is_premium u now = true ↔ active_premium u now.
Proof.
  unfold is_premium, active_premium.
  destruct (subscription_tier u); simpl; [naive_solver|].
  destruct (subscription_expiry_date u) as [e|]; [|naive_solver].
  rewrite Z.ltb_lt. naive_solver.
Qed.

Lemma get_users_for_weekly_digest_spec (now : datetime) (users : gmap Z User) (uid : Z) (u : User) :
  (uid, u) ∈ get_users_for_weekly_digest now users
  ↔ users !! uid = Some u ∧ is_premium u now = true ∧ weekly_digest_enabled u = true
    ∧ is_active u = true ∧ token_invalid u = false.
Proof.
  unfold get_users_for_weekly_digest. cbv zeta.
  rewrite list_elem_of_In, filter_In, <- list_elem_of_In, elem_of_filter_map_to_list. simpl.
  rewrite !andb_true_iff, negb_true_iff, tier_eqb_PREMIUM.
  split; [naive_solver|]. intros (? & Hp & ? & ? & ?). split_and!; try done.
  apply is_premium_spec in Hp. by destruct Hp.
Qed.

Lemma List_filter_sublist {A} (p : A -> bool) (l : list A) : List.filter p l `sublist_of` l.
Proof. induction l as [|x l IH]; simpl; [done|]. destruct (p x); by constructor. Qed.

End user_queries.

(** The bulk downgrade sets the tier of every stored user whose id is in
    the list to free and clears the expiry date, leaves every other user
    and every other column as stored, and answers with the number of
    stored users it matched. Applied to the users the expiry selection
    returns, it matches all of them; afterwards the selection is empty at
    that and every earlier instant, at a later instant it holds exactly
    the users it would have held without the downgrade and that were not
    downgraded, and no downgraded user is premium or a recipient of the
    weekly digest at any time. *)
Theorem downgrade_clears_expiry_selection (now : datetime) (users : gmap Z User) :
  let selected := queries.get_expired_premium_users now users in
  let after := queries.downgrade_expired_users users selected.*1 in
  after.2 = Z.of_nat (length selected)
  ∧ (∀ uid, after.1 !! uid
            = if bool_decide (uid ∈ selected.*1)
              then queries.set_subscription FREE None <$> users !! uid
              else users !! uid)
  ∧ (∀ now', now' <= now → queries.get_expired_premium_users now' after.1 = [])
  ∧ (∀ now' uid u, (uid, u) ∈ queries.get_expired_premium_users now' after.1
                   ↔ (uid, u) ∈ queries.get_expired_premium_users now' users
                     ∧ uid ∉ selected.*1)
  ∧ (∀ now' uid u, uid ∈ selected.*1 → after.1 !! uid = Some u →
                   is_premium u now' = false
                   ∧ (uid, u) ∉ queries.get_users_for_weekly_digest now' after.1).
Proof.
  intros selected after.
  assert (∀ uid, after.1 !! uid
                 = if bool_decide (uid ∈ selected.*1)
                   then queries.set_subscription FREE None <$> users !! uid
                   else users !! uid) as Hlookup.
  { intros uid. subst after. rewrite downgrade_lookup.
    destruct (bool_decide _); [done|]. by destruct (users !! uid). }
  assert (∀ now' uid u, (uid, u) ∈ queries.get_expired_premium_users now' after.1
                        ↔ (uid, u) ∈ queries.get_expired_premium_users now' users
                          ∧ uid ∉ selected.*1) as Hsel.
  { intros now' uid u. rewrite !get_expired_premium_users_spec, Hlookup.
    case_bool_decide as Hin.
    - split; [|naive_solver]. intros (Hu & _ & Htier & _).
      destruct (users !! uid) as [u0|]; simplify_eq/=.
      by destruct u0.
    - naive_solver. }
  split_and!; [|done| |done|].
  - subst after. unfold queries.downgrade_expired_users. simpl. f_equal.
    subst selected. unfold queries.get_expired_premium_users at 2. f_equal.
    apply List.filter_ext_in. intros [uid u] Hin%list_elem_of_In%elem_of_map_to_list. simpl.
    destruct (queries.expired_premium now u) eqn:Hp.
    + apply bool_decide_eq_true, list_elem_of_fmap. exists (uid, u). split; [done|].
      by apply elem_of_filter_map_to_list.
    + apply bool_decide_eq_false. intros ([uid' u'] & -> & Hsel')%list_elem_of_fmap. simpl in *.
      apply elem_of_filter_map_to_list in Hsel' as [Hu' Hp']. simpl in Hp'.
      assert (u' = u) as -> by congruence. congruence.
  - intros now' Hle. apply elem_of_nil_inv. intros [uid u] [Hin Hout]%Hsel.
    apply Hout. apply list_elem_of_fmap. exists (uid, u). split; [done|].
    apply get_expired_premium_users_spec in Hin as (? & ? & ? & e & ? & ?).
    apply get_expired_premium_users_spec. split_and!; try done. exists e. split; [done|lia].
  - intros now' uid u Hin Hu. rewrite Hlookup, bool_decide_true in Hu by done.
    destruct (users !! uid) as [u0|]; simplify_eq/=.
    split; [by destruct u0|].
    rewrite get_users_for_weekly_digest_spec. intros (_ & Hp & _). by destruct u0.
Qed.

(** A stored user whose subscription is set to premium with an expiry
    date is premium exactly before that date, and is selected by the
    expiry sweep exactly after it, provided the account is active: at the
    instant of the expiry itself the user is neither. Set to premium
    without an expiry date, which the function accepts, the user is never
    premium and never selected by the sweep, while the stored tier, the
    one the candidate query reads, stays premium. An unknown user id is
    answered with false and nothing is stored. *)
Theorem subscription_lifecycle (users : gmap Z User) (uid : Z) (u : User) (expiry : datetime) :
  users !! uid = Some u →
  let dated := queries.update_user_subscription users uid PREMIUM (Some expiry) in
  let undated := queries.update_user_subscription users uid PREMIUM None in
  dated.2 = true ∧ undated.2 = true
  ∧ (∀ k, k ≠ uid → dated.1 !! k = users !! k ∧ undated.1 !! k = users !! k)
  ∧ (∃ u', dated.1 !! uid = Some u'
           ∧ ∀ now, (is_premium u' now = true ↔ now < expiry)
                    ∧ ((uid, u') ∈ queries.get_expired_premium_users now dated.1
                       ↔ is_active u = true ∧ expiry < now)
                    ∧ (now = expiry →
                       is_premium u' now = false
                       ∧ (uid, u') ∉ queries.get_expired_premium_users now dated.1))
  ∧ (∃ u', undated.1 !! uid = Some u'
           ∧ subscription_tier u' = PREMIUM
           ∧ ∀ now, is_premium u' now = false
                    ∧ can_add_manual_task u' now = (manual_tasks_this_month u <? 5)
                    ∧ (uid, u') ∉ queries.get_expired_premium_users now undated.1
                    ∧ ∀ t ty, queries.reminder_filter ty t u' = queries.reminder_filter ty t
                                (queries.set_subscription PREMIUM (Some (now + 1)) u))
  ∧ (∀ missing tier e, users !! missing = None →
       queries.update_user_subscription users missing tier e = (users, false)).
Proof.
  intros Hu dated undated. subst dated undated. unfold queries.update_user_subscription.
  rewrite Hu. simpl. split_and!; [done|done| | | |].
  - intros k Hk. by rewrite !lookup_insert_ne.
  - eexists. split; [by rewrite lookup_insert_eq|]. intros now.
    assert (is_premium (queries.set_subscription PREMIUM (Some expiry) u) now = true
            ↔ now < expiry) as Hprem.
    { destruct u. unfold is_premium. simpl. apply Z.ltb_lt. }
    assert ((uid, queries.set_subscription PREMIUM (Some expiry) u)
              ∈ queries.get_expired_premium_users now
                  (<[uid:=queries.set_subscription PREMIUM (Some expiry) u]> users)
            ↔ is_active u = true ∧ expiry < now) as Hsel.
    { rewrite get_expired_premium_users_spec, lookup_insert_eq. destruct u. simpl.
      naive_solver. }
    split_and!; [done|done|]. intros ->. split.
    + apply not_true_is_false. rewrite Hprem. lia.
    + rewrite Hsel. lia.
  - eexists. split; [by rewrite lookup_insert_eq|]. split; [by destruct u|]. intros now.
    split_and!.
    + by destruct u.
    + by destruct u.
    + rewrite get_expired_premium_users_spec. destruct u. simpl. naive_solver.
    + intros t ty. by destruct u.
  - intros missing tier e Hm. by rewrite Hm.
Qed.

(** A free user upgraded for thirty days. *)
Lemma subscription_lifecycle_witness :
  (queries.update_user_subscription {[ 1 := examples.free_user ]} 1 PREMIUM (Some (days 30))).2
  = true.
Proof.
  assert (({[ 1 := examples.free_user ]} : gmap Z User) !! 1 = Some examples.free_user) as Hu
    by reflexivity.
  exact (proj1 (subscription_lifecycle {[ 1 := examples.free_user ]} 1 examples.free_user
                  (days 30) Hu)).
Defined.

(** The weekly digest goes to exactly the stored users that are premium
    at that instant (tier premium and expiry date in the future), have
    the digest switched on, are active and have no invalid token. No
    user is listed twice, and none of them is in the expiry selection of
    the same instant. *)
Theorem weekly_digest_recipients (now : datetime) (users : gmap Z User) :
  (∀ uid u, (uid, u) ∈ queries.get_users_for_weekly_digest now users
            ↔ users !! uid = Some u ∧ active_premium u now
              ∧ weekly_digest_enabled u = true ∧ is_active u = true
              ∧ token_invalid u = false)
  ∧ NoDup (queries.get_users_for_weekly_digest now users).*1
  ∧ (∀ row, row ∈ queries.get_users_for_weekly_digest now users →
            row ∉ queries.get_expired_premium_users now users).
Proof.
  split_and!.
  - intros uid u. by rewrite get_users_for_weekly_digest_spec, is_premium_spec.
  - unfold queries.get_users_for_weekly_digest. cbv zeta.
    eapply sublist_NoDup; [apply (NoDup_fst_map_to_list users)|].
    apply fmap_sublist. etrans; apply List_filter_sublist.
  - intros [uid u] (Hu & Hp & _)%get_users_for_weekly_digest_spec.
    apply is_premium_spec in Hp as (_ & e & He & Hlt).
    rewrite get_expired_premium_users_spec. intros (_ & _ & _ & e' & He' & Hlt').
    simplify_eq. lia.
Qed.

Section refresh_batch.
Import queries.

Lemma by_last_sync_sorted (l : list (Z * User)) :
  StronglySorted (fun a b => by_last_sync a b = true) (order_by by_last_sync l).
Proof.
  apply order_by_sorted.
  - intros a b. unfold by_last_sync.
    destruct (last_sync_at a.2), (last_sync_at b.2); try done.
    rewrite Z.leb_gt, Z.leb_le. lia.
  - intros a b c. unfold by_last_sync.
    destruct (last_sync_at a.2), (last_sync_at b.2), (last_sync_at c.2); try done.
    rewrite !Z.leb_le. lia.
Qed.

Lemma needs_refresh_spec (now : datetime) (u : User) :
  needs_refresh now u = true
  ↔ is_active u = true ∧ canvas_token u ≠ None
    ∧ (token_invalid u = false ∨ last_sync_at u = None
       ∨ ∃ t, last_sync_at u = Some t ∧ t < now - hours 6).
Proof.
  unfold needs_refresh. cbv zeta.
  rewrite !andb_true_iff, !orb_true_iff, !bool_decide_eq_true, negb_true_iff.
  destruct (last_sync_at u) as [t|]; [rewrite Z.ltb_lt|]; naive_solver.
Qed.

Lemma refresh_candidates_spec (now : datetime) (users : gmap Z User) (uid : Z) (u : User) :
  (uid, u) ∈ order_by by_last_sync
               (List.filter (fun row : Z * User => needs_refresh now row.2) (map_to_list users))
  ↔ users !! uid = Some u ∧ needs_refresh now u = true.
Proof. by rewrite elem_of_order_by, elem_of_filter_map_to_list. Qed.

Lemma refresh_batch_elem (now : datetime) (users : gmap Z User) (batch_size : Z)
    (uid : Z) (u : User) :
  (uid, u) ∈ get_users_for_canvas_refresh now users batch_size →
  users !! uid = Some u ∧ needs_refresh now u = true.
Proof.
  unfold get_users_for_canvas_refresh. destruct (batch_size <? 0); [by intros ?%elem_of_nil|].
  intros Hin. eapply elem_of_subseteq in Hin; [|apply sublist_subseteq, sublist_take].
  by apply refresh_candidates_spec in Hin.
Qed.

Lemma refresh_batch_full (now : datetime) (users : gmap Z User) (batch_size : Z)
    (uid : Z) (u : User) :
  Z.of_nat (size users) <= batch_size →
  users !! uid = Some u → needs_refresh now u = true →
  (uid, u) ∈ get_users_for_canvas_refresh now users batch_size.
Proof.
  intros Hsize Hu Hn. unfold get_users_for_canvas_refresh.
  destruct (Z.ltb_spec batch_size 0); [lia|]. rewrite take_ge.
  - by apply refresh_candidates_spec.
  - rewrite length_order_by.
    pose proof (List.filter_length_le (fun row : Z * User => needs_refresh now row.2)
                                      (map_to_list users)) as Hle.
    rewrite length_map_to_list in Hle. lia.
Qed.

End refresh_batch.

(** The batch of users for the Canvas refresh has at most [batch_size]
    users, none of them twice, never-synced users first and the others
    by ascending time of their last sync. Every user of the batch is
    active and has a token, and either the token is not flagged invalid,
    or the user was never synced, or the last sync is more than six
    hours old: a user with a valid token qualifies however recent the
    last sync. The batch takes the users that come first in that order:
    a qualifying user that is left out does not come before any user of
    the batch. When the batch size is not below the number of stored
    users, every qualifying user is in the batch. *)
Theorem canvas_refresh_batch (now : datetime) (users : gmap Z User) (batch_size : Z) :
  let batch := queries.get_users_for_canvas_refresh now users batch_size in
  Z.of_nat (length batch) <= Z.max 0 batch_size
  ∧ NoDup batch.*1
  ∧ StronglySorted (fun a b => queries.by_last_sync a b = true) batch
  ∧ (∀ uid u, (uid, u) ∈ batch →
       users !! uid = Some u ∧ is_active u = true ∧ canvas_token u ≠ None
       ∧ (token_invalid u = false ∨ last_sync_at u = None
          ∨ ∃ t, last_sync_at u = Some t ∧ t < now - hours 6))
  ∧ (∀ row uid' u', row ∈ batch →
       users !! uid' = Some u' → queries.needs_refresh now u' = true → (uid', u') ∉ batch →
       queries.by_last_sync row (uid', u') = true)
  ∧ (Z.of_nat (size users) <= batch_size →
     ∀ uid u, users !! uid = Some u → is_active u = true → canvas_token u ≠ None →
              token_invalid u = false ∨ last_sync_at u = None
              ∨ (∃ t, last_sync_at u = Some t ∧ t < now - hours 6) →
              (uid, u) ∈ batch).
Proof.
  intros batch. subst batch. unfold queries.get_users_for_canvas_refresh.
  set (l := queries.order_by _ _).
  assert (NoDup l.*1) as Hnd.
  { subst l. rewrite order_by_perm.
    eapply sublist_NoDup; [apply (NoDup_fst_map_to_list users)|].
    apply fmap_sublist, List_filter_sublist. }
  destruct (Z.ltb_spec batch_size 0) as [Hneg|Hpos].
  { split_and!; [simpl; lia|constructor|constructor|by intros ?? ?%elem_of_nil
                |by intros ??? ?%elem_of_nil|lia]. }
  split_and!.
  - rewrite length_take. lia.
  - eapply sublist_NoDup; [exact Hnd|]. apply fmap_sublist, sublist_take.
  - apply StronglySorted_take, by_last_sync_sorted.
  - intros uid u Hin. eapply elem_of_subseteq in Hin; [|apply sublist_subseteq, sublist_take].
    apply refresh_candidates_spec in Hin as [Hu Hn]. by apply needs_refresh_spec in Hn.
  - intros row uid' u' Hin Hu' Hn' Hout.
    assert ((uid', u') ∈ l) as Hl by (by apply refresh_candidates_spec).
    rewrite <- (take_drop (Z.to_nat batch_size) l) in Hl.
    apply elem_of_app in Hl as [Hl|Hl]; [done|].
    pose proof (by_last_sync_sorted
                  (List.filter (fun row : Z * User => queries.needs_refresh now row.2)
                               (map_to_list users))) as Hs.
    fold l in Hs. rewrite <- (take_drop (Z.to_nat batch_size) l) in Hs.
    apply (StronglySorted_app_elems _ _ _ _ _ Hs Hin Hl).
  - intros Hsize uid u Hu Ha Ht Hcase.
    pose proof (refresh_batch_full now users batch_size uid u Hsize Hu) as Hfull.
    unfold queries.get_users_for_canvas_refresh in Hfull.
    rewrite (proj2 (Z.ltb_ge batch_size 0)) in Hfull by lia.
    apply Hfull. by apply needs_refresh_spec.
Qed.

(** A store of two users, one never synced. *)
Lemma canvas_refresh_batch_witness :
  let users : gmap Z User :=
    {[ 1 := examples.free_user; 2 := examples.premium_user (days 30) ]} in
  (1, examples.free_user) ∈ queries.get_users_for_canvas_refresh (days 1) users 10.
Proof.
  intros users.
  apply (proj2 (proj2 (proj2 (proj2 (proj2 (canvas_refresh_batch (days 1) users 10)))))).
  - vm_compute. discriminate.
  - reflexivity.
  - reflexivity.
  - discriminate.
  - by left.
Defined.

(** What the outcome of a sync does to the next batches. After a
    successful sync of a stored, active user with a token, the time of
    the last sync is the time of the call and the token is not flagged;
    the user qualifies for the refresh batch again at once and at every
    later instant, the six-hour interval notwithstanding. After a failed
    sync the stored user is as [mark_user_token_invalid] leaves it: the
    token is flagged and the time of the last sync is kept, and the user
    is in a batch only if never synced or last synced more than six hours
    before. *)
Theorem sync_outcome_and_next_batch (now : datetime) (users : gmap Z User) (uid : Z) (u : User) :
  users !! uid = Some u → is_active u = true → canvas_token u ≠ None →
  let synced := queries.update_user_last_sync now users uid true in
  let failed := queries.update_user_last_sync now users uid false in
  synced.2 = true
  ∧ failed = queries.mark_user_token_invalid users uid
  ∧ (∀ k, k ≠ uid → synced.1 !! k = users !! k ∧ failed.1 !! k = users !! k)
  ∧ (∃ u', synced.1 !! uid = Some u'
           ∧ last_sync_at u' = Some now ∧ token_invalid u' = false
           ∧ ∀ now' batch_size, Z.of_nat (size users) <= batch_size →
               (uid, u') ∈ queries.get_users_for_canvas_refresh now' synced.1 batch_size)
  ∧ (∃ u', failed.1 !! uid = Some u'
           ∧ last_sync_at u' = last_sync_at u ∧ token_invalid u' = true
           ∧ ∀ now' batch_size,
               (uid, u') ∈ queries.get_users_for_canvas_refresh now' failed.1 batch_size →
               last_sync_at u = None ∨ ∃ t, last_sync_at u = Some t ∧ t < now' - hours 6).
Proof.
  intros Hu Hact Htok synced failed. subst synced failed.
  unfold queries.update_user_last_sync, queries.mark_user_token_invalid. rewrite Hu. simpl.
  split_and!; [done|done| | |].
  - intros k Hk. by rewrite !lookup_insert_ne.
  - eexists. split; [by rewrite lookup_insert_eq|].
    split; [by destruct u|]. split; [by destruct u|].
    intros now' batch_size Hsize.
    apply refresh_batch_full.
    + by rewrite map_size_insert_Some.
    + by rewrite lookup_insert_eq.
    + apply needs_refresh_spec. destruct u; simpl in *. auto.
  - eexists. split; [by rewrite lookup_insert_eq|].
    split; [by destruct u|]. split; [by destruct u|].
    intros now' batch_size Hin.
    apply refresh_batch_elem in Hin as [_ (_ & _ & Hcase)%needs_refresh_spec].
    destruct u; simpl in *. naive_solver.
Qed.

(** A user with a token, synced at the end of the first day. *)
Lemma sync_outcome_and_next_batch_witness :
  (queries.update_user_last_sync (days 1) {[ 1 := examples.free_user ]} 1 true).2 = true.
Proof.
  assert (({[ 1 := examples.free_user ]} : gmap Z User) !! 1 = Some examples.free_user) as Hu
    by reflexivity.
  assert (is_active examples.free_user = true) as Ha by reflexivity.
  assert (canvas_token examples.free_user ≠ None) as Ht by discriminate.
  exact (proj1 (sync_outcome_and_next_batch (days 1) {[ 1 := examples.free_user ]} 1
                  examples.free_user Hu Ha Ht)).
Defined.

Section batch.
Import canvas_api.
Context {A : Type}.

Lemma total_sleep_app (l1 l2 : list Event) :
  total_sleep (l1 ++ l2) = total_sleep l1 + total_sleep l2.
Proof. induction l1 as [|[] l1 IH]; simpl; lia. Qed.

Lemma calls_of_app (i : nat) (l1 l2 : list Event) :
  calls_of i (l1 ++ l2) = (calls_of i l1 + calls_of i l2)%nat.
Proof. unfold calls_of. by rewrite List.filter_app, length_app. Qed.

Lemma batch_step_events (i : nat) (f : nat -> Reply A) :
  total_sleep (batch_step i f).2 = (if rate_limited f then 5000 else 0)
  ∧ ∀ k, calls_of k (batch_step i f).2
         = if bool_decide (i = k) then (if rate_limited f then 2%nat else 1%nat) else 0%nat.
Proof.
  unfold batch_step, rate_limited.
  destruct (f 0%nat) as [a|[]]; simpl; try destruct (f 1%nat); simpl;
    (split; [done|]); intros k; unfold calls_of; simpl; by case_bool_decide.
Qed.

Lemma batch_loop_spec (len i : nat) (l : list (nat -> Reply A)) (delay : Z) :
  (i + length l = len)%nat →
  length (batch_loop len i l delay).1 = length l
  ∧ (∀ j f, l !! j = Some f →
            (batch_loop len i l delay).1 !! j = Some (batch_step (i + j) f).1
            ∧ calls_of (i + j) (batch_loop len i l delay).2
              = if rate_limited f then 2%nat else 1%nat)
  ∧ (∀ k, (k < i ∨ len ≤ k)%nat → calls_of k (batch_loop len i l delay).2 = 0%nat)
  ∧ total_sleep (batch_loop len i l delay).2
    = 5000 * Z.of_nat (length (List.filter rate_limited l))
      + delay * Z.max 0 (Z.of_nat (length l) - 1).
Proof.
  revert i. induction l as [|f l IH]; intros i Hlen.
  { simpl. split_and!; try done. lia. }
  simpl. destruct (batch_step i f) as [result events] eqn:Hstep.
  destruct (batch_loop len (S i) l delay) as [results later] eqn:Hloop.
  destruct (IH (S i)) as (Hl & Hres & Hout & Hsleep); [simpl in Hlen; lia|].
  rewrite Hloop in Hl, Hres, Hout, Hsleep. simpl in *.
  destruct (batch_step_events i f) as [Hs Hc]. rewrite Hstep in Hs, Hc. simpl in Hs, Hc.
  assert (∀ k, calls_of k (if Z.of_nat i <? Z.of_nat len - 1 then [Slept delay] else []) = 0%nat)
    as Hpause by (intros k; by destruct (_ <? _)).
  split_and!.
  - by rewrite Hl.
  - intros [|j] g Hg; simpl in Hg.
    + injection Hg as ->. rewrite Nat.add_0_r, Hstep. simpl. split; [done|].
      rewrite !calls_of_app, Hc, Hpause, bool_decide_true, Hout by (done || lia). lia.
    + destruct (Hres j g Hg) as [Hr Hcalls].
      replace (i + S j)%nat with (S (i + j))%nat by lia. split; [done|].
      rewrite !calls_of_app, Hc, Hpause, bool_decide_false, Hcalls by lia. lia.
  - intros k Hk. rewrite !calls_of_app, Hc, Hpause, bool_decide_false, Hout by lia. lia.
  - rewrite !total_sleep_app, Hs, Hsleep.
    assert (Z.max 0 (Z.of_nat (S (length l)) - 1) = Z.of_nat (length l)) as -> by lia.
    destruct (Z.ltb_spec (Z.of_nat i) (Z.of_nat len - 1)); simpl total_sleep.
    + assert (Z.max 0 (Z.of_nat (length l) - 1) = Z.of_nat (length l) - 1) as -> by lia.
      destruct (rate_limited f); simpl length; lia.
    + assert (length l = 0%nat) as -> by lia. destruct (rate_limited f); simpl length; lia.
Qed.

End batch.

(** The rate-limit helper answers with one result per request, in the
    order of the requests. A request whose first call returns gives that
    value; one whose first call raises a rate-limit error is called a
    second time, after a pause of five seconds, and gives the value of
    the second call if that returns; in every other case the result is
    [None]. No request is called more than twice and none that is not a
    rate-limited one more than once. The time slept is five seconds for
    every rate-limited request and [delay] between two consecutive
    requests, none after the last. *)
Theorem batch_request_accounting {A} (requests_list : list (nat -> canvas_api.Reply A))
    (delay : Z) :
  let results := (canvas_api.batch_request_with_rate_limit requests_list delay).1 in
  let events := (canvas_api.batch_request_with_rate_limit requests_list delay).2 in
  length results = length requests_list
  ∧ (∀ i f, requests_list !! i = Some f →
       (∀ a, results !! i = Some (Some a)
             ↔ f 0%nat = canvas_api.Returned a
               ∨ (f 0%nat = canvas_api.Raised canvas_api.RateLimitError
                  ∧ f 1%nat = canvas_api.Returned a))
       ∧ calls_of i events = if rate_limited f then 2%nat else 1%nat)
  ∧ (∀ i, (length requests_list ≤ i)%nat → calls_of i events = 0%nat)
  ∧ total_sleep events
    = 5000 * Z.of_nat (length (List.filter rate_limited requests_list))
      + delay * Z.max 0 (Z.of_nat (length requests_list) - 1).
Proof.
  intros results events. subst results events. unfold canvas_api.batch_request_with_rate_limit.
  destruct (batch_loop_spec (length requests_list) 0 requests_list delay eq_refl)
    as (Hlen & Hres & Hout & Hsleep).
  split_and!; [done| |by auto|done].
  intros i f Hf. destruct (Hres i f Hf) as [Hr Hc]. simpl in Hr, Hc. split; [|done].
  intros a. rewrite Hr. unfold canvas_api.batch_step.
  destruct (f 0%nat) as [a0|[]]; try destruct (f 1%nat) as [a1|e1]; simpl; naive_solver.
Qed.

Section reconciler_run.
Import canvas_api refresh_data.
Variable isoformat datetime_str : datetime -> string.
Variable db : DbCall -> bool.

Lemma assignment_dict_loop (l : list dict) (acc : option (gmap string dict)) :
  foldl (fun acc assignment =>
           m ← acc;
           i ← assignment !! "id";
           Some (<[py_str datetime_str i := assignment]> m)) acc l = None
  ↔ acc = None ∨ ∃ a, a ∈ l ∧ a !! "id" = None.
Proof.
  revert acc. induction l as [|a l IH]; intros acc; simpl.
  - split; [auto|]. intros [?|(a & []%elem_of_nil & _)]. done.
  - rewrite IH. split.
    + intros [Hnone|(b & Hb & Hid)].
      * destruct acc as [m|]; simpl in Hnone; [|by left].
        destruct (a !! "id") eqn:Ha; simpl in Hnone; [done|].
        right. exists a. split; [left|done].
      * right. exists b. split; [by right|done].
    + intros [->|(b & [->|Hb]%elem_of_cons & Hid)].
      * by left.
      * left. rewrite Hid. by destruct acc.
      * right. by exists b.
Qed.

Lemma assignment_dict_None (canvas_assignments : list dict) :
  assignment_dict datetime_str canvas_assignments = None
  ↔ ∃ a, a ∈ canvas_assignments ∧ a !! "id" = None.
Proof. unfold assignment_dict. rewrite assignment_dict_loop. naive_solver. Qed.

Lemma count_ok_bounds (calls : list DbCall) : 0 <= count_ok db calls <= Z.of_nat (length calls).
Proof.
  unfold count_ok. pose proof (List.filter_length_le db calls). lia.
Qed.

Lemma count_ok_app (l1 l2 : list DbCall) : count_ok db (l1 ++ l2) = count_ok db l1 + count_ok db l2.
Proof. unfold count_ok. rewrite List.filter_app, length_app. lia. Qed.

Lemma sync_user_assignments_counts (uid : Z) (existing_tasks : list (Z * Task))
    (canvas_assignments : list dict) (calls : list DbCall) (added updated deleted : Z) :
  sync_user_assignments isoformat datetime_str db uid existing_tasks canvas_assignments
  = Some (calls, (added, updated, deleted)) →
  0 <= added ∧ 0 <= updated ∧ 0 <= deleted
  ∧ added + updated + deleted = count_ok db calls.
Proof.
  unfold sync_user_assignments.
  destruct (assignment_dict datetime_str canvas_assignments) as [d|]; simpl; [|done].
  intros [= <- <- <- <-]. rewrite !count_ok_app.
  split_and!; try apply count_ok_bounds. lia.
Qed.

Lemma find_existing_Some (existing_tasks : list (Z * Task)) (i : string) (row : Z * Task) :
  find_existing existing_tasks i = Some row →
  row ∈ existing_tasks ∧ canvas_assignment_id row.2 = Some i.
Proof.
  unfold find_existing. intros [Hin Heq]%find_some. split; [by apply list_elem_of_In|].
  destruct (canvas_assignment_id row.2) as [s|]; simpl in Heq; [|done].
  by apply String.eqb_eq in Heq as ->.
Qed.

Lemma assignment_dict_loop_Some (l : list dict) (m0 d : gmap string dict) :
  foldl (fun acc assignment =>
           m ← acc;
           i ← assignment !! "id";
           Some (<[py_str datetime_str i := assignment]> m)) (Some m0) l = Some d →
  ∀ i, i ∈ dom d ↔ i ∈ dom m0 ∨ ∃ a v, a ∈ l ∧ a !! "id" = Some v ∧ py_str datetime_str v = i.
Proof.
  revert m0. induction l as [|a l IH]; intros m0; simpl.
  - intros [= <-] i. split; [auto|]. intros [?|(a & v & []%elem_of_nil & _)]. done.
  - destruct (a !! "id") as [v|] eqn:Ha; simpl.
    + intros Hd i. rewrite (IH _ Hd), dom_insert, elem_of_union, elem_of_singleton. split.
      * intros [[->|?]|(b & w & ? & ? & ?)]; [right|by left|right].
        -- exists a, v. split; [left|done].
        -- exists b, w. split; [by right|done].
      * intros [?|(b & w & [->|?]%elem_of_cons & Hb & <-)]; [by left; right| |].
        -- left. left. congruence.
        -- right. by exists b, w.
    + intros Hd. exfalso.
      assert (foldl (fun acc assignment =>
                m ← acc;
                i ← assignment !! "id";
                Some (<[py_str datetime_str i := assignment]> m)) None l = None) as Hnone
        by (apply assignment_dict_loop; by left).
      congruence.
Qed.

Lemma assignment_dict_dom (canvas_assignments : list dict) (d : gmap string dict) :
  assignment_dict datetime_str canvas_assignments = Some d →
  ∀ i, i ∈ dom d
       ↔ ∃ a v, a ∈ canvas_assignments ∧ a !! "id" = Some v ∧ py_str datetime_str v = i.
Proof.
  intros Hd i. rewrite (assignment_dict_loop_Some _ _ _ Hd), dom_empty. set_solver.
Qed.

Lemma sync_user_assignments_kinds (uid : Z) (existing_tasks : list (Z * Task))
    (canvas_assignments : list dict) (calls : list DbCall) (counts : Z * Z * Z) (c : DbCall) :
  sync_user_assignments isoformat datetime_str db uid existing_tasks canvas_assignments
  = Some (calls, counts) →
  c ∈ calls →
  match c with
  | create_task _ | update_task _ _ | delete_task _ => True
  | _ => False
  end.
Proof.
  unfold sync_user_assignments.
  destruct (assignment_dict datetime_str canvas_assignments) as [d|]; simpl; [|done].
  intros [= <- _]. rewrite !elem_of_app. intros [Hc|[Hc|Hc]].
  - by apply list_elem_of_fmap in Hc as (? & -> & _).
  - apply list_elem_of_omap in Hc as (i & _ & Hc).
    destruct (d !! i) as [a|]; simpl in Hc; [|done].
    destruct (find_existing existing_tasks i) as [row|]; simpl in Hc; [|done].
    unfold update_call in Hc. destruct (due_date_changed _ _ _); by simplify_eq.
  - apply list_elem_of_omap in Hc as (row & _ & Hc).
    destruct (canvas_assignment_id row.2); [|done]. case_bool_decide; by simplify_eq.
Qed.

End reconciler_run.

(** One run of [sync_user_assignments]. It raises exactly when an entry
    of the snapshot has no ['id']; no call into the query layer has been
    made by then. Otherwise its calls are [create_task], [update_task]
    and [delete_task] only; there is one [create_task] for every id of
    the snapshot that is not mirrored and none for a mirrored id, no two
    for the same id; a [delete_task] is for a mirrored task whose id is
    not in the snapshot. The three counts are not negative and add up to
    the number of calls that were answered with success. When the
    mirrored rows have pairwise distinct keys, no task is both updated
    and deleted. *)
Theorem reconciler_calls (isoformat datetime_str : datetime -> string)
    (db : refresh_data.DbCall -> bool) (uid : Z) (existing_tasks : list (Z * Task))
    (canvas_assignments : list refresh_data.dict) :
  NoDup existing_tasks.*1 →
  let run := refresh_data.sync_user_assignments isoformat datetime_str db uid
               existing_tasks canvas_assignments in
  (run = None ↔ ∃ a, a ∈ canvas_assignments ∧ a !! "id" = None)
  ∧ ∀ calls added updated deleted, run = Some (calls, (added, updated, deleted)) →
      (∀ c, c ∈ calls → match c with
                        | refresh_data.create_task _ | refresh_data.update_task _ _
                        | refresh_data.delete_task _ => True
                        | _ => False
                        end)
      ∧ (∀ data, refresh_data.create_task data ∈ calls →
           ∃ i, assoc "canvas_assignment_id" data = Some (PyStr i)
                ∧ i ∉ refresh_data.existing_ids existing_tasks
                ∧ ∃ a v, a ∈ canvas_assignments ∧ a !! "id" = Some v
                         ∧ refresh_data.py_str datetime_str v = i)
      ∧ (∀ a v, a ∈ canvas_assignments → a !! "id" = Some v →
           refresh_data.py_str datetime_str v ∉ refresh_data.existing_ids existing_tasks →
           ∃ data, refresh_data.create_task data ∈ calls
                   ∧ assoc "canvas_assignment_id" data
                     = Some (PyStr (refresh_data.py_str datetime_str v)))
      ∧ NoDup (omap (fun c => match c with
                              | refresh_data.create_task data =>
                                  assoc "canvas_assignment_id" data
                              | _ => None
                              end) calls)
      ∧ (∀ tid, refresh_data.delete_task tid ∈ calls →
           (∃ t s, (tid, t) ∈ existing_tasks ∧ canvas_assignment_id t = Some s
                   ∧ ∀ a v, a ∈ canvas_assignments → a !! "id" = Some v →
                            refresh_data.py_str datetime_str v ≠ s)
           ∧ ∀ data, refresh_data.update_task tid data ∉ calls)
      ∧ 0 <= added ∧ 0 <= updated ∧ 0 <= deleted
      ∧ added + updated + deleted = refresh_data.count_ok db calls.
Proof.
  intros Hnd run. subst run. split.
  { rewrite <- (assignment_dict_None datetime_str). unfold refresh_data.sync_user_assignments.
    destruct (refresh_data.assignment_dict datetime_str canvas_assignments); simpl;
      naive_solver. }
  intros calls added updated deleted Hrun.
  destruct (sync_user_assignments_calls _ _ _ _ _ _ _ _ Hrun)
    as (d & Hd & Hcreate & Hdelete & Hupdate).
  pose proof (sync_user_assignments_creates_once _ _ _ _ _ _ _ _ Hrun) as Honce.
  pose proof (sync_user_assignments_counts _ _ _ _ _ _ _ _ _ _ Hrun) as Hcounts.
  pose proof (assignment_dict_dom _ _ _ Hd) as Hdom.
  split_and!; try done; try apply Hcounts.
  - intros c Hc. by eapply sync_user_assignments_kinds.
  - intros data (i & a & Hi & Ha & ->)%Hcreate. exists i.
    apply elem_of_difference in Hi as [Hi Hni]. split_and!; [done|done|].
    by apply Hdom in Hi.
  - intros a v Ha Hv Hni.
    assert (refresh_data.py_str datetime_str v ∈ dom d) as Hin
      by (apply Hdom; by exists a, v).
    apply elem_of_dom in Hin as Hsome. destruct Hsome as [a' Ha'].
    exists (refresh_data.new_task_data uid (refresh_data.py_str datetime_str v) a').
    split; [|done]. apply Hcreate.
    exists (refresh_data.py_str datetime_str v), a'. split_and!; [set_solver|done|done].
  - intros tid (t & s & Hrow & Hs & Hin)%Hdelete.
    apply elem_of_difference in Hin as [_ Hnotin]. split.
    + exists t, s. split_and!; [done|done|]. intros a v Ha Hv Heq. apply Hnotin, Hdom.
      by exists a, v.
    + intros data (i & a & t' & Hi & Ha & Hfind & _)%Hupdate.
      apply find_existing_Some in Hfind as [Hrow' Hid']. simpl in Hid'.
      assert (t' = t) as ->.
      { pose proof (elem_of_list_to_map_1 (M:=gmap Z) _ _ _ Hnd Hrow') as H1.
        pose proof (elem_of_list_to_map_1 (M:=gmap Z) _ _ _ Hnd Hrow) as H2. congruence. }
      apply Hnotin. apply elem_of_intersection in Hi as [Hi _]. congruence.
Qed.

(** One mirrored assignment and an empty snapshot. *)
Lemma reconciler_calls_witness :
  refresh_data.sync_user_assignments (fun _ => "") (fun _ => "") (fun _ => true) 1
    [(10, examples.homework 1 (days 1))] [] = None
  ↔ ∃ a : refresh_data.dict, a ∈ [] ∧ a !! "id" = None.
Proof.
  assert (NoDup [(10, examples.homework 1 (days 1))].*1) as Hnd by (apply NoDup_singleton).
  exact (proj1 (reconciler_calls (fun _ => "") (fun _ => "") (fun _ => true) 1
                  [(10, examples.homework 1 (days 1))] [] Hnd)).
Defined.

Section course_sync.
Import canvas_api refresh_data.
Variable datetime_str : datetime -> string.
Variable db : DbCall -> bool.
Variable uid : Z.
Variable existing_courses : list (Z * Course).

(** The state of the loop of [sync_user_courses] after the entries
    [done] of the snapshot. *)
Lemma course_loop (canvas_courses : list dict) :
  ∃ walked,
    walked `prefix_of` canvas_courses
    ∧ Forall (fun c => is_Some (c !! "id")) walked
    ∧ (sync_user_courses datetime_str db uid existing_courses canvas_courses).1.1
      = omap (course_call datetime_str uid existing_courses) walked
    ∧ (sync_user_courses datetime_str db uid existing_courses canvas_courses).1.2.1
      = count_ok db (omap (course_call datetime_str uid existing_courses) walked)
    ∧ 0 <= (sync_user_courses datetime_str db uid existing_courses canvas_courses).1.2.2
      <= Z.of_nat (length walked)
    ∧ (if (sync_user_courses datetime_str db uid existing_courses canvas_courses).2
       then ∃ c rest, canvas_courses = walked ++ c :: rest ∧ c !! "id" = None
       else walked = canvas_courses).
Proof.
  unfold sync_user_courses.
  induction canvas_courses as [|course l IH] using rev_ind.
  { exists []. simpl. split_and!; try done. }
  rewrite foldl_app. simpl.
  destruct IH as (walked & Hpre & Hids & Hcalls & Hadded & Hupd & Hraised).
  destruct (foldl _ _ l) as [[calls [added updated]] raised]. simpl in *.
  destruct raised.
  { destruct Hraised as (c & rest & -> & Hc).
    exists walked. simpl. split_and!; try done; try lia.
    - rewrite <- app_assoc. by apply prefix_app_r.
    - exists c, (rest ++ [course]). by rewrite <- app_assoc. }
  subst walked. destruct (course !! "id") as [i|] eqn:Hi.
  2:{ exists l. simpl. split_and!; try done; try lia.
      - by apply prefix_app_r.
      - by exists course, []. }
  exists (l ++ [course]).
  assert (Forall (fun c : dict => is_Some (c !! "id")) (l ++ [course])) as Hall.
  { apply Forall_app. split; [done|]. by repeat constructor. }
  rewrite omap_app. simpl. unfold course_call at 2 4. rewrite Hi. simpl.
  case_bool_decide as Hin.
  - rewrite app_nil_r.
    destruct (List.find _ existing_courses) as [existing_course|].
    + destruct (py_ne _ _); simpl; split_and!; try done; rewrite ?length_app; simpl; lia.
    + simpl. split_and!; try done; rewrite ?length_app; simpl; lia.
  - simpl. subst calls added.
    split_and!; try done; rewrite ?length_app; simpl; try lia.
    unfold count_ok in *. rewrite List.filter_app, length_app. simpl.
    destruct (db _); simpl; lia.
Qed.

End course_sync.


(** The outcomes of [sync_single_user]. The assignments are fetched
    first and the courses only if that fetch returned. The run succeeds
    exactly when both fetches returned and no entry of either snapshot
    lacks its ['id']; it reports success exactly when it reports no
    error. Unless both fetches returned, no call into the query layer is
    made, except for flagging the token: [update_user_token_status] is
    called, for this user and with [False], exactly when a fetch raised
    [TokenInvalidError], and it is then the only call. A failed fetch
    leaves all five counts at zero. When the assignments were reconciled
    and the course snapshot then has an entry without ['id'], the calls
    for the assignments have been made and are counted although the run
    reports failure. *)
Theorem sync_single_user_outcomes (isoformat datetime_str : datetime -> string)
    (db : refresh_data.DbCall -> bool)
    (gateway : refresh_data.Request -> nat -> canvas_api.Reply (list (gmap string PyVal)))
    (tasks : gmap Z Task) (courses : gmap Z refresh_data.Course) (uid : Z) (user : User) :
  let assignments := refresh_data.get_assignments (canvas_token user) in
  let courses_request := refresh_data.get_courses (canvas_token user) in
  let run := refresh_data.sync_single_user isoformat datetime_str db gateway tasks courses
               uid user in
  let fetch_raised (e : canvas_api.Exn) :=
    gateway assignments 0%nat = canvas_api.Raised e
    ∨ ((∃ snapshot, gateway assignments 0%nat = canvas_api.Returned snapshot)
       ∧ gateway courses_request 0%nat = canvas_api.Raised e) in
  (refresh_data.success run.1 = true ↔ refresh_data.error run.1 = None)
  ∧ (refresh_data.success run.1 = true
     ↔ ∃ a c, gateway assignments 0%nat = canvas_api.Returned a
              ∧ gateway courses_request 0%nat = canvas_api.Returned c
              ∧ (∀ x, x ∈ a ++ c → is_Some (x !! "id")))
  ∧ (∃ rest, run.2 = refresh_data.Fetched assignments :: rest
             ∧ (refresh_data.Fetched courses_request ∈ rest
                ↔ ∃ a, gateway assignments 0%nat = canvas_api.Returned a)
             ∧ ∀ request, refresh_data.Fetched request ∈ rest → request = courses_request)
  ∧ (∀ u v, refresh_data.Db (refresh_data.update_user_token_status u v) ∈ run.2
            ↔ u = uid ∧ v = false ∧ fetch_raised canvas_api.TokenInvalidError)
  ∧ (∀ e, fetch_raised e →
       run.1 = refresh_data.failed
                 (match e with
                  | canvas_api.TokenInvalidError => refresh_data.invalid_token
                  | canvas_api.RateLimitError | canvas_api.CanvasAPIError =>
                      refresh_data.canvas_api_error
                  | canvas_api.OtherError => refresh_data.unexpected_error
                  end)
       ∧ omap (fun ev => match ev with refresh_data.Db c => Some c | _ => None end) run.2
         = match e with
           | canvas_api.TokenInvalidError => [refresh_data.update_user_token_status uid false]
           | _ => []
           end)
  ∧ (∀ a c calls counts,
       gateway assignments 0%nat = canvas_api.Returned a →
       gateway courses_request 0%nat = canvas_api.Returned c →
       refresh_data.sync_user_assignments isoformat datetime_str db uid
         (refresh_data.get_user_canvas_tasks tasks uid) a = Some (calls, counts) →
       (∀ call, call ∈ calls → refresh_data.Db call ∈ run.2)
       ∧ (refresh_data.assignments_added run.1, refresh_data.assignments_updated run.1,
          refresh_data.assignments_deleted run.1) = counts).
Proof.
  intros assignments courses_request run fetch_raised.
  subst run fetch_raised. unfold refresh_data.sync_single_user.
  fold assignments courses_request.
  destruct (gateway assignments 0%nat) as [a|e] eqn:Ha.
  2:{ destruct e; simpl; (split_and!; [done|by split; [|intros (? & ? & ? & _)]
        |eexists; split; [done|]; split; [|intros request]; rewrite ?elem_of_cons, ?elem_of_nil;
           naive_solver
        |intros u v; rewrite ?elem_of_cons, ?elem_of_nil; naive_solver
        |intros e' He'; destruct e'; naive_solver
        |done]). }
  destruct (gateway courses_request 0%nat) as [c|e] eqn:Hc.
  2:{ destruct e; simpl; (split_and!; [done|by split; [|intros (? & ? & ? & ? & _)]
        |eexists; split; [done|]; split; [|intros request]; rewrite ?elem_of_cons, ?elem_of_nil;
           naive_solver
        |intros u v; rewrite ?elem_of_cons, ?elem_of_nil; naive_solver
        |intros e' He'; destruct e'; naive_solver
        |done]). }
  assert (refresh_data.sync_user_assignments isoformat datetime_str db uid
            (refresh_data.get_user_canvas_tasks tasks uid) a = None
          ↔ ∃ x, x ∈ a ∧ x !! "id" = None) as Hraise.
  { rewrite <- (assignment_dict_None datetime_str).
    unfold refresh_data.sync_user_assignments.
    destruct (refresh_data.assignment_dict datetime_str a); simpl; naive_solver. }
  destruct (refresh_data.sync_user_assignments isoformat datetime_str db uid
              (refresh_data.get_user_canvas_tasks tasks uid) a)
    as [[calls [[added updated] deleted]]|] eqn:Hsync.
  2:{ destruct (proj1 Hraise eq_refl) as (x & Hx & Hnone). simpl.
      split_and!; [by split| | | | |intros ???? [= <-] _ Hs; by rewrite Hsync in Hs].
      - split; [done|]. intros (a' & c' & [= <-] & [= <-] & Hall).
        destruct (Hall x) as [? ?]; [set_solver|congruence].
      - eexists. split; [done|]. split; [|intros request];
          rewrite ?elem_of_cons, ?elem_of_nil; naive_solver.
      - intros u v. rewrite ?elem_of_cons, ?elem_of_nil. naive_solver.
      - intros e' He'. destruct e'; naive_solver. }
  assert (∀ x, x ∈ a → is_Some (x !! "id")) as Hids.
  { intros x Hx. destruct (x !! "id") eqn:Hid; [done|].
    assert (Some (calls, (added, updated, deleted)) = None) as Hbad; [|done].
    apply Hraise. by exists x. }
  destruct (course_loop datetime_str db uid (refresh_data.get_user_courses courses uid) c)
    as (walked & Hpre & Hwalked & Hccalls & _ & _ & Hraised).
  destruct (refresh_data.sync_user_courses datetime_str db uid
              (refresh_data.get_user_courses courses uid) c)
    as [[ccalls [cadded cupdated]] raised].
  simpl in Hccalls, Hraised.
  assert (∀ u v, refresh_data.Db (refresh_data.update_user_token_status u v)
                 ∉ map refresh_data.Db calls ++ map refresh_data.Db ccalls) as Hnoflag.
  { intros u v [Hin|Hin]%elem_of_app; apply list_elem_of_fmap in Hin as (call & [= <-] & Hin).
    - by apply (sync_user_assignments_kinds _ _ _ _ _ _ _ _ _ Hsync) in Hin.
    - rewrite Hccalls in Hin. apply list_elem_of_omap in Hin as (course & _ & Hcall).
      unfold course_call in Hcall. destruct (course !! "id"); simpl in Hcall; [|done].
      by case_bool_decide. }
  assert (∀ request, refresh_data.Fetched request
                     ∉ map refresh_data.Db calls ++ map refresh_data.Db ccalls) as Hnofetch.
  { intros request [Hin|Hin]%elem_of_app; by apply list_elem_of_fmap in Hin as (call & [=] & _). }
  split_and!.
  - by destruct raised.
  - destruct raised; simpl.
    + split; [done|]. intros (a' & c' & [= <-] & [= <-] & Hall).
      destruct Hraised as (x & rest & -> & Hnone).
      destruct (Hall x) as [? ?]; [set_solver|congruence].
    + split; [|done]. intros _. exists a, c. split_and!; [done|done|].
      subst walked. intros x [Hx|Hx]%elem_of_app; [by apply Hids|].
      by eapply Forall_forall in Hwalked.
  - simpl. eexists. split; [done|]. split; [|intros request].
    + split; [intros _; by exists a|intros _; left].
    + rewrite elem_of_cons. intros [[= ->]|Hin]; [done|]. by apply Hnofetch in Hin.
  - intros u v. simpl. rewrite !elem_of_cons. split; [|naive_solver].
    intros [[=]|[[=]|Hin]]. by apply Hnoflag in Hin.
  - intros e' He'. destruct e'; naive_solver.
  - intros a' c' calls' counts' [= <-] [= <-] Hsync'. rewrite Hsync in Hsync'.
    injection Hsync' as <- <-. split.
    + intros call Hcall. simpl. rewrite !elem_of_cons, elem_of_app. right. right. left.
      by apply list_elem_of_fmap_2.
    + by destruct raised.
Qed.

(** ** The listings of the Canvas gateway *)

Section listings_facts.
Import canvas_api canvas_listings.

Lemma reply_bind_Returned {A B} (r : Reply A) (f : A -> Reply B) (b : B) :
  r ≫= f = Returned b ↔ ∃ a, r = Returned a ∧ f a = Returned b.
Proof. destruct r as [a|e]; simpl; [|split; [done|by intros (? & ? & _)]]. naive_solver. Qed.

Lemma reply_bind_Raised {A B} (r : Reply A) (f : A -> Reply B) (e : Exn) :
  r ≫= f = Raised e ↔ r = Raised e ∨ ∃ a, r = Returned a ∧ f a = Raised e.
Proof. destruct r as [a|e']; simpl; naive_solver. Qed.

Lemma collect_Returned {A B} (body : A -> Reply (option B)) (l : list A) (out : list B) :
  collect body l = Returned out →
  Forall (fun x => ∃ o, body x = Returned o) l
  ∧ out = omap (fun x => match body x with Returned o => o | Raised _ => None end) l.
Proof.
  revert out. induction l as [|x l IH]; intros out; simpl.
  { intros [= <-]. by split. }
  intros (o & Hx & (out' & Hrest & [= <-])%reply_bind_Returned)%reply_bind_Returned.
  destruct (IH _ Hrest) as [Hall ->]. split.
  - constructor; [by exists o|done].
  - rewrite Hx. by destruct o.
Qed.

Lemma collect_Raised {A B} (body : A -> Reply (option B)) (l : list A) (e : Exn) :
  collect body l = Raised e → ∃ x, x ∈ l ∧ body x = Raised e.
Proof.
  induction l as [|x l IH]; simpl; [done|].
  intros [Hx|(o & Hx & [Hrest|(? & _ & [=])]%reply_bind_Raised)]%reply_bind_Raised.
  - exists x. split; [left|done].
  - destruct (IH Hrest) as (y & Hy & Hbody). exists y. split; [by right|done].
Qed.

Lemma lookup_None (k : string) (fields : list (string * Value)) :
  lookup k fields = None ↔ k ∉ fields.*1.
Proof.
  induction fields as [|[k' v] fields IH]; simpl; [split; [intros _ []%elem_of_nil|done]|].
  rewrite not_elem_of_cons, <- IH.
  destruct (String.eqb_spec k k') as [->|Hne]; naive_solver.
Qed.

Lemma get_Raised (d : Value) (k : string) (dflt : Value) (e : Exn) :
  get d k dflt = Raised e → e = OtherError.
Proof. destruct d; simpl; congruence. Qed.

Lemma index_Raised (d : Value) (k : string) (e : Exn) :
  index d k = Raised e → e = OtherError.
Proof. destruct d; simpl; try congruence. destruct (lookup k fields); congruence. Qed.

Lemma iterate_Raised (d : Value) (e : Exn) : iterate d = Raised e → e = OtherError.
Proof. destruct d; simpl; congruence. Qed.

Lemma course_info_Raised (course : Value) (e : Exn) :
  course_info course = Raised e → e = OtherError.
Proof.
  unfold course_info. destruct course; simpl; try congruence.
  destruct (negb _); [done|]. destruct (default (VDict []) (lookup "term" fields)); simpl; congruence.
Qed.

Lemma course_info_Some (course info : Value) :
  course_info course = Returned (Some info) →
  ∃ fields, course = VDict fields
    ∧ lookup "workflow_state" fields = Some (VStr "available")
    ∧ ∃ term_name start_at end_at,
        info = VDict [ ("id", default VNone (lookup "id" fields));
                       ("name", default (VStr "Unnamed Course") (lookup "name" fields));
                       ("course_code", default (VStr "") (lookup "course_code" fields));
                       ("term", term_name); ("start_at", start_at); ("end_at", end_at) ].
Proof.
  unfold course_info. destruct course; simpl; try done.
  destruct (lookup "workflow_state" fields) as [[]|] eqn:Hws; simpl; try done.
  destruct (String.eqb s "available") eqn:Hs; simpl; [|done]. apply String.eqb_eq in Hs as ->.
  destruct (default (VDict []) (lookup "term" fields)); simpl; try done.
  intros [= <-]. exists fields. split_and!; [done|done|]. by eexists _, _, _.
Qed.

Section assignments.
Variable fetch : nat -> Endpoint -> Reply Value.
Variable fromisoformat : string -> option (bool * datetime).

(** What holds of an entry of the assignment listing and its sort key. *)
Lemma assignment_info_Some (course assignment : Value) (aware : bool) (d : datetime)
    (info : Value) :
  assignment_info fromisoformat course assignment = Returned (Some (aware, d, info)) →
  (∃ fields, info = VDict fields ∧ fields.*1 = assignment_keys
     ∧ lookup "due_date" fields = Some (VDateTime aware d)
     ∧ lookup "course_id" fields
       = match index course "id" with Returned v => Some v | Raised _ => None end)
  ∧ ∃ fields due_at, assignment = VDict fields
      ∧ lookup "due_at" fields = Some (VStr due_at)
      ∧ fromisoformat (replace_Z due_at) = Some (aware, d)
      ∧ lookup "workflow_state" fields = Some (VStr "published").
Proof.
  unfold assignment_info. destruct assignment; simpl; try done.
  destruct (lookup "due_at" fields) as [[]|] eqn:Hdue; simpl; try done;
    try (by destruct (negb _); [|try destruct (negb _)]).
  destruct (negb (negb (String.eqb s ""))); [done|].
  destruct (lookup "workflow_state" fields) as [[]|] eqn:Hws; simpl; try done.
  destruct (String.eqb s0 "published") eqn:Hs; simpl; [|done]. apply String.eqb_eq in Hs as ->.
  destruct (fromisoformat (replace_Z s)) as [[aware' d']|] eqn:Hparse; [|done].
  destruct (default (VDict []) (lookup "submission" fields)); simpl; try done.
  destruct course; simpl; try done.
  destruct (lookup "id" fields1); simpl; [|done].
  destruct (lookup "name" fields1); simpl; [|done].
  destruct (lookup "course_code" fields1); simpl; [|done].
  intros [= <- <- <-]. split.
  - eexists. split; [done|]. by split_and!.
  - by exists fields, s.
Qed.

Lemma assignment_info_Raised (course assignment : Value) (e : Exn) :
  assignment_info fromisoformat course assignment = Raised e → e = OtherError.
Proof.
  unfold assignment_info. destruct assignment; simpl; try congruence.
  destruct (negb (truthy _)); [done|]. destruct (negb (str_eq _ _)); [done|].
  destruct (default VNone (lookup "due_at" fields)); try congruence.
  destruct (fromisoformat (replace_Z s)) as [[aware' d']|]; [|done].
  destruct (default (VDict []) (lookup "submission" fields)); simpl; try congruence.
  intros [Hr|(? & _ & [Hr|(? & _ & [Hr|(? & _ & Hr)]%reply_bind_Raised)
                          ]%reply_bind_Raised)]%reply_bind_Raised;
    try (by apply index_Raised in Hr); done.
Qed.

Lemma course_assignments_Raised (n : nat) (course : Value) (e : Exn) :
  course_assignments fetch fromisoformat n course = Raised e → e = OtherError.
Proof.
  unfold course_assignments.
  intros [Hr|(id & _ & Hr)]%reply_bind_Raised; [by apply index_Raised in Hr|].
  destruct (fetch n (Assignments id)) as [data|e'].
  - apply reply_bind_Raised in Hr as [Hr|(items & _ & Hr)]; [by apply iterate_Raised in Hr|].
    apply collect_Raised in Hr as (x & _ & Hr). by apply assignment_info_Raised in Hr.
  - destruct e'; simpl in Hr; congruence.
Qed.

Lemma course_assignments_Returned (n : nat) (course : Value)
    (l : list (bool * datetime * Value)) :
  course_assignments fetch fromisoformat n course = Returned l →
  Forall (fun x => ∃ assignment,
            assignment_info fromisoformat course assignment = Returned (Some x)) l.
Proof.
  unfold course_assignments. intros (id & _ & Hr)%reply_bind_Returned.
  destruct (fetch n (Assignments id)) as [data|e'].
  - apply reply_bind_Returned in Hr as (items & _ & Hr).
    apply collect_Returned in Hr as [_ ->]. apply Forall_forall.
    intros x (assignment & _ & Hx)%list_elem_of_omap. exists assignment.
    by destruct (assignment_info fromisoformat course assignment) as [[?|]|]; simplify_eq.
  - destruct (is_CanvasAPIError e'); [|done]. injection Hr as <-. constructor.
Qed.

Lemma all_courses_Raised (n : nat) (courses : list Value) (e : Exn) :
  all_courses fetch fromisoformat n courses = Raised e → e = OtherError.
Proof.
  revert n. induction courses as [|course rest IH]; intros n; simpl; [done|].
  intros [Hr|(? & _ & [Hr|(? & _ & [=])]%reply_bind_Raised)]%reply_bind_Raised.
  - by apply course_assignments_Raised in Hr.
  - by apply IH in Hr.
Qed.

Lemma all_courses_Returned (n : nat) (courses : list Value)
    (l : list (bool * datetime * Value)) :
  all_courses fetch fromisoformat n courses = Returned l →
  Forall (fun x => ∃ course assignment, course ∈ courses
            ∧ assignment_info fromisoformat course assignment = Returned (Some x)) l.
Proof.
  revert n l. induction courses as [|course rest IH]; intros n l; simpl.
  { intros [= <-]. constructor. }
  intros (here & Hhere & (later & Hlater & [= <-])%reply_bind_Returned)%reply_bind_Returned.
  apply Forall_app. split.
  - eapply Forall_impl; [by eapply course_assignments_Returned|].
    intros x (assignment & Hx). exists course, assignment. split; [left|done].
  - eapply Forall_impl; [by eapply IH|].
    intros x (c & assignment & Hc & Hx). exists c, assignment. split; [by right|done].
Qed.

(** Courses whose requests all fail with a Canvas error add nothing. *)
Lemma all_courses_skipped (n : nat) (courses : list Value) :
  (∀ i course, courses !! i = Some course →
     ∃ id e, index course "id" = Returned id
             ∧ fetch (n + i) (Assignments id) = Raised e ∧ is_CanvasAPIError e = true) →
  all_courses fetch fromisoformat n courses = Returned [].
Proof.
  revert n. induction courses as [|course rest IH]; intros n Hall; simpl; [done|].
  destruct (Hall 0%nat course eq_refl) as (id & e & Hid & He & Hcanvas).
  unfold course_assignments. rewrite Hid. simpl. rewrite Nat.add_0_r in He.
  rewrite He, Hcanvas. simpl. rewrite IH; [done|].
  intros i c Hc. destruct (Hall (S i) c Hc) as (id' & e' & ? & ? & ?).
  exists id', e'. split_and!; try done. by replace (S n + i)%nat with (n + S i)%nat by lia.
Qed.

Lemma sort_assignments_Raised (l : list (bool * datetime * Value)) (e : Exn) :
  sort_assignments l = Raised e → e = OtherError.
Proof. unfold sort_assignments. destruct (_ || _); congruence. Qed.

Lemma by_key_sorted (l : list (bool * datetime * Value)) :
  StronglySorted (fun a b : bool * datetime * Value => a.1.2 <= b.1.2)
                 (queries.order_by by_key l).
Proof.
  eapply StronglySorted_weaken; [|apply (order_by_sorted by_key)].
  - intros a b. unfold by_key. apply Z.leb_le.
  - intros a b. unfold by_key. rewrite Z.leb_gt, Z.leb_le. lia.
  - intros a b c. unfold by_key. rewrite !Z.leb_le. lia.
Qed.

Lemma sorted_listing (l : list (bool * datetime * Value)) :
  Forall (fun x => listed_due x.2 = Some x.1.2) l →
  StronglySorted (fun a b : bool * datetime * Value => a.1.2 <= b.1.2) l →
  StronglySorted (fun a b => ∀ da db, listed_due a = Some da → listed_due b = Some db → da <= db)
                 (snd <$> l).
Proof.
  intros Hdue Hs. induction Hs as [|x l Hs IH Hall]; [constructor|].
  apply Forall_cons in Hdue as [Hx Hdue]. simpl. constructor; [by apply IH|].
  apply Forall_fmap, Forall_forall. intros y Hy da db. simpl.
  eapply Forall_forall in Hall; [|done]. eapply Forall_forall in Hdue; [|done].
  rewrite Hx, Hdue. intros [= <-] [= <-]. done.
Qed.

End assignments.
End listings_facts.

Lemma get_courses_cases
    (fetch : nat -> canvas_listings.Endpoint -> canvas_api.Reply canvas_listings.Value) :
  (∀ e, canvas_listings.get_courses fetch = canvas_api.Raised e →
        e ≠ canvas_api.OtherError
        ∧ (fetch 0%nat canvas_listings.Courses = canvas_api.Raised e ∨ e = canvas_api.CanvasAPIError))
  ∧ (∀ e, fetch 0%nat canvas_listings.Courses = canvas_api.Raised e →
          canvas_listings.get_courses fetch = canvas_api.Raised (match e with
                                                              | canvas_api.OtherError =>
                                                                  canvas_api.CanvasAPIError
                                                              | _ => e
                                                              end))
  ∧ (∀ courses, canvas_listings.get_courses fetch = canvas_api.Returned courses →
       ∃ data items,
         fetch 0%nat canvas_listings.Courses = canvas_api.Returned data
         ∧ canvas_listings.iterate data = canvas_api.Returned items
         ∧ Forall (fun item => ∃ o, canvas_listings.course_info item = canvas_api.Returned o) items
         ∧ courses = omap (fun item => match canvas_listings.course_info item with
                                       | canvas_api.Returned o => o
                                       | canvas_api.Raised _ => None
                                       end) items).
Proof.
  unfold canvas_listings.get_courses.
  assert (∀ e, (fetch 0%nat canvas_listings.Courses
                  ≫= (fun courses_data => canvas_listings.iterate courses_data
                  ≫= (fun items => canvas_listings.collect canvas_listings.course_info items)))
               = canvas_api.Raised e →
               fetch 0%nat canvas_listings.Courses = canvas_api.Raised e
               ∨ e = canvas_api.OtherError) as Hraise.
  { intros e [Hr|(data & _ & [Hr|(items & _ & Hr)]%reply_bind_Raised)]%reply_bind_Raised.
    - by left.
    - right. by apply iterate_Raised in Hr.
    - right. apply collect_Raised in Hr as (x & _ & Hr). by apply course_info_Raised in Hr. }
  destruct (fetch 0%nat canvas_listings.Courses) as [data|e0] eqn:Hfetch; simpl.
  2:{ split_and!; [|by intros ? [= <-]; destruct e0|intros courses Hc; by destruct e0].
      intros e He. destruct e0; simpl in He; injection He as <-; split; auto. }
  simpl in Hraise.
  destruct (canvas_listings.iterate data ≫= _) as [courses|e] eqn:Hrun; simpl.
  2:{ destruct (Hraise e eq_refl) as [[=]| ->]. split_and!; try done.
      intros e [= <-]. split; [done|by right]. }
  split_and!; try done.
  intros ? [= <-]. apply reply_bind_Returned in Hrun as (items & Hitems & Hrun).
  apply collect_Returned in Hrun as [Hall ->]. by exists data, items.
Qed.

(** [get_courses] never raises anything but a [CanvasAPIError], and one
    of the subclasses [TokenInvalidError] and [RateLimitError] exactly
    when the request itself failed with it. When it returns, the body of
    the answer could be walked, no item of it raised, and the courses
    returned are, in the order of the answer, what is built from the
    items whose [workflow_state] is ['available']: dictionaries with the
    keys [id], [name], [course_code], [term], [start_at] and [end_at]. *)
Theorem course_listing (fetch : nat -> canvas_listings.Endpoint -> canvas_api.Reply canvas_listings.Value) :
  canvas_listings.get_courses fetch ≠ canvas_api.Raised canvas_api.OtherError
  ∧ (canvas_listings.get_courses fetch = canvas_api.Raised canvas_api.TokenInvalidError
     ↔ fetch 0%nat canvas_listings.Courses = canvas_api.Raised canvas_api.TokenInvalidError)
  ∧ (canvas_listings.get_courses fetch = canvas_api.Raised canvas_api.RateLimitError
     ↔ fetch 0%nat canvas_listings.Courses = canvas_api.Raised canvas_api.RateLimitError)
  ∧ (∀ courses, canvas_listings.get_courses fetch = canvas_api.Returned courses →
       ∃ data items,
         fetch 0%nat canvas_listings.Courses = canvas_api.Returned data
         ∧ canvas_listings.iterate data = canvas_api.Returned items
         ∧ Forall (fun item => ∃ o, canvas_listings.course_info item = canvas_api.Returned o) items
         ∧ courses = omap (fun item => match canvas_listings.course_info item with
                                       | canvas_api.Returned o => o
                                       | canvas_api.Raised _ => None
                                       end) items
         ∧ Forall (fun course =>
                     ∃ fields item_fields,
                       course = canvas_listings.VDict fields ∧ fields.*1 = course_keys
                       ∧ canvas_listings.VDict item_fields ∈ items
                       ∧ canvas_listings.lookup "workflow_state" item_fields
                         = Some (canvas_listings.VStr "available")
                       ∧ canvas_listings.lookup "id" fields
                         = Some (default canvas_listings.VNone
                                   (canvas_listings.lookup "id" item_fields)))
                  courses).
Proof.
  destruct (get_courses_cases fetch) as (Hraised & Hfetch & Hreturned).
  split_and!.
  - by intros [? _]%Hraised.
  - split; [by intros [_ [?|?]]%Hraised|by intros ->%Hfetch].
  - split; [by intros [_ [?|?]]%Hraised|by intros ->%Hfetch].
  - intros courses (data & items & Hdata & Hitems & Hall & ->)%Hreturned.
    exists data, items. split_and!; try done.
    apply Forall_forall. intros course (item & Hitem & Hcourse)%list_elem_of_omap.
    destruct (canvas_listings.course_info item) as [o|] eqn:Hinfo; [|done]. subst o.
    apply course_info_Some in Hinfo as (fields & -> & Hws & tn & sa & ea & ->).
    eexists _, fields. split_and!; done.
Qed.

(** [get_assignments] never raises anything but a [CanvasAPIError], and
    one of the subclasses [TokenInvalidError] and [RateLimitError]
    exactly when the request for the course listing failed with it: the
    same failure of a request for the assignments of a course is
    swallowed. Every entry it returns is a dictionary with the keys
    [id], [title], [due_date], ..., [source], hence without the keys
    [name] and [due_at]; its [due_date] is a [datetime], parsed from the
    [due_at] of a published assignment, and its [course_id] is the id of
    a course of the listing. The entries come ordered by due date, and
    their dates either all carry an offset or all carry none. *)
Theorem assignment_listing
    (fetch : nat -> canvas_listings.Endpoint -> canvas_api.Reply canvas_listings.Value)
    (fromisoformat : string -> option (bool * datetime)) :
  let run := canvas_listings.get_assignments fetch fromisoformat in
  run ≠ canvas_api.Raised canvas_api.OtherError
  ∧ (run = canvas_api.Raised canvas_api.TokenInvalidError
     ↔ fetch 0%nat canvas_listings.Courses = canvas_api.Raised canvas_api.TokenInvalidError)
  ∧ (run = canvas_api.Raised canvas_api.RateLimitError
     ↔ fetch 0%nat canvas_listings.Courses = canvas_api.Raised canvas_api.RateLimitError)
  ∧ (∀ listing, run = canvas_api.Returned listing →
       (∃ courses, canvas_listings.get_courses fetch = canvas_api.Returned courses
          ∧ Forall (fun a =>
                      ∃ fields aware d course course_id assignment due_at,
                        a = canvas_listings.VDict fields ∧ fields.*1 = assignment_keys
                        ∧ canvas_listings.lookup "name" fields = None
                        ∧ canvas_listings.lookup "due_at" fields = None
                        ∧ canvas_listings.lookup "due_date" fields
                          = Some (canvas_listings.VDateTime aware d)
                        ∧ course ∈ courses
                        ∧ canvas_listings.index course "id" = canvas_api.Returned course_id
                        ∧ canvas_listings.lookup "course_id" fields = Some course_id
                        ∧ canvas_listings.lookup "due_at" assignment
                          = Some (canvas_listings.VStr due_at)
                        ∧ canvas_listings.lookup "workflow_state" assignment
                          = Some (canvas_listings.VStr "published")
                        ∧ fromisoformat (canvas_listings.replace_Z due_at) = Some (aware, d))
                   listing)
       ∧ StronglySorted (fun a b => ∀ da db, listed_due a = Some da → listed_due b = Some db →
                                             da <= db) listing
       ∧ ((∀ a, a ∈ listing → ∃ fields d, a = canvas_listings.VDict fields
               ∧ canvas_listings.lookup "due_date" fields = Some (canvas_listings.VDateTime true d))
          ∨ (∀ a, a ∈ listing → ∃ fields d, a = canvas_listings.VDict fields
               ∧ canvas_listings.lookup "due_date" fields
                 = Some (canvas_listings.VDateTime false d)))).
Proof.
  intros run. subst run. unfold canvas_listings.get_assignments.
  destruct (get_courses_cases fetch) as (Hraised & Hfetch & Hreturned).
  destruct (canvas_listings.get_courses fetch) as [courses|e0] eqn:Hcourses; simpl.
  2:{ destruct (Hraised e0 eq_refl) as [Hne Hcase].
      split_and!; [by destruct e0| | |intros listing Hl; by destruct e0].
      - split; [destruct e0; try done; by destruct Hcase|].
        intros He%Hfetch. by injection He as ->.
      - split; [destruct e0; try done; by destruct Hcase|].
        intros He%Hfetch. by injection He as ->. }
  destruct (Hreturned courses eq_refl) as (data & items & Hdata & _).
  destruct (canvas_listings.all_courses fetch fromisoformat 1 courses) as [all|e] eqn:Hall; simpl.
  2:{ apply all_courses_Raised in Hall as ->. split_and!; try done; rewrite Hdata; by split. }
  destruct (canvas_listings.sort_assignments all) as [listing|e] eqn:Hsort; simpl.
  2:{ apply sort_assignments_Raised in Hsort as ->. split_and!; try done; rewrite Hdata; by split. }
  split_and!; try done; try (rewrite Hdata; by split). intros ? [= <-].
  unfold canvas_listings.sort_assignments in Hsort.
  destruct (forallb _ all || forallb _ all) eqn:Hkinds; [|done]. injection Hsort as <-.
  apply all_courses_Returned in Hall.
  assert (Forall (fun x : bool * datetime * canvas_listings.Value =>
                    ∃ course assignment, course ∈ courses
                      ∧ canvas_listings.assignment_info fromisoformat course assignment
                        = canvas_api.Returned (Some x))
                 (queries.order_by canvas_listings.by_key all)) as Hsorted.
  { apply Forall_forall. intros x Hx%elem_of_order_by. by eapply Forall_forall in Hall. }
  split_and!.
  - exists courses. split; [done|]. apply Forall_fmap, Forall_forall.
    intros [[aware d] info] Hx. eapply Forall_forall in Hsorted; [|done].
    destruct Hsorted as (course & assignment & Hc & Hinfo).
    apply assignment_info_Some in Hinfo
      as [(fields & -> & Hkeys & Hdue & Hcid) (afields & due_at & -> & Hat & Hparse & Hws)].
    destruct (canvas_listings.index course "id") as [cid|] eqn:Hidx.
    2:{ apply lookup_None in Hcid. rewrite Hkeys in Hcid. unfold assignment_keys in Hcid.
        set_solver. }
    exists fields, aware, d, course, cid, afields, due_at. simpl.
    split_and!; try done; apply lookup_None; rewrite Hkeys; unfold assignment_keys;
      set_solver.
  - apply sorted_listing; [|apply by_key_sorted].
    apply Forall_forall. intros [[aware d] info] Hx. eapply Forall_forall in Hsorted; [|done].
    destruct Hsorted as (course & assignment & Hc & Hinfo).
    apply assignment_info_Some in Hinfo as [(fields & -> & Hkeys & Hdue & Hcid) _].
    simpl. by rewrite Hdue.
  - apply orb_true_iff in Hkinds as [Hk|Hk]; [left|right]; intros a Ha;
      apply list_elem_of_fmap in Ha as ([[aware d] info] & -> & Hx);
      pose proof Hx as Hx'; apply elem_of_order_by in Hx';
      rewrite forallb_forall in Hk; apply list_elem_of_In, Hk in Hx'; simpl in Hx';
      eapply Forall_forall in Hsorted; [|done| |done];
      destruct Hsorted as (course & assignment & Hc & Hinfo);
      apply assignment_info_Some in Hinfo as [(fields & -> & Hkeys & Hdue & Hcid) _];
      exists fields, d; (split; [done|]); destruct aware; done.
Qed.

(** When the request for the assignments of every listed course fails
    with a Canvas error, be it a rate limit or an invalid token,
    [get_assignments] returns the empty list all the same. Reconciled
    against that snapshot, every mirrored task with a Canvas assignment
    id is handed to [delete_task], and nothing else is asked of the
    query layer. *)
Theorem failed_course_requests_empty_the_mirror
    (fetch : nat -> canvas_listings.Endpoint -> canvas_api.Reply canvas_listings.Value)
    (fromisoformat : string -> option (bool * datetime))
    (courses : list canvas_listings.Value) :
  canvas_listings.get_courses fetch = canvas_api.Returned courses →
  (∀ i course id, courses !! i = Some course →
     canvas_listings.index course "id" = canvas_api.Returned id →
     ∃ e, fetch (S i) (canvas_listings.Assignments id) = canvas_api.Raised e
          ∧ canvas_api.is_CanvasAPIError e = true) →
  canvas_listings.get_assignments fetch fromisoformat = canvas_api.Returned []
  ∧ ∀ (isoformat datetime_str : datetime -> string) (db : refresh_data.DbCall -> bool)
      (uid : Z) (existing_tasks : list (Z * Task)),
      ∃ calls counts,
        refresh_data.sync_user_assignments isoformat datetime_str db uid existing_tasks []
        = Some (calls, counts)
        ∧ (∀ tid t s, (tid, t) ∈ existing_tasks → canvas_assignment_id t = Some s → s ≠ "" →
                      refresh_data.delete_task tid ∈ calls)
        ∧ (∀ c, c ∈ calls → ∃ tid, c = refresh_data.delete_task tid).
Proof.
  intros Hcourses Hfail. split.
  - unfold canvas_listings.get_assignments. rewrite Hcourses. simpl.
    rewrite (all_courses_skipped fetch fromisoformat 1 courses); [done|].
    intros i course Hi.
    destruct (get_courses_cases fetch) as (_ & _ & Hreturned).
    destruct (Hreturned courses Hcourses) as (data & items & _ & _ & _ & ->).
    assert (∃ id, canvas_listings.index course "id" = canvas_api.Returned id) as [id Hid].
    { apply list_elem_of_lookup_2, list_elem_of_omap in Hi as (item & _ & Hinfo).
      destruct (canvas_listings.course_info item) as [o|] eqn:Hitem; [|done]. subst o.
      apply course_info_Some in Hitem as (fields & -> & _ & tn & sa & ea & ->).
      by eexists. }
    destruct (Hfail i course id Hi Hid) as (e & He & Hcanvas). by exists id, e.
  - intros isoformat datetime_str db uid existing_tasks.
    destruct (refresh_data.sync_user_assignments isoformat datetime_str db uid existing_tasks [])
      as [[calls counts]|] eqn:Hsync; [|done].
    exists calls, counts. split; [done|].
    destruct (sync_user_assignments_calls _ _ _ _ _ _ _ _ Hsync)
      as (d & Hd & Hcreate & Hdelete & Hupdate).
    injection Hd as <-. split.
    + intros tid t s Hrow Hs Hne. apply Hdelete. exists t, s. split_and!; [done|done|].
      rewrite dom_empty_L, difference_empty_L. unfold refresh_data.existing_ids.
      apply elem_of_list_to_set, list_elem_of_omap. exists (tid, t). split; [done|].
      simpl. rewrite Hs. simpl. apply String.eqb_neq in Hne. by rewrite Hne.
    + intros c Hc. destruct c as [data|tid data|tid| |].
      * apply Hcreate in Hc as (i & a & Hi & _). rewrite dom_empty_L in Hi. set_solver.
      * apply Hupdate in Hc as (i & a & t & Hi & _). rewrite dom_empty_L in Hi. set_solver.
      * by exists tid.
      * by apply (sync_user_assignments_kinds _ _ _ _ _ _ _ _ _ Hsync) in Hc.
      * by apply (sync_user_assignments_kinds _ _ _ _ _ _ _ _ _ Hsync) in Hc.
Qed.

(** One available course; the request for its assignments is rate
    limited. *)
Lemma failed_course_requests_empty_the_mirror_witness :
  let fetch := fun (n : nat) (endpoint : canvas_listings.Endpoint) =>
    match endpoint with
    | canvas_listings.Courses =>
        canvas_api.Returned
          (canvas_listings.VList
             [canvas_listings.VDict [("id", canvas_listings.VInt 5);
                                  ("workflow_state", canvas_listings.VStr "available")]])
    | canvas_listings.Assignments _ => canvas_api.Raised canvas_api.RateLimitError
    end in
  canvas_listings.get_assignments fetch (fun _ => None) = canvas_api.Returned [].
Proof.
  intros fetch.
  refine (proj1 (failed_course_requests_empty_the_mirror fetch (fun _ => None) _ eq_refl _)).
  intros i course id _ _. by exists canvas_api.RateLimitError.
Defined.
